(** * music_agent.py: a shallow embedding and its checked properties

    The embedding follows src/music_agent.py class by class.  Python values
    are modelled as follows.

    - [str] is a list of Unicode code points ([pystr]); [len] is [length],
      slicing [s[:n]] is [take n].  Literals are written [u "..."] for ASCII
      text; a non-ASCII code point is spelled by its number.
    - [int] is [Z]; [Optional[int]] is [option Z].
    - a [dict] read in insertion order is an association list; a [dict] or
      [set] used only for lookup and membership is a [gmap] or [gset].
    - an exception is the [Raise] case of [result].
    - library functions whose code is not part of the repository
      ([str.lower], [str.capitalize], [str.isdigit], [int], [re.match],
      [jellyfish.jaro_winkler], the draws of the [random] module) are
      parameters of the definitions that call them; [random.choice] and
      [random.randint] are written out over [_randbelow].
    - a method that draws from [random] or updates its instance takes the
      state and returns it beside its result. *)

From Stdlib Require Import ZArith NArith QArith String Ascii List Lia Bool.
From Stdlib Require Import DecimalString.
From stdpp Require Import base option list gmap.

Import ListNotations.
Open Scope Z_scope.

(* ================================================================== *)
(** * Part I: the model *)
(* ================================================================== *)

(** ** Python strings *)

Definition pystr : Type := list N.

(** An ASCII literal as a Python string. *)
Definition u (s : string) : pystr :=
  List.map N_of_ascii (list_ascii_of_string s).

(** [len(xs)], for strings and lists. *)
Definition len {A} (xs : list A) : Z := Z.of_nat (length xs).

(** [s.startswith(p)] *)
Fixpoint startswith (p s : pystr) : bool :=
  match p, s with
  | [], _ => true
  | _ :: _, [] => false
  | a :: p', b :: s' => N.eqb a b && startswith p' s'
  end.

(** [s.endswith(p)] *)
Definition endswith (p s : pystr) : bool := startswith (rev p) (rev s).

(** [sub in s] for strings: [sub] occurs at some offset of [s]. *)
Fixpoint str_in (sub s : pystr) : bool :=
  startswith sub s ||
  match s with
  | [] => false
  | _ :: s' => str_in sub s'
  end.

(** [any(term in s for term in terms)] *)
Definition any_term_in (terms : list pystr) (s : pystr) : bool :=
  existsb (fun term => str_in term s) terms.

(** [x in xs] for a list of strings. *)
Definition list_in (x : pystr) (xs : list pystr) : bool :=
  existsb (fun y => bool_decide (x = y)) xs.

(** The code points [str.split()] treats as separators ([str.isspace]). *)
Definition isspace (c : N) : bool :=
  ((9 <=? c) && (c <=? 13) || (28 <=? c) && (c <=? 32) ||
   (c =? 133) || (c =? 160) || (c =? 5760) ||
   (8192 <=? c) && (c <=? 8202) || (c =? 8232) || (c =? 8233) ||
   (c =? 8239) || (c =? 8287) || (c =? 12288))%N.

(** [s.split()]: maximal runs of non-space code points, in order. *)
Fixpoint split_from (word : pystr) (s : pystr) : list pystr :=
  match s with
  | [] => match word with [] => [] | _ => [word] end
  | c :: s' =>
      if isspace c
      then match word with
           | [] => split_from [] s'
           | _ => word :: split_from [] s'
           end
      else split_from (word ++ [c]) s'
  end.

Definition split (s : pystr) : list pystr := split_from [] s.

(** [s.split(sep)[0]] for a one-character separator: the text before the
    first [sep], or all of [s]. *)
Fixpoint split_first (sep : N) (s : pystr) : pystr :=
  match s with
  | [] => []
  | c :: s' => if N.eqb c sep then [] else c :: split_first sep s'
  end.

(** [sep.join(parts)] *)
Fixpoint join (sep : pystr) (parts : list pystr) : pystr :=
  match parts with
  | [] => []
  | [p] => p
  | p :: rest => p ++ sep ++ join sep rest
  end.

(** [str(n)] for an integer, as in an f-string field. *)
Definition str_of_int (n : Z) : pystr := u (NilZero.string_of_int (Z.to_int n)).

(** [list(dict.fromkeys(xs))]: the keys in insertion order; a key already
    present keeps its place. *)
Definition dict_fromkeys (xs : list pystr) : list pystr :=
  fold_left (fun keys k => if list_in k keys then keys else keys ++ [k]) xs [].

(** A lower-casing that agrees with [str.lower] on ASCII and Latin-1 text;
    it instantiates the [lower] parameter in the examples. *)
Definition lower_code_point (c : N) : N :=
  (if (65 <=? c) && (c <=? 90) then c + 32
   else if (192 <=? c) && (c <=? 222) && negb (c =? 215) then c + 32
   else c)%N.

Definition lower_latin1 (s : pystr) : pystr := List.map lower_code_point s.

(** ** Exceptions *)

Inductive exn : Type :=
| AttributeError (attr : string)
| IndexError
| KeyError (key : pystr)
| ValueError.

Inductive result (A : Type) : Type :=
| Ok (a : A)
| Raise (e : exn).
Arguments Ok {A} a.
Arguments Raise {A} e.

#[global] Instance result_ret : MRet result := fun A a => Ok a.
#[global] Instance result_bind : MBind result := fun A B f m =>
  match m with
  | Ok a => f a
  | Raise e => Raise e
  end.

(** A [for] loop over [xs] whose body updates the loop state [s] and may
    raise; the first exception ends the loop. *)
Fixpoint for_each {M : Type -> Type} `{!MBind M, !MRet M} {A S}
    (xs : list A) (body : S -> A -> M S) (s : S) : M S :=
  match xs with
  | [] => mret s
  | x :: xs' => s' ← body s x; for_each xs' body s'
  end.

(** [enumerate(xs, start)] *)
Fixpoint enumerate {A} (start : nat) (xs : list A) : list (nat * A) :=
  match xs with
  | [] => []
  | x :: xs' => (start, x) :: enumerate (S start) xs'
  end.

(** [template.format] with keyword arguments [kwargs], for a template
    whose braces delimit field names: [field] is the name being read after
    an opening brace.  The text substituted for a field is not scanned
    again. *)
Fixpoint format_from (kwargs : list (pystr * pystr)) (field : option pystr)
    (template : pystr) : result pystr :=
  match template, field with
  | [], None => Ok []
  | [], Some _ => Raise ValueError
  | c :: template', None =>
      if (c =? 123)%N then format_from kwargs (Some []) template'
      else if (c =? 125)%N then Raise ValueError
      else rest ← format_from kwargs None template'; Ok (c :: rest)
  | c :: template', Some f =>
      if (c =? 125)%N then
        match List.find (fun kv => bool_decide (fst kv = f)) kwargs with
        | Some kv => rest ← format_from kwargs None template'; Ok (snd kv ++ rest)
        | None => Raise (KeyError f)
        end
      else format_from kwargs (Some (f ++ [c])) template'
  end.

Definition format (template : pystr) (kwargs : list (pystr * pystr))
  : result pystr :=
  format_from kwargs None template.

(** [itertools.combinations(xs, 2)] *)
Fixpoint combinations2 {A} (xs : list A) : list (A * A) :=
  match xs with
  | [] => []
  | x :: xs' => List.map (pair x) xs' ++ combinations2 xs'
  end.

(** [xs[:stop]] *)
Definition slice_to {A} (xs : list A) (stop : Z) : list A :=
  if stop <? 0 then take (Z.to_nat (Z.of_nat (length xs) + stop)) xs
  else take (Z.to_nat stop) xs.

(** [range(n)] *)
Definition range (n : Z) : list nat := seq 0 (Z.to_nat n).

(** [range(start, stop, step)] *)
Definition range_step (start stop step : Z) : result (list Z) :=
  if step =? 0 then Raise ValueError
  else
    let n := if 0 <? step then (stop - start + step - 1) / step
             else (start - stop - step - 1) / (- step) in
    Ok (List.map (fun k => start + Z.of_nat k * step) (seq 0 (Z.to_nat n))).

(** A dict as its items in insertion order: [d.get(key)] and [d[key]]. *)
Definition dict_get {V} (d : list (pystr * V)) (key : pystr) : option V :=
  match List.find (fun kv => bool_decide (fst kv = key)) d with
  | Some kv => Some (snd kv)
  | None => None
  end.

Definition dict_item {V} (d : list (pystr * V)) (key : pystr) : result V :=
  match dict_get d key with
  | Some v => Ok v
  | None => Raise (KeyError key)
  end.

(** [d[key] = value]: the value of a key already present is replaced in
    place, a new key comes last. *)
Fixpoint dict_set {V} (d : list (pystr * V)) (key : pystr) (value : V)
  : list (pystr * V) :=
  match d with
  | [] => [(key, value)]
  | (k, v) :: d' =>
      if bool_decide (k = key) then (k, value) :: d'
      else (k, v) :: dict_set d' key value
  end.

(** [xs[0]] *)
Definition first_item {A} (xs : list A) : result A :=
  match xs with
  | x :: _ => Ok x
  | [] => Raise IndexError
  end.

(** ** The data model *)

(** [@dataclass class Genre] *)
Record Genre : Type := mkGenre {
  id : Z;
  name : pystr;
  level : Z;
  parent_id : option Z;
  region : pystr;
  language : pystr;
  period : pystr;
  status : pystr;
  instruments : pystr;
  pioneers : pystr;
  artists : pystr;
  works : pystr;
  source : pystr;
  bpm : pystr;
  time_signature : pystr
}.

(** A candidate produced by the generator: the dict
    [{'name': ..., 'type': ..., 'components': [...]}]. *)
Record Combo : Type := mkCombo {
  combo_name : pystr;
  combo_type : pystr;
  components : list pystr
}.

(** The dict returned by [generate_realistic_metadata], splatted into the
    [Genre] constructor by [**metadata]. *)
Record Metadata : Type := mkMetadata {
  md_region : pystr;
  md_language : pystr;
  md_period : pystr;
  md_status : pystr;
  md_instruments : pystr;
  md_pioneers : pystr;
  md_artists : pystr;
  md_works : pystr;
  md_source : pystr;
  md_bpm : pystr;
  md_time_signature : pystr
}.

(** ** MetadataEnricher *)

Module MetadataEnricher.
Section Enricher.
(** [str.lower] *)
Variable lower : pystr -> pystr.

(** [self.period_rules], in insertion order. *)
Definition period_rules : list (pystr * pystr) :=
  [ (u "Ancient", u "3000BC-500AD");
    (u "Medieval", u "500-1400");
    (u "Renaissance", u "1400-1600");
    (u "Baroque", u "1600-1750");
    (u "Classical", u "1750-1820");
    (u "Romantic", u "1820-1900");
    (u "Modern", u "1900-2000");
    (u "Contemporary", u "2000-now");
    (u "Electronic", u "1960-now");
    (u "Digital", u "1990-now");
    (u "Prehistoric", u "40000BC-3000BC") ].

(** The [for era, period in self.period_rules.items()] loop of
    [_infer_period]: [Some period] is its [return period]. *)
Fixpoint scan_period_rules (rules : list (pystr * pystr)) (genre_name : pystr)
  : option pystr :=
  match rules with
  | [] => None
  | (era, period) :: rest =>
      if str_in (lower era) (lower genre_name) then Some period
      else scan_period_rules rest genre_name
  end.

Definition _infer_period (genre_name : pystr) : pystr :=
  match scan_period_rules period_rules genre_name with
  | Some period => period
  | None =>
      if any_term_in [u "electronic"; u "synth"; u "digital"; u "cyber"]
           (lower genre_name)
      then u "1980-now"
      else if any_term_in [u "traditional"; u "folk"; u "ethnic"]
                (lower genre_name)
      then u "1800-now"
      else if any_term_in [u "classical"; u "baroque"; u "romantic"]
                (lower genre_name)
      then u "1600-1900"
      else u "1950-now"
  end.

Definition _infer_status (genre_name period : pystr) : pystr :=
  if str_in (u "extinct") (lower genre_name) || endswith (u "1900") period
  then u "X"
  else if any_term_in [u "emerging"; u "new"; u "future"] (lower genre_name)
  then u "E"
  else if endswith (u "now") period
  then u "A"
  else u "H".

(** [self.instrument_mappings], in insertion order. *)
Definition instrument_mappings : list (pystr * list pystr) :=
  [ (u "Electronic",
     [u "Synthesizer"; u "Drum Machine"; u "Sampler"; u "Computer"; u "Sequencer"]);
    (u "Rock", [u "Electric Guitar"; u "Bass Guitar"; u "Drums"; u "Vocals"]);
    (u "Jazz",
     [u "Saxophone"; u "Trumpet"; u "Piano"; u "Double Bass"; u "Drums"; u "Clarinet"]);
    (u "Classical",
     [u "Orchestra"; u "Piano"; u "Violin"; u "Cello"; u "Flute"; u "Oboe"]);
    (u "Folk",
     [u "Acoustic Guitar"; u "Fiddle"; u "Harmonica"; u "Banjo"; u "Mandolin"]);
    (u "Hip-Hop", [u "Turntables"; u "MPC"; u "Vocals"; u "Sampler"; u "808"]);
    (u "Metal",
     [u "Electric Guitar"; u "Bass Guitar"; u "Double Bass Drum"; u "Vocals"]);
    (u "Blues",
     [u "Electric Guitar"; u "Acoustic Guitar"; u "Harmonica"; u "Piano";
      u "Slide Guitar"; u "Vocals"]);
    (u "Country",
     [u "Acoustic Guitar"; u "Steel Guitar"; u "Fiddle"; u "Banjo"; u "Vocals"]);
    (u "Reggae",
     [u "Bass Guitar"; u "Drums"; u "Electric Guitar"; u "Keyboards"; u "Vocals"]);
    (u "Soul",
     [u "Vocals"; u "Electric Guitar"; u "Bass"; u "Drums"; u "Organ"; u "Horns"]);
    (u "Funk",
     [u "Bass Guitar"; u "Electric Guitar"; u "Drums"; u "Synthesizer"; u "Horns"]);
    (u "Punk", [u "Electric Guitar"; u "Bass Guitar"; u "Drums"; u "Vocals"]);
    (u "Ambient",
     [u "Synthesizer"; u "Field Recordings"; u "Effects"; u "Tape Loops"]);
    (u "Pop", [u "Vocals"; u "Synthesizer"; u "Drums"; u "Guitar"; u "Bass"]) ].

(** [self.bpm_mappings], in insertion order. *)
Definition bpm_mappings : list (pystr * pystr) :=
  [ (u "Ambient", u "60-80"); (u "Doom Metal", u "40-80");
    (u "Hip-Hop", u "85-115"); (u "House", u "118-135");
    (u "Techno", u "120-150"); (u "Drum & Bass", u "160-180");
    (u "Dubstep", u "138-142"); (u "Trance", u "128-140");
    (u "Blues", u "60-120"); (u "Jazz", u "60-180"); (u "Rock", u "110-140");
    (u "Punk", u "150-200"); (u "Metal", u "100-200");
    (u "Classical", u "40-200"); (u "Folk", u "80-120");
    (u "Country", u "80-120"); (u "Reggae", u "60-90"); (u "Soul", u "60-100");
    (u "Funk", u "90-120"); (u "Pop", u "100-130") ].

(** [self.time_signature_mappings], in insertion order. *)
Definition time_signature_mappings : list (pystr * list pystr) :=
  [ (u "Jazz", [u "4/4"; u "3/4"; u "5/4"; u "7/4"; u "6/8"]);
    (u "Classical", [u "4/4"; u "3/4"; u "2/4"; u "6/8"; u "3/8"; u "5/4"]);
    (u "Rock", [u "4/4"; u "3/4"; u "6/8"]);
    (u "Blues", [u "4/4"; u "12/8"; u "6/8"]);
    (u "Folk", [u "4/4"; u "3/4"; u "6/8"; u "2/4"]);
    (u "Electronic", [u "4/4"; u "3/4"]);
    (u "Metal", [u "4/4"; u "3/4"; u "5/4"; u "7/8"; u "9/8"]);
    (u "Punk", [u "4/4"; u "3/4"]);
    (u "Hip-Hop", [u "4/4"]);
    (u "Reggae", [u "4/4"]);
    (u "Country", [u "4/4"; u "3/4"; u "2/4"]);
    (u "Pop", [u "4/4"; u "3/4"]) ].

(** The loop [for key, value in mapping.items()] that stops at the first
    key whose lower-cased text occurs in [genre_lower]. *)
Definition first_key_in {V} (mapping : list (pystr * V)) (genre_lower : pystr)
  : option (pystr * V) :=
  List.find (fun kv => str_in (lower (fst kv)) genre_lower) mapping.

(** [_infer_region]; 241 is the code point of n with tilde. *)
Definition _infer_region (genre_name : pystr) : pystr :=
  let regions :=
    [ u "USA"; u "UK"; u "Deutschland"; u "France"; u "Italia";
      u "Espa" ++ [241%N] ++ u "a"; u "Japan"; u "Korea"; u "China";
      u "India"; u "Brasil"; u "Africa" ] in
  match List.find (fun region => str_in (lower region) (lower genre_name)) regions with
  | Some region => region
  | None =>
      if any_term_in [u "nordic"; u "scandinavian"] (lower genre_name)
      then u "Scandinavia"
      else if str_in (u "latin") (lower genre_name)
      then u "Latin America"
      else if str_in (u "african") (lower genre_name)
              || str_in (u "afro") (lower genre_name)
      then u "Africa"
      else if str_in (u "asian") (lower genre_name)
      then u "Asia"
      else if str_in (u "european") (lower genre_name)
              || str_in (u "euro") (lower genre_name)
      then u "Europe"
      else u "Global"
  end.

Definition _infer_language (region : pystr) : pystr :=
  let language_map :=
    [ (u "USA", u "EN"); (u "UK", u "EN"); (u "Deutschland", u "DE");
      (u "France", u "FR"); (u "Italia", u "IT");
      (u "Espa" ++ [241%N] ++ u "a", u "ES"); (u "Japan", u "JA");
      (u "Korea", u "KO"); (u "China", u "ZH"); (u "India", u "HI");
      (u "Brasil", u "PT"); (u "Russia", u "RU"); (u "Global", u "Multi");
      (u "Africa", u "Multi"); (u "Latin America", u "ES") ] in
  default (u "EN") (dict_get language_map region).

(** [str.capitalize] *)
Variable capitalize : pystr -> pystr.

(** The blocks of [_infer_instruments], in their order: the terms related
    to a family of instruments, tried when no key of the mapping matched; *)
Definition related_instruments (genre_lower : pystr) (instruments : list pystr)
  : list pystr :=
  let instruments :=
    if any_term_in [u "guitar"; u "string"; u "acoustic"] genre_lower
    then instruments ++ [u "Acoustic Guitar"; u "Electric Guitar"]
    else instruments in
  let instruments :=
    if any_term_in [u "synth"; u "electronic"; u "digital"; u "cyber"] genre_lower
    then instruments ++ [u "Synthesizer"; u "Drum Machine"; u "Sampler"]
    else instruments in
  let instruments :=
    if any_term_in [u "orchestral"; u "symphonic"; u "chamber"] genre_lower
    then instruments ++ [u "Orchestra"; u "Strings"; u "Woodwinds"; u "Brass"]
    else instruments in
  let instruments :=
    if any_term_in [u "vocal"; u "a cappella"; u "choir"] genre_lower
    then instruments ++ [u "Vocals"]
    else instruments in
  let instruments :=
    if any_term_in [u "drum"; u "percussion"; u "rhythm"] genre_lower
    then instruments ++ [u "Drums"]
    else instruments in
  instruments.

(** the instruments added for a keyword, unless already listed; *)
Definition keyword_instruments (genre_lower : pystr) (instruments : list pystr)
  : list pystr :=
  let instruments :=
    if str_in (u "acoustic") genre_lower
       && negb (list_in (u "Acoustic Guitar") instruments)
    then instruments ++ [u "Acoustic Guitar"] else instruments in
  let instruments :=
    if str_in (u "electric") genre_lower
       && negb (list_in (u "Electric Guitar") instruments)
    then instruments ++ [u "Electric Guitar"] else instruments in
  let instruments :=
    if str_in (u "piano") genre_lower && negb (list_in (u "Piano") instruments)
    then instruments ++ [u "Piano"] else instruments in
  let instruments :=
    if str_in (u "sax") genre_lower && negb (list_in (u "Saxophone") instruments)
    then instruments ++ [u "Saxophone"] else instruments in
  instruments.

(** the first three instruments of a base genre, tried when the list is
    still empty. *)
Definition base_genre_instruments (genre_lower : pystr) (instruments : list pystr)
  : list pystr :=
  match List.find (fun base => str_in base genre_lower)
          [u "rock"; u "jazz"; u "blues"; u "electronic"; u "classical"; u "folk"]
  with
  | Some base =>
      instruments ++
      slice_to (default [u "Various"]
                  (dict_get instrument_mappings (capitalize base))) 3
  | None => instruments
  end.

Definition _infer_instruments (genre_name : pystr) : pystr :=
  let genre_lower := lower genre_name in
  let '(instruments, matched) :=
    match first_key_in instrument_mappings genre_lower with
    | Some (_, instr_list) => (instr_list, true)
    | None => ([], false)
    end in
  let instruments :=
    if negb matched then related_instruments genre_lower instruments
    else instruments in
  let instruments := keyword_instruments genre_lower instruments in
  let instruments :=
    if bool_decide (instruments = [])
    then base_genre_instruments genre_lower instruments
    else instruments in
  let instruments :=
    if bool_decide (instruments = []) then [u "Various"] else instruments in
  let unique_instruments := slice_to (dict_fromkeys instruments) 5 in
  join (u "/") unique_instruments.

Definition _infer_bpm (genre_name : pystr) : pystr :=
  let genre_lower := lower genre_name in
  match first_key_in bpm_mappings genre_lower with
  | Some (_, bpm_range) => bpm_range
  | None =>
      if any_term_in [u "slow"; u "ballad"; u "downtempo"; u "chill"] genre_lower
      then u "60-90"
      else if any_term_in [u "fast"; u "speed"; u "hardcore"; u "thrash"] genre_lower
      then u "150-200"
      else if any_term_in [u "mid-tempo"; u "moderate"] genre_lower
      then u "90-120"
      else if any_term_in [u "uptempo"; u "dance"; u "club"] genre_lower
      then u "120-140"
      else if str_in (u "drum & bass") genre_lower || str_in (u "d&b") genre_lower
      then u "160-180"
      else if str_in (u "dubstep") genre_lower
      then u "138-142"
      else if str_in (u "trap") genre_lower
      then u "140-170"
      else if str_in (u "breakbeat") genre_lower
      then u "130-150"
      else if str_in (u "garage") genre_lower
      then u "130-140"
      else if any_term_in [u "electronic"; u "techno"; u "house"] genre_lower
      then u "120-140"
      else if any_term_in [u "rock"; u "pop"] genre_lower
      then u "110-140"
      else if any_term_in [u "jazz"; u "blues"] genre_lower
      then u "60-120"
      else if any_term_in [u "classical"; u "orchestral"] genre_lower
      then u "40-180"
      else u "80-120"
  end.

(** The methods that draw from the [random] module: its generator state
    and the draws [_randbelow(n)] and [random.sample]; the library functions
    [str.isdigit] and [int]; and [self.artist_database] as [__init__] left
    it, in insertion order. *)
Variable rng : Type.
Variable randbelow : nat -> rng -> nat * rng.
Variable random_sample : list pystr -> Z -> rng -> result (list pystr) * rng.
Variable str_isdigit : pystr -> bool.
Variable int_of_str : pystr -> result Z.
Variable artist_database : list (pystr * list pystr).

(** A method body: it draws from the generator and returns or raises. *)
Definition R (A : Type) : Type := rng -> result A * rng.

#[local] Instance R_ret : MRet R := fun A a g => (Ok a, g).
#[local] Instance R_bind : MBind R := fun A B f m g =>
  match m g with
  | (Ok a, g') => f a g'
  | (Raise e, g') => (Raise e, g')
  end.

Definition lift {A} (r : result A) : R A := fun g => (r, g).

(** [random.choice(seq)] *)
Definition choice {A} (seq : list A) : R A := fun g =>
  match seq with
  | [] => (Raise IndexError, g)
  | _ =>
      let '(i, g') := randbelow (length seq) g in
      match seq !! i with
      | Some x => (Ok x, g')
      | None => (Raise IndexError, g')
      end
  end.

(** [random.randint(a, b)]: [a + _randbelow(b - a + 1)], ValueError for an
    empty range. *)
Definition randint (a b : Z) : R Z := fun g =>
  if a <=? b then
    let '(i, g') := randbelow (Z.to_nat (b - a + 1)) g in (Ok (a + Z.of_nat i), g')
  else (Raise ValueError, g).

(** One round of the inner loop of [_generate_artist_database]: a name, a
    year of birth and, drawn from it, a year of death, where 0 stands for
    none. *)
Definition generate_artist (genre_type : pystr) (artists : list pystr) (_ : nat)
  : R (list pystr) :=
  let first_names :=
    [ u "John"; u "Maria"; u "David"; u "Sarah"; u "Michael"; u "Anna";
      u "Robert"; u "Lisa"; u "James"; u "Emma"; u "Carlos"; u "Yuki"; u "Chen";
      u "Priya"; u "Ahmed"; u "Olga"; u "Jean"; u "Hans"; u "Giovanni";
      u "Fatima" ] in
  let last_names :=
    [ u "Smith"; u "Johnson"; u "Williams"; u "Brown"; u "Jones"; u "Garcia";
      u "Miller"; u "Davis"; u "Rodriguez"; u "Martinez"; u "Yamamoto"; u "Wang";
      u "Singh"; u "Ali"; u "Ivanov"; u "Dubois"; u "Schmidt"; u "Rossi" ] in
  first ← choice first_names;
  last ← choice last_names;
  '(birth, death) ←
    (if bool_decide (genre_type = u "Classical") then
       birth ← randint 1600 1850;
       years ← randint 40 80;
       mret (birth, birth + years)
     else if list_in genre_type [u "Blues"; u "Jazz"] then
       birth ← randint 1880 1940;
       years ← randint 50 85;
       mret (birth, birth + years)
     else
       birth ← randint 1940 1990;
       if birth >? 1960 then mret (birth, 0)
       else years ← randint 45 80; mret (birth, birth + years));
  let artist :=
    if (death =? 0) || (death >? 2024)
    then first ++ u " " ++ last ++ u " (" ++ str_of_int birth ++ u "-)"
    else first ++ u " " ++ last ++ u " (" ++ str_of_int birth ++ u "-"
         ++ str_of_int death ++ u ")" in
  mret (artists ++ [artist]).

(** [_generate_artist_database], which [__init__] stores as
    [self.artist_database]. *)
Definition _generate_artist_database : R (list (pystr * list pystr)) :=
  for_each
    [u "Blues"; u "Jazz"; u "Rock"; u "Electronic"; u "Classical"; u "Folk"]
    (fun artist_db genre_type =>
       artists ← for_each (range 50) (generate_artist genre_type) [];
       mret (dict_set artist_db genre_type artists))
    [].

(** The names an instance answers to: the attributes [__init__] sets and
    the methods of the class body. *)
Definition attributes : list string :=
  [ "period_rules"; "instrument_mappings"; "bpm_mappings";
    "time_signature_mappings"; "artist_database"; "__init__";
    "_generate_artist_database"; "generate_realistic_metadata";
    "_infer_period"; "_infer_region"; "_infer_language"; "_infer_status";
    "_infer_instruments"; "_generate_artists"; "_generate_works";
    "_infer_bpm"; "_infer_time_signature" ]%string.

(** [self.<attr>]: the bound value when the instance has the attribute,
    AttributeError otherwise. *)
Definition getattr {A} (attr : string) (value : A) : R A := fun g =>
  if existsb (String.eqb attr) attributes then (Ok value, g)
  else (Raise (AttributeError attr), g).

Definition _infer_time_signature (genre_name : pystr) : R pystr :=
  let genre_lower := lower genre_name in
  match first_key_in time_signature_mappings genre_lower with
  | Some (_, signatures) =>
      if str_in (u "waltz") genre_lower || str_in (u "triple") genre_lower
      then mret (u "3/4")
      else if str_in (u "shuffle") genre_lower || str_in (u "swing") genre_lower
      then mret (u "12/8")
      else if any_term_in [u "complex"; u "progressive"; u "math"] genre_lower
      then
        let uncommon :=
          List.filter (fun s => negb (list_in s [u "4/4"; u "3/4"])) signatures in
        match uncommon with
        | _ :: _ => lift (first_item uncommon)
        | [] => lift (first_item signatures)
        end
      else lift (first_item signatures)
  | None =>
      if str_in (u "waltz") genre_lower
      then mret (u "3/4")
      else if any_term_in [u "march"; u "polka"] genre_lower
      then mret (u "2/4")
      else if any_term_in [u "shuffle"; u "swing"; u "blues"] genre_lower
      then mret (u "12/8")
      else if any_term_in [u "odd"; u "complex"; u "progressive"] genre_lower
      then choice [u "5/4"; u "7/4"; u "7/8"; u "9/8"]
      else if str_in (u "tango") genre_lower
      then mret (u "4/4")
      else if str_in (u "jig") genre_lower
      then mret (u "6/8")
      else mret (u "4/4")
  end.

(** [_generate_artists]: the default of [get], [self.artist_database['Rock']],
    is evaluated before the lookup. *)
Definition _generate_artists (genre_name period : pystr) : R (pystr * pystr) :=
  let base_genre :=
    match List.find (fun genre => str_in (lower genre) (lower genre_name))
            (List.map fst artist_database) with
    | Some genre => genre
    | None => u "Rock"
    end in
  rock ← lift (dict_item artist_database (u "Rock"));
  let available_artists := default rock (dict_get artist_database base_genre) in
  pioneers ← random_sample available_artists (Z.min 5 (len available_artists));
  artists ← random_sample available_artists (Z.min 10 (len available_artists));
  mret (join (u "/") pioneers, join (u "/") artists).

(** One round of the loop of [_generate_works]; 45 is the hyphen. *)
Definition generate_work (period : pystr) (works : list pystr) (_ : nat)
  : R (list pystr) :=
  let work_templates :=
    [ u "{adjective} {noun}"; u "The {adjective} {noun}"; u "{noun} in {key}";
      u "{verb}ing {noun}"; u "{noun} No. {number}"; u "{place} {noun}";
      u "{color} {noun}"; u "{emotion} {noun}" ] in
  let adjectives :=
    [ u "Blue"; u "Dark"; u "Electric"; u "Silent"; u "Golden"; u "Eternal";
      u "Lost"; u "Hidden"; u "Sacred"; u "Wild" ] in
  let nouns :=
    [ u "Sky"; u "Dream"; u "River"; u "Mountain"; u "Heart"; u "Soul";
      u "Night"; u "Dawn"; u "Storm"; u "Journey" ] in
  let verbs :=
    [ u "Dance"; u "Fly"; u "Dream"; u "Sing"; u "Cry"; u "Love"; u "Fight" ] in
  let keys := [ u "A Minor"; u "C Major"; u "E Flat"; u "D Minor" ] in
  let places := [ u "London"; u "Paris"; u "Tokyo"; u "Memphis"; u "Berlin" ] in
  let colors := [ u "Blue"; u "Red"; u "Black"; u "White"; u "Purple" ] in
  let emotions :=
    [ u "Happy"; u "Sad"; u "Angry"; u "Peaceful"; u "Melancholic" ] in
  template ← choice work_templates;
  year ← (if str_in (u "-") period then
            let start_year := split_first 45 period in
            if str_isdigit start_year
            then start ← lift (int_of_str start_year); randint start 2024
            else randint 1950 2024
          else randint 1950 2024);
  adjective ← choice adjectives;
  noun ← choice nouns;
  verb ← choice verbs;
  key ← choice keys;
  number ← randint 1 9;
  place ← choice places;
  color ← choice colors;
  emotion ← choice emotions;
  work ← lift (format template
                 [ (u "adjective", adjective); (u "noun", noun); (u "verb", verb);
                   (u "key", key); (u "number", str_of_int number);
                   (u "place", place); (u "color", color);
                   (u "emotion", emotion) ]);
  mret (works ++ [work ++ u " (" ++ str_of_int year ++ u ")"]).

Definition _generate_works (genre_name artists period : pystr) : R pystr :=
  works ← for_each (range 10) (generate_work period) [];
  mret (join (u "/") (slice_to works 10)).

(** What a method named [_generate_source] would compute, were one bound
    to the instance. *)
Variable generate_source : pystr -> pystr.

Definition generate_realistic_metadata (genre_name genre_type : pystr)
  : R Metadata :=
  let period := _infer_period genre_name in
  let region := _infer_region genre_name in
  let language := _infer_language region in
  let status := _infer_status genre_name period in
  let instruments := _infer_instruments genre_name in
  let bpm := _infer_bpm genre_name in
  time_signature ← _infer_time_signature genre_name;
  '(pioneers, artists) ← _generate_artists genre_name period;
  works ← _generate_works genre_name artists period;
  _generate_source ← getattr "_generate_source" generate_source;
  let source := _generate_source genre_name in
  mret {| md_region := slice_to region 15;
          md_language := slice_to language 5;
          md_period := slice_to period 15;
          md_status := status;
          md_instruments := slice_to instruments 100;
          md_pioneers := slice_to pioneers 200;
          md_artists := slice_to artists 300;
          md_works := slice_to works 300;
          md_source := slice_to source 100;
          md_bpm := slice_to bpm 15;
          md_time_signature := slice_to time_signature 10 |}.
End Enricher.
End MetadataEnricher.

(** ** ConfigManager and DynamicGenreGenerator *)

Module DynamicGenreGenerator.

(** [config['data_sources']] *)
Record data_sources : Type := mkSources {
  regions : list pystr;
  eras : list pystr;
  instruments : list pystr;
  base_genres : list pystr
}.

(** [ConfigManager.DEFAULT_CONFIG['data_sources']]; 252 and 196 are the
    code points of u-umlaut and capital A-umlaut. *)
Definition default_data_sources : data_sources :=
  {| regions :=
       [ u "USA"; u "UK"; u "Deutschland"; u "Frankreich"; u "Italien";
         u "Spanien"; u "Japan"; u "Korea"; u "China"; u "Indien";
         u "Brasilien"; u "Mexiko"; u "Argentinien";
         u "S" ++ [252%N] ++ u "dafrika"; u "Nigeria";
         [196%N] ++ u "gypten"; u "Australien"; u "Kanada"; u "Russland";
         u "T" ++ [252%N] ++ u "rkei"; u "Polen"; u "Niederlande";
         u "Schweden"; u "Norwegen"; u "Finnland"; u "Island"; u "Irland" ];
     eras :=
       [ u "Prehistoric"; u "Ancient"; u "Medieval"; u "Renaissance";
         u "Baroque"; u "Classical"; u "Romantic"; u "Modern";
         u "Contemporary"; u "Digital" ];
     instruments :=
       [ u "Guitar/Gitarre"; u "Piano/Klavier"; u "Drums/Schlagzeug";
         u "Synthesizer"; u "Violin/Violine"; u "Saxophone/Saxophon";
         u "Trumpet/Trompete"; u "Electronic/Elektronisch"; u "Traditional" ];
     base_genres :=
       [ u "Blues"; u "Jazz"; u "Rock"; u "Electronic"; u "Hip-Hop";
         u "Classical"; u "Folk"; u "Country"; u "Metal"; u "Pop";
         u "Reggae"; u "Soul"; u "Funk"; u "Punk"; u "Ambient";
         u "Experimental" ] |}.

(** [self.genre_patterns], the three entries [generate_combinations]
    reads. *)
Definition regional_fusion_patterns : list pystr :=
  [ u "{region1} {region2} Fusion";
    u "{region1}-{region2} {base} Hybrid";
    u "Trans-{region1} {base}";
    u "{region1} meets {region2} {base}" ].

Definition era_genre_patterns : list pystr :=
  [ u "{era} {base}"; u "Neo-{era} {base}"; u "{era} Revival {base}";
    u "Post-{era} {base}" ].

Definition instrument_based_patterns : list pystr :=
  [ u "{instrument} {base}"; u "Electric {instrument} {base}";
    u "Acoustic {instrument} {base}"; u "{instrument}-driven {base}" ].

(** [self.modifiers] *)
Definition modifiers_electronic : list pystr :=
  [ u "Synth"; u "Digital"; u "Cyber"; u "Electro"; u "Techno" ].
Definition modifiers_traditional : list pystr :=
  [ u "Folk"; u "Traditional"; u "Ethnic"; u "Native"; u "Indigenous" ].
Definition modifiers_modern : list pystr :=
  [ u "New"; u "Modern"; u "Contemporary"; u "Post"; u "Neo" ].

Section Generator.
(** The state of the [random] module's generator and its two draws:
    [random.random()] as the integer [k] of the double [k / 2^53] it
    returns, and [_randbelow(n)]. *)
Variable rng : Type.
Variable random_random : rng -> Z * rng.
Variable randbelow : nat -> rng -> nat * rng.
(** [self.config['data_sources']] *)
Variable config : data_sources.

(** How a statement of [generate_combinations] ends: it falls through
    with a value, executes [return generated], or raises. *)
Inductive outcome (A : Type) : Type :=
| Value (a : A) (g : rng)
| Returned (generated : list Combo) (g : rng)
| Raised (e : exn) (g : rng).
Arguments Value {A} a g.
Arguments Returned {A} generated g.
Arguments Raised {A} e g.

Definition G (A : Type) : Type := rng -> outcome A.

#[global] Instance G_ret : MRet G := fun A a g => Value a g.
#[global] Instance G_bind : MBind G := fun A B f m g =>
  match m g with
  | Value a g' => f a g'
  | Returned generated g' => Returned generated g'
  | Raised e g' => Raised e g'
  end.

Definition return_ {A} (generated : list Combo) : G A :=
  fun g => Returned generated g.

Definition lift {A} (r : result A) : G A := fun g =>
  match r with
  | Ok a => Value a g
  | Raise e => Raised e g
  end.

(** [random.random() > c], for [c * 2^53] rounded down to [bound]. *)
Definition random_above (bound : Z) : G bool := fun g =>
  let '(k, g') := random_random g in Value (k >? bound) g'.

(** [random.choice(seq)] *)
Definition choice {A} (seq : list A) : G A := fun g =>
  match seq with
  | [] => Raised IndexError g
  | _ =>
      let '(i, g') := randbelow (length seq) g in
      match seq !! i with
      | Some x => Value x g'
      | None => Raised IndexError g'
      end
  end.

(** 1. Regional fusions *)
Definition regional_fusions (limit : Z) (generated : list Combo)
  : G (list Combo) :=
  for_each (combinations2 (take 15 (regions config)))
    (fun generated '(r1, r2) =>
       for_each (take 10 (base_genres config))
         (fun generated base =>
            for_each (take 2 regional_fusion_patterns)
              (fun generated pattern =>
                 name ← lift (format pattern
                                [ (u "region1", r1); (u "region2", r2);
                                  (u "base", base) ]);
                 let generated :=
                   generated ++
                   [ {| combo_name := name;
                        combo_type := u "regional_fusion";
                        components := [r1; r2; base] |} ] in
                 if len generated >=? limit then return_ generated
                 else mret generated)
              generated)
         generated)
    generated.

(** 2. Era variants *)
Definition era_variants (generated : list Combo) : G (list Combo) :=
  for_each (eras config)
    (fun generated era =>
       for_each (base_genres config)
         (fun generated base =>
            for_each era_genre_patterns
              (fun generated pattern =>
                 name ← lift (format pattern
                                [ (u "era", era); (u "base", base) ]);
                 mret (generated ++
                       [ {| combo_name := name;
                            combo_type := u "era_variant";
                            components := [era; base] |} ]))
              generated)
         generated)
    generated.

(** 3. Instrument-based genres; 47 is the slash. *)
Definition instrument_genres (generated : list Combo) : G (list Combo) :=
  for_each (take 10 (instruments config))
    (fun generated instrument =>
       for_each (take 10 (base_genres config))
         (fun generated base =>
            for_each (take 2 instrument_based_patterns)
              (fun generated pattern =>
                 name ← lift (format pattern
                                [ (u "instrument", split_first 47 instrument);
                                  (u "base", base) ]);
                 mret (generated ++
                       [ {| combo_name := name;
                            combo_type := u "instrument_based";
                            components := [instrument; base] |} ]))
              generated)
         generated)
    generated.

(** 4. Modifier variants *)
Definition modifier_variants (generated : list Combo) : G (list Combo) :=
  for_each (base_genres config)
    (fun generated base =>
       generated ←
         for_each modifiers_electronic
           (fun generated mod_ =>
              mret (generated ++
                    [ {| combo_name := mod_ ++ u " " ++ base;
                         combo_type := u "electronic_variant";
                         components := [mod_; base] |} ]))
           generated;
       for_each modifiers_traditional
         (fun generated mod_ =>
            for_each (take 10 (regions config))
              (fun generated region =>
                 mret (generated ++
                       [ {| combo_name := region ++ u " " ++ mod_ ++ u " " ++ base;
                            combo_type := u "traditional_variant";
                            components := [region; mod_; base] |} ]))
              generated)
         generated)
    generated.

(** 5. Micro genres: one round of the loop.  The three bounds are
    0.5, 0.3 and 0.4 as doubles, times 2^53, rounded down. *)
Definition micro_genre (generated : list Combo) (i : nat) : G (list Combo) :=
  let components : list pystr := [] in
  b ← random_above 4503599627370496;
  components ← (if b : bool
                 then c ← choice modifiers_modern; mret (components ++ [c])
                 else mret components);
  b ← random_above 2702159776422297;
  components ← (if b : bool
                 then c ← choice (take 20 (regions config)); mret (components ++ [c])
                 else mret components);
  b ← random_above 3602879701896397;
  components ← (if b : bool
                 then c ← choice modifiers_electronic; mret (components ++ [c])
                 else mret components);
  c ← choice (base_genres config);
  let components := components ++ [c] in
  let name := join (u " ") components in
  mret (generated ++
        [ {| combo_name := name; combo_type := u "micro_genre";
             components := components |} ]).

Definition micro_genres (limit : Z) (generated : list Combo) : G (list Combo) :=
  for_each (range (Z.min 3000 (limit - len generated))) micro_genre generated.

Definition body (limit : Z) : G (list Combo) :=
  let generated : list Combo := [] in
  generated ← regional_fusions limit generated;
  generated ← era_variants generated;
  generated ← instrument_genres generated;
  generated ← modifier_variants generated;
  generated ← micro_genres limit generated;
  return_ (slice_to generated limit).

(** The call [generate_combinations(limit)]: the returned list or the
    exception, and the generator state it leaves. *)
Definition generate_combinations (limit : Z) (g : rng)
  : result (list Combo) * rng :=
  match body limit g with
  | Value generated g' => (Ok generated, g')
  | Returned generated g' => (Ok generated, g')
  | Raised e g' => (Raise e, g')
  end.
End Generator.

Arguments Value {rng A} a g.
Arguments Returned {rng A} generated g.
Arguments Raised {rng A} e g.
End DynamicGenreGenerator.

(** ** HierarchyBuilder *)

(** [sorted(xs, key=key)]: a stable sort, each element placed behind the
    elements whose key is not larger. *)
Fixpoint insert_by_key {A} (key : A -> Z) (x : A) (xs : list A) : list A :=
  match xs with
  | [] => [x]
  | y :: xs' => if key x <? key y then x :: xs else y :: insert_by_key key x xs'
  end.

Definition sorted {A} (key : A -> Z) (xs : list A) : list A :=
  fold_left (fun acc x => insert_by_key key x acc) xs [].

Module HierarchyBuilder.

(** The instance state: [self.id_counter] ([self.id_lock] guards it and
    carries no data). *)
Record t : Type := mk { id_counter : Z }.

Definition __init__ : t := {| id_counter := 1 |}.

(** A method body: it reads and updates [self] and returns or raises. *)
Definition M (A : Type) : Type := t -> result A * t.

#[global] Instance M_ret : MRet M := fun A a self => (Ok a, self).
#[global] Instance M_bind : MBind M := fun A B f m self =>
  match m self with
  | (Ok a, self') => f a self'
  | (Raise e, self') => (Raise e, self')
  end.

Definition get_next_id : M Z := fun self =>
  let current_id := id_counter self in
  (Ok current_id, {| id_counter := id_counter self + 1 |}).

(** The names an instance answers to: the attributes [__init__] sets and
    the methods of the class body. *)
Definition attributes : list string :=
  [ "id_counter"; "id_lock"; "__init__"; "get_next_id"; "build_hierarchy";
    "_determine_level_advanced" ]%string.

(** [self.<attr>]: the bound value when the instance has the attribute,
    AttributeError otherwise. *)
Definition getattr {A} (attr : string) (value : A) : M A := fun self =>
  if existsb (String.eqb attr) attributes then (Ok value, self)
  else (Raise (AttributeError attr), self).

Definition _determine_level_advanced (combo : Combo) (level_map : gmap Z Z)
    (parent_id : option Z) : Z :=
  match parent_id with
  | None => 1
  | Some pid =>
      let parent_level := default 1 (level_map !! pid) in
      let components := components combo in
      let combo_type := combo_type combo in
      if list_in combo_type [u "era_variant"; u "regional_fusion"]
         && (Z.of_nat (length components) <=? 2)
      then Z.min (parent_level + 1) 2
      else if list_in combo_type [u "instrument_based"; u "electronic_variant"]
              && (Z.of_nat (length components) <=? 3)
      then Z.min (parent_level + 1) 3
      else if list_in combo_type [u "traditional_variant"; u "micro_genre"]
              && (Z.of_nat (length components) <=? 4)
      then Z.min (parent_level + 2) 4
      else Z.min (parent_level + 2) 5
  end.

Definition main_genres : list pystr :=
  [ u "Blues"; u "Jazz"; u "Rock"; u "Electronic"; u "Hip-Hop"; u "Classical";
    u "Folk"; u "Country"; u "Metal"; u "Pop"; u "Reggae"; u "Soul"; u "Funk";
    u "Punk"; u "Ambient"; u "Experimental"; u "World Music"; u "Latin";
    u "R&B"; u "Gospel" ].

Definition make_genre (id : Z) (name : pystr) (level : Z)
    (parent_id : option Z) (metadata : Metadata) : Genre :=
  {| id := id; name := name; level := level; parent_id := parent_id;
     region := md_region metadata; language := md_language metadata;
     period := md_period metadata; status := md_status metadata;
     instruments := md_instruments metadata;
     pioneers := md_pioneers metadata; artists := md_artists metadata;
     works := md_works metadata; source := md_source metadata;
     bpm := md_bpm metadata; time_signature := md_time_signature metadata |}.

(** The locals of [build_hierarchy]. *)
Record locals : Type := mkLocals {
  genres : list Genre;
  parent_map : gmap pystr Z;
  level_map : gmap Z Z
}.

Section Build.
(** [enricher.generate_realistic_metadata] *)
Variable enricher : pystr -> pystr -> Metadata.
(** What a method named [_determine_parent] would compute, were one
    bound to the instance. *)
Variable determine_parent : Combo -> gmap pystr Z -> list Genre -> option Z.

Definition seed_main_genre (l : locals) (main_genre : pystr) : M locals :=
  let metadata := enricher main_genre (u "main") in
  i ← get_next_id;
  let genre := make_genre i main_genre 1 None metadata in
  mret {| genres := genres l ++ [genre];
          parent_map := <[main_genre := id genre]> (parent_map l);
          level_map := <[id genre := 1]> (level_map l) |}.

Definition place_combo (l : locals) (combo : Combo) : M locals :=
  _determine_parent ← getattr "_determine_parent" determine_parent;
  let parent_id := _determine_parent combo (parent_map l) (genres l) in
  let level := _determine_level_advanced combo (level_map l) parent_id in
  if level <=? 5 then
    let metadata := enricher (combo_name combo) (combo_type combo) in
    i ← get_next_id;
    let genre := make_genre i (take 100 (combo_name combo)) level parent_id metadata in
    mret {| genres := genres l ++ [genre];
            parent_map := <[combo_name combo := id genre]> (parent_map l);
            level_map := <[id genre := level]> (level_map l) |}
  else mret l.

Definition build_hierarchy (genre_combinations : list Combo) : M (list Genre) :=
  let l := {| genres := []; parent_map := ∅; level_map := ∅ |} in
  l ← for_each main_genres seed_main_genre l;
  let sorted_combos :=
    sorted (fun x => Z.of_nat (length (components x))) genre_combinations in
  l ← for_each sorted_combos place_combo l;
  mret (genres l).
End Build.
End HierarchyBuilder.

(** ** HierarchyBuilder with the enricher's effects *)

(** [build_hierarchy] once more, for an [enricher] whose
    [generate_realistic_metadata] reads and updates a state of its own, of
    type [E], and may raise.  A call then runs on the pair of that state and
    [self], and an exception of the enricher ends it. *)
Module HierarchyBuilderE.
Import HierarchyBuilder.

Section Build.
Variable E : Type.
(** [enricher.generate_realistic_metadata] *)
Variable enricher : pystr -> pystr -> E -> result Metadata * E.
Variable determine_parent : Combo -> gmap pystr Z -> list Genre -> option Z.

Definition ME (A : Type) : Type := E * t -> result A * (E * t).

#[local] Instance ME_ret : MRet ME := fun A a s => (Ok a, s).
#[local] Instance ME_bind : MBind ME := fun A B f m s =>
  match m s with
  | (Ok a, s') => f a s'
  | (Raise e, s') => (Raise e, s')
  end.

(** A method of the builder, and a method of the enricher. *)
Definition of_builder {A} (m : M A) : ME A := fun s =>
  let '(r, self') := m (snd s) in (r, (fst s, self')).

Definition of_enricher {A} (m : E -> result A * E) : ME A := fun s =>
  let '(r, e') := m (fst s) in (r, (e', snd s)).

Definition seed_main_genre (l : locals) (main_genre : pystr) : ME locals :=
  metadata ← of_enricher (enricher main_genre (u "main"));
  i ← of_builder get_next_id;
  let genre := make_genre i main_genre 1 None metadata in
  mret {| genres := genres l ++ [genre];
          parent_map := <[main_genre := id genre]> (parent_map l);
          level_map := <[id genre := 1]> (level_map l) |}.

Definition place_combo (l : locals) (combo : Combo) : ME locals :=
  _determine_parent ← of_builder (getattr "_determine_parent" determine_parent);
  let parent_id := _determine_parent combo (parent_map l) (genres l) in
  let level := _determine_level_advanced combo (level_map l) parent_id in
  if level <=? 5 then
    metadata ← of_enricher (enricher (combo_name combo) (combo_type combo));
    i ← of_builder get_next_id;
    let genre := make_genre i (take 100 (combo_name combo)) level parent_id metadata in
    mret {| genres := genres l ++ [genre];
            parent_map := <[combo_name combo := id genre]> (parent_map l);
            level_map := <[id genre := level]> (level_map l) |}
  else mret l.

Definition build_hierarchy (genre_combinations : list Combo) : ME (list Genre) :=
  let l := {| genres := []; parent_map := ∅; level_map := ∅ |} in
  l ← for_each main_genres seed_main_genre l;
  let sorted_combos :=
    sorted (fun x => Z.of_nat (length (components x))) genre_combinations in
  l ← for_each sorted_combos place_combo l;
  mret (genres l).
End Build.
End HierarchyBuilderE.

(** ** QualityAssurance *)

Module QualityAssurance.

(** [config['validation_rules']], the two entries the validator reads. *)
Record validation_rules : Type := mkRules {
  period_format : pystr;
  max_name_length : Z
}.

Definition default_rules : validation_rules :=
  {| period_format := u "^\d{1,4}(BC)?-(\d{1,4}(AD)?|now)$";
     max_name_length := 100 |}.

Section QA.
(** [bool(re.match(pattern, s))] *)
Variable re_match : pystr -> pystr -> bool.
Variable rules : validation_rules.

Definition _validate_period_format (period : pystr) : bool :=
  re_match (period_format rules) period.

Definition validate_entry (genre : Genre) : list pystr :=
  let errors : list pystr := [] in
  let errors :=
    if len (name genre) >? max_name_length rules
    then errors ++ [u "Name too long: " ++ str_of_int (len (name genre)) ++ u " chars"]
    else errors in
  let errors :=
    if negb (_validate_period_format (period genre))
    then errors ++ [u "Invalid period format: " ++ period genre]
    else errors in
  let errors :=
    if negb (list_in (status genre) [u "A"; u "H"; u "E"; u "X"])
    then errors ++ [u "Invalid status: " ++ status genre]
    else errors in
  let errors :=
    if (level genre <? 1) || (level genre >? 5)
    then errors ++ [u "Invalid level: " ++ str_of_int (level genre)]
    else errors in
  let errors :=
    if (level genre >? 1) && bool_decide (parent_id genre = None)
    then errors ++ [u "Missing parent_id for non-root genre"]
    else errors in
  errors.

(** [validate_batch]: the accepted entries and the messages. *)
Definition validate_batch (genres : list Genre) : list Genre * list pystr :=
  fold_left
    (fun '(valid_genres, all_errors) genre =>
       let errors := validate_entry genre in
       match errors with
       | [] => (valid_genres ++ [genre], all_errors)
       | _ =>
           (valid_genres,
            all_errors ++
            List.map (fun e => u "Genre " ++ str_of_int (id genre) ++ u " ("
                               ++ name genre ++ u "): " ++ e) errors)
       end)
    genres ([], []).
End QA.

(** A recogniser of the default pattern
    [^\d{1,4}(BC)?-(\d{1,4}(AD)?|now)$] on ASCII digits, standing for
    [re.match] in the examples. *)
Definition isdigit (c : N) : bool := ((48 <=? c) && (c <=? 57))%N.

Fixpoint skip_digits (fuel : nat) (s : pystr) : nat * pystr :=
  match fuel, s with
  | S fuel', c :: s' =>
      if isdigit c
      then let '(n, rest) := skip_digits fuel' s' in (S n, rest)
      else (O, s)
  | _, _ => (O, s)
  end.

Definition skip_literal (lit s : pystr) : pystr :=
  if startswith lit s then drop (length lit) s else s.

(** [$] matches at the end and before a final newline. *)
Definition at_end (s : pystr) : bool :=
  match s with
  | [] | [10%N] => true
  | _ => false
  end.

Definition match_default_period (s : pystr) : bool :=
  let '(n, s) := skip_digits 4 s in
  if (n =? 0)%nat then false else
  match skip_literal (u "BC") s with
  | 45%N :: s =>
      if startswith (u "now") s && at_end (drop 3 s) then true
      else
        let '(m, s) := skip_digits 4 s in
        if (m =? 0)%nat then false
        else at_end (skip_literal (u "AD") s)
  | _ => false
  end.

Definition re_match_default (pattern s : pystr) : bool := match_default_period s.
End QualityAssurance.

(** ** DuplicateDetector *)

Module DuplicateDetector.

(** The [synonyms] dict of [_are_variants]; code point 231 is the c with
    cedilla of the seventh key's value. *)
Definition synonyms : gmap pystr pystr :=
  list_to_map
    [ (u "uk", u "british");
      (u "british", u "uk");
      (u "german", u "deutsch");
      (u "deutsch", u "german");
      (u "french", u "fran" ++ [231%N] ++ u "ais");
      (u "american", u "us");
      (u "us", u "american") ].

(** [for word in words.copy(): if word in synonyms:
    words.add(synonyms[word])] *)
Definition add_synonyms (table : gmap pystr pystr) (words : gset pystr)
  : gset pystr :=
  set_fold (fun word acc =>
              match table !! word with
              | Some other => acc ∪ {[ other ]}
              | None => acc
              end) words words.

(** [len(common) >= len(words) * 0.7].  The product is a double; for set
    sizes below 10^12 the comparison of the integer [len(common)] with it
    holds exactly when [10 * len(common) >= 7 * len(words)], which is what
    is computed here. *)
Definition covers (common words : gset pystr) : bool :=
  (7 * size words <=? 10 * size common)%nat.

Section Detector.
(** [str.lower] *)
Variable lower : pystr -> pystr.
(** The module [jellyfish] when its import succeeded, as its function
    [jaro_winkler]; [None] after the ImportError. *)
Variable jellyfish : option (pystr -> pystr -> Q).
(** [self.similarity_threshold] *)
Variable similarity_threshold : Q.

Definition _are_variants (name1 name2 : pystr) : bool :=
  let words1 : gset pystr := list_to_set (split (lower name1)) in
  let words2 : gset pystr := list_to_set (split (lower name2)) in
  let words1 := add_synonyms synonyms words1 in
  let words2 := add_synonyms synonyms words2 in
  let common := words1 ∩ words2 in
  if covers common words1 || covers common words2 then true else false.

Definition _are_similar (g1 g2 : Genre) : bool :=
  if bool_decide (lower (name g1) = lower (name g2)) then true
  else if match jellyfish with
          | Some jaro_winkler =>
              let similarity := jaro_winkler (lower (name g1)) (lower (name g2)) in
              negb (Qle_bool similarity similarity_threshold)
          | None => false
          end then true
  else if _are_variants (name g1) (name g2) then true
  else false.

Definition _merge_genre_group (group : list Genre) : result Genre :=
  match group with
  | [] => Raise IndexError
  | base :: _ =>
      let all_sources := List.map source group in
      let unique_sources := dict_fromkeys all_sources in
      let combined_source := join (u " / ") (take 3 unique_sources) in
      Ok {| id := id base; name := name base; level := level base;
            parent_id := parent_id base; region := region base;
            language := language base; period := period base;
            status := status base; instruments := instruments base;
            pioneers := pioneers base; artists := artists base;
            works := works base; source := combined_source;
            bpm := bpm base; time_signature := time_signature base |}
  end.

(** The inner loop of [merge_duplicates] over
    [enumerate(genres[i+1:], i+1)]. *)
Definition collect_similar (processed : gset nat) (g1 : Genre)
    (later : list (nat * Genre)) (start : list Genre * gset nat)
  : list Genre * gset nat :=
  fold_left (fun '(similar_group, similar_indices) '(j, g2) =>
               if bool_decide (j ∉ processed) && _are_similar g1 g2
               then (similar_group ++ [g2], similar_indices ∪ {[ j ]})
               else (similar_group, similar_indices))
            later start.

(** One round of the outer loop. *)
Definition merge_round (genres : list Genre)
    (st : list Genre * gset nat) (ig : nat * Genre)
  : result (list Genre * gset nat) :=
  let '(merged_genres, processed) := st in
  let '(i, g1) := ig in
  if bool_decide (i ∈ processed) then mret (merged_genres, processed)
  else
    let '(similar_group, similar_indices) :=
      collect_similar processed g1
        (enumerate (i + 1) (drop (i + 1) genres)) ([g1], {[ i ]}) in
    merged ← (if (1 <? length similar_group)%nat
               then _merge_genre_group similar_group
               else mret g1);
    mret (merged_genres ++ [merged], processed ∪ similar_indices).

Definition merge_duplicates (genres : list Genre) : result (list Genre) :=
  st ← for_each (enumerate 0 genres) (merge_round genres) ([], ∅);
  let '(merged_genres, processed) := st in
  mret (fold_left (fun merged_genres '(i, genre) =>
                     if bool_decide (i ∉ processed)
                     then merged_genres ++ [genre]
                     else merged_genres)
                  (enumerate 0 genres) merged_genres).
End Detector.

(** The synonym table as the specification words it: each of the four
    pairs in both directions. *)
Definition synonyms_both_ways : gmap pystr pystr :=
  list_to_map
    [ (u "uk", u "british"); (u "british", u "uk");
      (u "german", u "deutsch"); (u "deutsch", u "german");
      (u "french", u "fran" ++ [231%N] ++ u "ais");
      (u "fran" ++ [231%N] ++ u "ais", u "french");
      (u "american", u "us"); (u "us", u "american") ].

(** The lexical-variant rule as the specification words it. *)
Definition are_variants_spec (lower : pystr -> pystr) (name1 name2 : pystr)
  : bool :=
  let words1 := add_synonyms synonyms_both_ways (list_to_set (split (lower name1))) in
  let words2 := add_synonyms synonyms_both_ways (list_to_set (split (lower name2))) in
  let common := words1 ∩ words2 in
  covers common words1 || covers common words2.
End DuplicateDetector.

(** ** BatchProcessor and MusicGenreAgentV4 *)

Module BatchProcessor.

(** The instance state: [self.batch_size] and [self.processed_count]. *)
Record t : Type := mk { batch_size : Z; processed_count : Z }.

Definition __init__ (batch_size : Z) : t :=
  {| batch_size := batch_size; processed_count := 0 |}.
End BatchProcessor.

(** The counters of [self.stats]. *)
Record stats : Type := mkStats {
  genres_generated : Z;
  duplicates_removed : Z;
  validation_errors : Z
}.

(** What a run of the pipeline reads and updates: the state of the
    [random] module, the hierarchy builder with its id counter, the batch
    processor and the agent's counters. *)
Record world (rng : Type) : Type := mkWorld {
  random_state : rng;
  builder : HierarchyBuilder.t;
  batch_processor : BatchProcessor.t;
  agent_stats : stats
}.
Arguments mkWorld {rng} _ _ _ _.
Arguments random_state {rng} _.
Arguments builder {rng} _.
Arguments batch_processor {rng} _.
Arguments agent_stats {rng} _.

Module MusicGenreAgentV4.
Section Agent.
Variable rng : Type.
(** the [random] module's draws; [str.lower], [str.capitalize],
    [str.isdigit] and [int] *)
Variable random_random : rng -> Z * rng.
Variable randbelow : nat -> rng -> nat * rng.
Variable random_sample : list pystr -> Z -> rng -> result (list pystr) * rng.
Variable lower : pystr -> pystr.
Variable capitalize : pystr -> pystr.
Variable str_isdigit : pystr -> bool.
Variable int_of_str : pystr -> result Z.
(** the generator's data sources *)
Variable config : DynamicGenreGenerator.data_sources.
(** the enricher's artists, and what [_generate_source] and
    [_determine_parent] would be *)
Variable artist_database : list (pystr * list pystr).
Variable generate_source : pystr -> pystr.
Variable determine_parent : Combo -> gmap pystr Z -> list Genre -> option Z.
(** the validator *)
Variable re_match : pystr -> pystr -> bool.
Variable rules : QualityAssurance.validation_rules.
(** the duplicate detector *)
Variable jellyfish : option (pystr -> pystr -> Q).
Variable similarity_threshold : Q.

(** [self.enricher.generate_realistic_metadata] *)
Definition enricher : pystr -> pystr -> rng -> result Metadata * rng :=
  MetadataEnricher.generate_realistic_metadata lower capitalize rng randbelow
    random_sample str_isdigit int_of_str artist_database generate_source.

(** One round of the loop of [BatchProcessor.process_in_batches]. *)
Definition process_batch (total_genres : Z) (all_genres : list Genre)
    (batch_start : Z) (w : world rng) : result (list Genre) * world rng :=
  let self := batch_processor w in
  let batch_end := Z.min (batch_start + BatchProcessor.batch_size self) total_genres in
  let batch_size := batch_end - batch_start in
  match DynamicGenreGenerator.generate_combinations rng random_random randbelow
          config batch_size (random_state w) with
  | (Raise e, g') => (Raise e, mkWorld g' (builder w) self (agent_stats w))
  | (Ok combinations, g') =>
      match HierarchyBuilderE.build_hierarchy rng enricher determine_parent
              combinations (g', builder w) with
      | (Raise e, (g'', b')) => (Raise e, mkWorld g'' b' self (agent_stats w))
      | (Ok batch_genres, (g'', b')) =>
          let '(valid_genres, errors) :=
            QualityAssurance.validate_batch re_match rules batch_genres in
          (Ok (all_genres ++ valid_genres),
           mkWorld g'' b'
             {| BatchProcessor.batch_size := BatchProcessor.batch_size self;
                BatchProcessor.processed_count :=
                  BatchProcessor.processed_count self + len valid_genres |}
             (agent_stats w))
      end
  end.

(** The loop over the batch starts. *)
Fixpoint process_batches (total_genres : Z) (batch_starts : list Z)
    (all_genres : list Genre) (w : world rng) : result (list Genre) * world rng :=
  match batch_starts with
  | [] => (Ok all_genres, w)
  | batch_start :: rest =>
      match process_batch total_genres all_genres batch_start w with
      | (Ok all_genres', w') => process_batches total_genres rest all_genres' w'
      | (Raise e, w') => (Raise e, w')
      end
  end.

(** [BatchProcessor.process_in_batches] *)
Definition process_in_batches (total_genres : Z) (w : world rng)
  : result (list Genre) * world rng :=
  match range_step 0 total_genres (BatchProcessor.batch_size (batch_processor w)) with
  | Raise e => (Raise e, w)
  | Ok batch_starts => process_batches total_genres batch_starts [] w
  end.

(** [generate_database]: generation, merging, final validation, each
    followed by its counter. *)
Definition generate_database (target_count : Z) (w : world rng)
  : result (list Genre) * world rng :=
  match process_in_batches target_count w with
  | (Raise e, w') => (Raise e, w')
  | (Ok all_genres, w') =>
      let generated := len all_genres in
      let initial_count := len all_genres in
      match DuplicateDetector.merge_duplicates lower jellyfish similarity_threshold
              all_genres with
      | Raise e =>
          (Raise e,
           mkWorld (random_state w') (builder w') (batch_processor w')
             {| genres_generated := generated;
                duplicates_removed := duplicates_removed (agent_stats w');
                validation_errors := validation_errors (agent_stats w') |})
      | Ok all_genres =>
          let '(valid_genres, errors) :=
            QualityAssurance.validate_batch re_match rules all_genres in
          (Ok valid_genres,
           mkWorld (random_state w') (builder w') (batch_processor w')
             {| genres_generated := generated;
                duplicates_removed := initial_count - len all_genres;
                validation_errors := len errors |})
      end
  end.

(** [run]: the [try] block and its [except Exception] handler.  The export
    and the summary write files and print; they are taken as actions that
    return or raise. *)
Variable export_database : list Genre -> result unit.
Variable print_summary : list Genre -> result unit.

Definition run (target_count : Z) (w : world rng) : list Genre * world rng :=
  match generate_database target_count w with
  | (Raise e, w') => ([], w')
  | (Ok genres, w') =>
      match export_database genres with
      | Raise e => ([], w')
      | Ok _ =>
          match print_summary genres with
          | Raise e => ([], w')
          | Ok _ => (genres, w')
          end
      end
  end.
End Agent.
End MusicGenreAgentV4.

(** ** Notions used to state the properties *)

(** The distinct elements of [xs] in order of first appearance. *)
Fixpoint distinct_in_order (xs : list pystr) : list pystr :=
  match xs with
  | [] => []
  | x :: xs' =>
      x :: List.filter (fun y => negb (bool_decide (y = x))) (distinct_in_order xs')
  end.

(** The report of one validation check: its reason when violated. *)
Definition reason_if (violated : bool) (reason : pystr) : list pystr :=
  if violated then [reason] else [].

(** [g] with its source replaced. *)
Definition with_source (g : Genre) (s : pystr) : Genre :=
  {| id := id g; name := name g; level := level g; parent_id := parent_id g;
     region := region g; language := language g; period := period g;
     status := status g; instruments := instruments g; pioneers := pioneers g;
     artists := artists g; works := works g; source := s;
     bpm := bpm g; time_signature := time_signature g |}.

(** Notions of the star clustering, for a similarity test [similar]. *)
Section StarClustering.
Variable similar : Genre -> Genre -> bool.

(** The entries of [later] that join the group of [g1]: not yet processed
    and similar to [g1]. *)
Definition similar_later (processed : gset nat) (g1 : Genre)
    (later : list (nat * Genre)) : list (nat * Genre) :=
  List.filter (fun jg : nat * Genre =>
                 bool_decide (jg.1 ∉ processed) && similar g1 jg.2) later.

(** No entry is similar to a later one. *)
Fixpoint dissimilar (gs : list Genre) : Prop :=
  match gs with
  | [] => True
  | g :: gs' => Forall (fun h => similar g h = false) gs' /\ dissimilar gs'
  end.

(** The state of the outer loop of [merge_duplicates] before index [i]:
    the output so far has no entry similar to a later one of the output or
    to an unprocessed input from [i] on, and every index below [i] is
    processed. *)
Definition round_inv (genres : list Genre) (i : nat)
    (merged : list Genre) (processed : gset nat) : Prop :=
  dissimilar merged
  /\ (forall m j g, In m merged -> (i <= j)%nat -> genres !! j = Some g ->
                    j ∉ processed -> similar m g = false)
  /\ (forall j, (j < i)%nat -> j ∈ processed).

(** What the outer loop of [merge_duplicates] has done before index [i]:
    the output follows, up to source, a subsequence of the inputs seen;
    every processed input is similar to an output entry; every index below
    [i] is processed. *)
Definition trace_inv (genres : list Genre) (i : nat) (merged : list Genre)
    (processed : gset nat) : Prop :=
  (exists leaders, sublist leaders (take i genres)
                   /\ Forall2 (fun g m => exists s, m = with_source g s) leaders merged)
  /\ (forall j g, j ∈ processed -> genres !! j = Some g ->
                  exists m, In m merged /\ similar m g = true)
  /\ (forall j, (j < i)%nat -> j ∈ processed).
End StarClustering.

(** An entry without violation. *)
Definition is_valid (re_match : pystr -> pystr -> bool)
    (rules : QualityAssurance.validation_rules) (genre : Genre) : bool :=
  match QualityAssurance.validate_entry re_match rules genre with
  | [] => true
  | _ => false
  end.

(** Notions of the generator's statements, for a random source whose state
    has type [rng]. *)
Section GeneratorSpec.
Variable rng : Type.

(** Whatever the generator state, [m] does not raise; a value it falls
    through with satisfies [P] and a list it returns satisfies [Q]. *)
Definition post {A} (m : DynamicGenreGenerator.G rng A) (P : A -> Prop)
    (Q : list Combo -> Prop) : Prop :=
  forall g,
    match m g with
    | DynamicGenreGenerator.Value a _ => P a
    | DynamicGenreGenerator.Returned r _ => Q r
    | DynamicGenreGenerator.Raised _ _ => False
    end.

(** [m] appends [c] candidates and does not return. *)
Definition appends (c : nat)
    (m : list Combo -> DynamicGenreGenerator.G rng (list Combo)) : Prop :=
  forall s, post (m s) (fun s' => length s' = (length s + c)%nat) (fun _ => False).

(** Started below the limit, [m] appends [c] candidates and stays below
    the limit, or returns exactly [limit] candidates, at most [c] more than
    it started with. *)
Definition appends_up_to (limit : Z) (c : nat)
    (m : list Combo -> DynamicGenreGenerator.G rng (list Combo)) : Prop :=
  forall s, len s < limit ->
    post (m s)
      (fun s' => length s' = (length s + c)%nat /\ len s' < limit)
      (fun r => len r = limit /\ (length r <= length s + c)%nat).

(** Whatever the generator state, a value [m] falls through with
    satisfies [P] and a list it returns satisfies [Q]; [m] may raise. *)
Definition holds_after {A} (m : DynamicGenreGenerator.G rng A) (P : A -> Prop)
    (Q : list Combo -> Prop) : Prop :=
  forall g,
    match m g with
    | DynamicGenreGenerator.Value a _ => P a
    | DynamicGenreGenerator.Returned r _ => Q r
    | DynamicGenreGenerator.Raised _ _ => True
    end.

(** [m] keeps [P] true of every candidate generated so far. *)
Definition keeps (P : Combo -> Prop)
    (m : list Combo -> DynamicGenreGenerator.G rng (list Combo)) : Prop :=
  forall s, Forall P s -> holds_after (m s) (Forall P) (Forall P).
End GeneratorSpec.

(** A method of the builder run beside a state [e] it does not touch. *)
Definition beside {E A} (e : E) (r : result A * HierarchyBuilder.t)
  : result A * (E * HierarchyBuilder.t) :=
  (fst r, (e, snd r)).

(** What a failed run leaves as it was: the builder with its id counter,
    the batch processor and the counters. *)
Definition untouched {rng} (w w' : world rng) : Prop :=
  builder w' = builder w /\ batch_processor w' = batch_processor w
  /\ agent_stats w' = agent_stats w.

(** Every instrument [_infer_instruments] has a name for. *)
Definition known_instruments : list pystr :=
  concat (List.map snd MetadataEnricher.instrument_mappings)
  ++ [ u "Acoustic Guitar"; u "Electric Guitar"; u "Synthesizer";
       u "Drum Machine"; u "Sampler"; u "Orchestra"; u "Strings"; u "Woodwinds";
       u "Brass"; u "Vocals"; u "Drums"; u "Piano"; u "Saxophone"; u "Various" ].

(** Notions of the methods that draw from the random source: started in
    state [g], [m] returns a value that satisfies [P]. *)
Definition returns {rng A} (P : A -> Prop) (m : rng -> result A * rng) (g : rng)
  : Prop :=
  exists a g', m g = (Ok a, g') /\ P a.

(** A title followed by a year up to 2024 in brackets. *)
Definition is_dated_title (work : pystr) : Prop :=
  exists title year,
    work = title ++ u " (" ++ str_of_int year ++ u ")" /\ year <= 2024.

(** The regions [_infer_region] can name, each with the language
    [_infer_language] gives it; 241 is the code point of n with tilde. *)
Definition region_languages : list (pystr * pystr) :=
  [ (u "USA", u "EN"); (u "UK", u "EN"); (u "Deutschland", u "DE");
    (u "France", u "FR"); (u "Italia", u "IT");
    (u "Espa" ++ [241%N] ++ u "a", u "ES"); (u "Japan", u "JA");
    (u "Korea", u "KO"); (u "China", u "ZH"); (u "India", u "HI");
    (u "Brasil", u "PT"); (u "Africa", u "Multi"); (u "Scandinavia", u "EN");
    (u "Latin America", u "ES"); (u "Asia", u "EN"); (u "Europe", u "EN");
    (u "Global", u "Multi") ].

(** The time signatures [_infer_time_signature] can name. *)
Definition known_time_signatures : list pystr :=
  [ u "4/4"; u "3/4"; u "2/4"; u "5/4"; u "7/4"; u "6/8"; u "12/8"; u "7/8";
    u "9/8" ].

(** A call that returns one of these signatures. *)
Definition names_signature {rng} (r : result pystr * rng) : Prop :=
  exists ts g', r = (Ok ts, g') /\ In ts known_time_signatures.

(** Text of the ASCII range, on which [str.lower] works letter by letter. *)
Definition is_ascii (s : pystr) : bool := forallb (fun c => (c <? 128)%N) s.

(** The shape of a candidate: one of the six variant types, with the
    number of components its strategy uses. *)
Definition well_formed_candidate (combo : Combo) : bool :=
  let n := length (components combo) in
  bool_decide (combo_type combo = u "regional_fusion") && (n =? 3)%nat
  || bool_decide (combo_type combo = u "era_variant") && (n =? 2)%nat
  || bool_decide (combo_type combo = u "instrument_based") && (n =? 2)%nat
  || bool_decide (combo_type combo = u "electronic_variant") && (n =? 2)%nat
  || bool_decide (combo_type combo = u "traditional_variant") && (n =? 3)%nat
  || bool_decide (combo_type combo = u "micro_genre") && (1 <=? n)%nat && (n <=? 4)%nat.

(** What the four strategies without randomness produce when no limit
    interferes. *)
Definition count_regional (config : DynamicGenreGenerator.data_sources) : nat :=
  length (combinations2 (take 15 (DynamicGenreGenerator.regions config)))
  * (length (take 10 (DynamicGenreGenerator.base_genres config)) * 2).

Definition count_era (config : DynamicGenreGenerator.data_sources) : nat :=
  length (DynamicGenreGenerator.eras config)
  * (length (DynamicGenreGenerator.base_genres config) * 4).

Definition count_instrument (config : DynamicGenreGenerator.data_sources) : nat :=
  length (take 10 (DynamicGenreGenerator.instruments config))
  * (length (take 10 (DynamicGenreGenerator.base_genres config)) * 2).

Definition count_modifier (config : DynamicGenreGenerator.data_sources) : nat :=
  length (DynamicGenreGenerator.base_genres config)
  * (5 + 5 * length (take 10 (DynamicGenreGenerator.regions config))).

Definition count_fixed (config : DynamicGenreGenerator.data_sources) : Z :=
  Z.of_nat (count_regional config + count_era config + count_instrument config
            + count_modifier config).

(** ** Inputs of the examples *)

Definition entry_of_level (l : Z) (parent : option Z) : Genre :=
  {| id := 1; name := u "UK Hip-Hop"; level := l; parent_id := parent;
     region := u "UK"; language := u "EN"; period := u "1950-now";
     status := u "A"; instruments := u "Turntables/MPC"; pioneers := [];
     artists := []; works := []; source := u "Generated";
     bpm := u "85-115"; time_signature := u "4/4" |}.

Definition era_combo : Combo :=
  {| combo_name := u "Neo-Baroque Jazz"; combo_type := u "era_variant";
     components := [u "Baroque"; u "Jazz"] |}.

Definition jazz_and_rock : list Genre :=
  [ mkGenre 1 (u "Jazz") 1 None [] [] (u "1950-now") (u "A") [] [] [] [] (u "a") [] [];
    mkGenre 3 (u "Rock") 1 None [] [] (u "1950-now") (u "A") [] [] [] [] (u "b") [] [] ].

Definition blank_then_two : list Genre :=
  mkGenre 7 (u "  ") 1 None [] [] (u "1950-now") (u "A") [] [] [] [] (u "c") [] []
  :: jazz_and_rock.

Definition two_hip_hops : list Genre :=
  [ entry_of_level 2 (Some 5);
    mkGenre 9 (u "British Hip-Hop") 2 (Some 5) (u "UK") (u "EN") (u "1950-now")
      (u "A") [] [] [] [] (u "Derived") (u "85-115") (u "4/4") ].

Definition first_two_fusions : list Combo :=
  [ mkCombo (u "USA UK Fusion") (u "regional_fusion") [u "USA"; u "UK"; u "Blues"];
    mkCombo (u "USA-UK Blues Hybrid") (u "regional_fusion") [u "USA"; u "UK"; u "Blues"] ].

Definition plain_metadata : Metadata :=
  {| md_region := u "Global"; md_language := u "Multi"; md_period := u "1950-now";
     md_status := u "A"; md_instruments := u "Various"; md_pioneers := [];
     md_artists := []; md_works := []; md_source := u "Generated";
     md_bpm := u "80-120"; md_time_signature := u "4/4" |}.

Definition fresh_world : world unit :=
  mkWorld tt HierarchyBuilder.__init__ (BatchProcessor.__init__ 1000)
    (mkStats 0 0 0).

(** A random source that always draws the first element, and library
    functions on ASCII text. *)
Definition draw_first (n : nat) (g : unit) : nat * unit := (O, g).

Definition sample_prefix (population : list pystr) (k : Z) (g : unit)
  : result (list pystr) * unit :=
  (Ok (take (Z.to_nat k) population), g).

Definition ascii_isdigit (s : pystr) : bool :=
  negb (bool_decide (s = [])) && forallb QualityAssurance.isdigit s.

Definition ascii_int (s : pystr) : result Z :=
  Ok (fold_left (fun n c => 10 * n + (Z.of_N c - 48)) s 0).

Definition prehistoric_blues : Genre :=
  mkGenre 21 (u "Prehistoric Blues") 2 (Some 1) (u "Global") (u "Multi")
    (u "40000BC-3000BC") (u "H") (u "Electric Guitar") [] [] [] (u "Generated")
    (u "60-120") (u "4/4").

Definition fifty_artists_each : list (pystr * list pystr) :=
  List.map (fun genre_type => (genre_type, repeat (u "John Smith (1950-)") 50))
    [u "Blues"; u "Jazz"; u "Rock"; u "Electronic"; u "Classical"; u "Folk"].

Definition two_rock_artists : list (pystr * list pystr) :=
  [ (u "Rock", [u "John Smith (1950-)"; u "Maria Garcia (1941-2001)"]) ].

(* ================================================================== *)
(** * Part II: properties *)
(* ================================================================== *)

(** ** MetadataEnricher *)

Section PeriodRules.
Variable lower : pystr -> pystr.
Variable genre_name : pystr.

Let matches (era : pystr) : bool := str_in (lower era) (lower genre_name).

Lemma scan_period_rules_first earlier era period later :
  matches era = true ->
  (forall era' period', In (era', period') earlier -> matches era' = false) ->
  MetadataEnricher.scan_period_rules lower (earlier ++ (era, period) :: later) genre_name
  = Some period.
Proof.
  intros Hera. induction earlier as [|[e p] earlier IH]; intros Hnone.
  - cbn. fold (matches era). now rewrite Hera.
  - cbn. fold (matches e). rewrite (Hnone e p) by now left.
    apply IH. intros era' period' Hin. apply (Hnone era' period'). now right.
Qed.

Lemma scan_period_rules_none rules :
  (forall era period, In (era, period) rules -> matches era = false) ->
  MetadataEnricher.scan_period_rules lower rules genre_name = None.
Proof.
  induction rules as [|[e p] rules IH]; intros Hnone; [reflexivity|].
  cbn. fold (matches e). rewrite (Hnone e p) by now left.
  apply IH. intros era period Hin. apply (Hnone era period). now right.
Qed.
End PeriodRules.

(** The period rule of [_infer_period]: it returns the period of the first
    entry of the era table, read in its order, whose era name lower-cased
    occurs in the lower-cased genre name; when no era occurs it returns
    "1980-now" if an electronic keyword occurs, else "1800-now" if a
    traditional keyword occurs, else "1600-1900" if a classical keyword
    occurs, else "1950-now". *)
Theorem infer_period_first_match (lower : pystr -> pystr) (genre_name : pystr) :
  (forall earlier era period later,
      MetadataEnricher.period_rules = earlier ++ (era, period) :: later ->
      str_in (lower era) (lower genre_name) = true ->
      (forall era' period', In (era', period') earlier ->
                            str_in (lower era') (lower genre_name) = false) ->
      MetadataEnricher._infer_period lower genre_name = period)
  /\ ((forall era period, In (era, period) MetadataEnricher.period_rules ->
                          str_in (lower era) (lower genre_name) = false) ->
      MetadataEnricher._infer_period lower genre_name =
        if any_term_in [u "electronic"; u "synth"; u "digital"; u "cyber"]
             (lower genre_name)
        then u "1980-now"
        else if any_term_in [u "traditional"; u "folk"; u "ethnic"] (lower genre_name)
        then u "1800-now"
        else if any_term_in [u "classical"; u "baroque"; u "romantic"] (lower genre_name)
        then u "1600-1900"
        else u "1950-now").
Proof.
  split.
  - intros earlier era period later Htable Hera Hearlier.
    unfold MetadataEnricher._infer_period. rewrite Htable.
    now rewrite (scan_period_rules_first lower genre_name earlier era period later).
  - intros Hnone. unfold MetadataEnricher._infer_period.
    now rewrite (scan_period_rules_none lower genre_name _ Hnone).
Qed.

(** By this rule "Baroque Jazz Fusion" is dated by the fourth entry: the
    three entries before it do not occur in the name. *)
Lemma infer_period_first_match_witness :
  MetadataEnricher._infer_period lower_latin1 (u "Baroque Jazz Fusion") = u "1600-1750".
Proof.
  apply (proj1 (infer_period_first_match lower_latin1 (u "Baroque Jazz Fusion"))
           (firstn 3 MetadataEnricher.period_rules) (u "Baroque") (u "1600-1750")
           (skipn 4 MetadataEnricher.period_rules)).
  - reflexivity.
  - vm_compute. reflexivity.
  - intros era' period' Hin.
    cbn [firstn MetadataEnricher.period_rules In] in Hin.
    destruct Hin as [Heq|[Heq|[Heq|[]]]]; inversion Heq; vm_compute; reflexivity.
Defined.

(** C7. Status inference checks its rules in priority order: "X" for an
    "extinct" name or a period ending in "1900"; else "E" for an
    emerging, new or future name; else "A" for a period ending in "now";
    else "H".  The result is one of the four status symbols. *)
Theorem infer_status_priority (lower : pystr -> pystr) (genre_name period : pystr) :
  let extinct := str_in (u "extinct") (lower genre_name) || endswith (u "1900") period in
  let emerging := any_term_in [u "emerging"; u "new"; u "future"] (lower genre_name) in
  let active := endswith (u "now") period in
  let status := MetadataEnricher._infer_status lower genre_name period in
  (extinct = true -> status = u "X")
  /\ (extinct = false -> emerging = true -> status = u "E")
  /\ (extinct = false -> emerging = false -> active = true -> status = u "A")
  /\ (extinct = false -> emerging = false -> active = false -> status = u "H")
  /\ In status [u "A"; u "H"; u "E"; u "X"].
Proof.
  intros extinct emerging active status. subst status.
  unfold MetadataEnricher._infer_status.
  fold extinct. fold emerging. fold active.
  destruct extinct, emerging, active;
    repeat split; intros; try discriminate; try reflexivity;
    cbn [In]; auto.
Qed.

(** One name and period for each of the four rules of C7. *)
Lemma infer_status_priority_witness :
  MetadataEnricher._infer_status lower_latin1 (u "Romantic Folk") (u "1820-1900") = u "X"
  /\ MetadataEnricher._infer_status lower_latin1 (u "New Wave") (u "1950-now") = u "E"
  /\ MetadataEnricher._infer_status lower_latin1 (u "Synth Pop") (u "1980-now") = u "A"
  /\ MetadataEnricher._infer_status lower_latin1 (u "Modern Jazz") (u "1900-2000") = u "H".
Proof.
  split; [|split; [|split]].
  - apply (proj1 (infer_status_priority lower_latin1 (u "Romantic Folk") (u "1820-1900"))).
    vm_compute. reflexivity.
  - apply (proj1 (proj2 (infer_status_priority lower_latin1 (u "New Wave") (u "1950-now"))));
      vm_compute; reflexivity.
  - apply (proj1 (proj2 (proj2
             (infer_status_priority lower_latin1 (u "Synth Pop") (u "1980-now")))));
      vm_compute; reflexivity.
  - apply (proj1 (proj2 (proj2 (proj2
             (infer_status_priority lower_latin1 (u "Modern Jazz") (u "1900-2000"))))));
      vm_compute; reflexivity.
Defined.

(** ** QualityAssurance *)

Section Validation.
Variable re_match : pystr -> pystr -> bool.
Variable rules : QualityAssurance.validation_rules.
Variable genre : Genre.

(** The five checks, each on its own, in the order of the code. *)
Lemma validate_entry_checks :
  QualityAssurance.validate_entry re_match rules genre =
    reason_if (len (name genre) >? QualityAssurance.max_name_length rules)
      (u "Name too long: " ++ str_of_int (len (name genre)) ++ u " chars")
    ++ reason_if (negb (re_match (QualityAssurance.period_format rules) (period genre)))
         (u "Invalid period format: " ++ period genre)
    ++ reason_if (negb (list_in (status genre) [u "A"; u "H"; u "E"; u "X"]))
         (u "Invalid status: " ++ status genre)
    ++ reason_if ((level genre <? 1) || (level genre >? 5))
         (u "Invalid level: " ++ str_of_int (level genre))
    ++ reason_if ((level genre >? 1) && bool_decide (parent_id genre = None))
         (u "Missing parent_id for non-root genre").
Proof.
  unfold QualityAssurance.validate_entry, QualityAssurance._validate_period_format,
    reason_if.
  destruct (len (name genre) >? _), (negb (re_match _ _)), (negb (list_in _ _)),
    ((level genre <? 1) || _), ((level genre >? 1) && _); reflexivity.
Qed.
End Validation.

Lemma length_reason_if violated reason :
  length (reason_if violated reason) = if violated then 1%nat else 0%nat.
Proof. now destruct violated. Qed.

(** C8. The validator evaluates its five checks independently: the
    returned list is, in order, one reason for each violated check, so its
    length is the number of violated checks.  An entry of level 6 gets a
    non-empty list that holds the level complaint, and an entry of level 3
    without parent gets the missing-parent reason. *)
Theorem validate_entry_reports_every_violation
    (re_match : pystr -> pystr -> bool) (rules : QualityAssurance.validation_rules)
    (genre : Genre) :
  let errors := QualityAssurance.validate_entry re_match rules genre in
  let name_too_long := len (name genre) >? QualityAssurance.max_name_length rules in
  let bad_period := negb (re_match (QualityAssurance.period_format rules) (period genre)) in
  let bad_status := negb (list_in (status genre) [u "A"; u "H"; u "E"; u "X"]) in
  let bad_level := (level genre <? 1) || (level genre >? 5) in
  let no_parent := (level genre >? 1) && bool_decide (parent_id genre = None) in
  errors =
    reason_if name_too_long
      (u "Name too long: " ++ str_of_int (len (name genre)) ++ u " chars")
    ++ reason_if bad_period (u "Invalid period format: " ++ period genre)
    ++ reason_if bad_status (u "Invalid status: " ++ status genre)
    ++ reason_if bad_level (u "Invalid level: " ++ str_of_int (level genre))
    ++ reason_if no_parent (u "Missing parent_id for non-root genre")
  /\ length errors =
       (Nat.b2n name_too_long + Nat.b2n bad_period + Nat.b2n bad_status
        + Nat.b2n bad_level + Nat.b2n no_parent)%nat
  /\ (level genre = 6 -> errors <> [] /\ In (u "Invalid level: 6") errors)
  /\ (level genre = 3 -> parent_id genre = None ->
      In (u "Missing parent_id for non-root genre") errors).
Proof.
  intros errors name_too_long bad_period bad_status bad_level no_parent.
  assert (Hchecks := validate_entry_checks re_match rules genre).
  fold errors name_too_long bad_period bad_status bad_level no_parent in Hchecks.
  split; [exact Hchecks|]. split; [|split].
  - rewrite Hchecks. rewrite !length_app, !length_reason_if.
    destruct name_too_long, bad_period, bad_status, bad_level, no_parent; reflexivity.
  - intros Hlevel.
    assert (Hin : In (u "Invalid level: 6") errors).
    { rewrite Hchecks. subst bad_level. rewrite Hlevel.
      do 3 (apply in_or_app; right). apply in_or_app; left. now left. }
    split; [|exact Hin]. intros Hnil. rewrite Hnil in Hin. destruct Hin.
  - intros Hlevel Hparent. rewrite Hchecks. subst no_parent.
    rewrite Hlevel, Hparent.
    do 4 (apply in_or_app; right). now left.
Qed.

(** The two entries of the specification's example, checked against the
    default rules. *)
Lemma validate_entry_reports_every_violation_witness :
  In (u "Invalid level: 6")
     (QualityAssurance.validate_entry QualityAssurance.re_match_default
        QualityAssurance.default_rules (entry_of_level 6 (Some 2)))
  /\ In (u "Missing parent_id for non-root genre")
        (QualityAssurance.validate_entry QualityAssurance.re_match_default
           QualityAssurance.default_rules (entry_of_level 3 None)).
Proof.
  split.
  - apply (proj1 (proj2 (proj2 (validate_entry_reports_every_violation
             QualityAssurance.re_match_default QualityAssurance.default_rules
             (entry_of_level 6 (Some 2)))))).
    reflexivity.
  - apply (proj2 (proj2 (proj2 (validate_entry_reports_every_violation
             QualityAssurance.re_match_default QualityAssurance.default_rules
             (entry_of_level 3 None))))); reflexivity.
Defined.

(** ** HierarchyBuilder: the level of a candidate *)

Lemma determine_level_no_parent combo level_map :
  HierarchyBuilder._determine_level_advanced combo level_map None = 1.
Proof. reflexivity. Qed.

Lemma determine_level_capped combo (level_map : gmap Z Z) pid :
  let parent_level := default 1 (level_map !! pid) in
  let level := HierarchyBuilder._determine_level_advanced combo level_map (Some pid) in
  level = Z.min (parent_level + 1) 2 \/ level = Z.min (parent_level + 1) 3 \/
  level = Z.min (parent_level + 2) 4 \/ level = Z.min (parent_level + 2) 5.
Proof.
  cbn zeta. unfold HierarchyBuilder._determine_level_advanced.
  repeat match goal with |- context [if ?c then _ else _] => destruct c end; auto.
Qed.

(** C10. The computed level is 1 when no parent is resolved and otherwise
    one of min(parent+1, 2), min(parent+1, 3), min(parent+2, 4),
    min(parent+2, 5).  It never exceeds 5, so the guard [level <= 5] of
    hierarchy building holds for every candidate.  A level map records
    levels, which are at least 1: hierarchy building starts from the empty
    map and writes 1 or a computed level (lemmas [level_map_writes] and
    [level_maps_of_build_hierarchy] below); for every such map the computed
    level lies in [1,5]. *)
Theorem determine_level_in_range (combo : Combo) (level_map : gmap Z Z)
    (parent_id : option Z) :
  let level := HierarchyBuilder._determine_level_advanced combo level_map parent_id in
  (parent_id = None -> level = 1)
  /\ (forall pid, parent_id = Some pid ->
        let parent_level := default 1 (level_map !! pid) in
        level = Z.min (parent_level + 1) 2 \/ level = Z.min (parent_level + 1) 3 \/
        level = Z.min (parent_level + 2) 4 \/ level = Z.min (parent_level + 2) 5)
  /\ level <= 5
  /\ (level <=? 5) = true
  /\ ((forall pid lvl, level_map !! pid = Some lvl -> 1 <= lvl) -> 1 <= level <= 5).
Proof.
  intros level. subst level.
  split; [intros ->; reflexivity|].
  split; [intros pid ->; apply determine_level_capped|].
  assert (Hle : HierarchyBuilder._determine_level_advanced combo level_map parent_id <= 5).
  { destruct parent_id as [pid|]; [|cbn; lia].
    destruct (determine_level_capped combo level_map pid) as [H|[H|[H|H]]];
      rewrite H; lia. }
  split; [exact Hle|]. split; [now apply Z.leb_le|].
  intros Hmap. split; [|exact Hle].
  destruct parent_id as [pid|]; [|cbn; lia].
  assert (1 <= default 1 (level_map !! pid)) as Hparent.
  { destruct (level_map !! pid) as [lvl|] eqn:Hpid; cbn; [eauto|lia]. }
  destruct (determine_level_capped combo level_map pid) as [H|[H|[H|H]]];
    rewrite H; lia.
Qed.

(** A candidate under a level-1 parent. *)
Lemma determine_level_in_range_witness :
  1 <= HierarchyBuilder._determine_level_advanced era_combo {[ 2 := 1 ]} (Some 2) <= 5.
Proof.
  apply (proj2 (proj2 (proj2 (proj2
           (determine_level_in_range era_combo {[ 2 := 1 ]} (Some 2)))))).
  intros pid lvl Hlookup.
  apply lookup_singleton_Some in Hlookup as [_ <-]. lia.
Defined.

(** The level maps of hierarchy building: the two writes keep every
    recorded level in [1,5]. *)
Lemma level_map_writes (combo : Combo) (level_map : gmap Z Z)
    (parent_id : option Z) (i : Z) :
  (forall pid lvl, level_map !! pid = Some lvl -> 1 <= lvl <= 5) ->
  (forall pid lvl, <[i := 1]> level_map !! pid = Some lvl -> 1 <= lvl <= 5)
  /\ (forall pid lvl,
        <[i := HierarchyBuilder._determine_level_advanced combo level_map parent_id]>
          level_map !! pid = Some lvl ->
        1 <= lvl <= 5).
Proof.
  intros Hmap.
  assert (Hlevel : 1 <= HierarchyBuilder._determine_level_advanced combo level_map
                          parent_id <= 5).
  { destruct parent_id as [parent|]; [|cbn; lia].
    assert (1 <= default 1 (level_map !! parent) <= 5) as Hparent.
    { destruct (level_map !! parent) as [lvl|] eqn:Hparent; cbn; [eauto|lia]. }
    destruct (determine_level_capped combo level_map parent) as [H|[H|[H|H]]];
      rewrite H; lia. }
  split; intros pid lvl Hlookup;
    (destruct (decide (i = pid)) as [->|Hne];
     [rewrite lookup_insert_eq in Hlookup; injection Hlookup as <-; lia
     |rewrite lookup_insert_ne in Hlookup by exact Hne; eauto]).
Qed.

(** Both loops of [build_hierarchy] keep it, from the empty map on: every
    map [_determine_level_advanced] is called with records levels in
    [1,5]. *)
Lemma level_map_of_loop {A} (body : HierarchyBuilder.locals -> A ->
                                    HierarchyBuilder.M HierarchyBuilder.locals)
    (xs : list A) :
  (forall l x self l' self',
     body l x self = (Ok l', self') ->
     (forall pid lvl, HierarchyBuilder.level_map l !! pid = Some lvl -> 1 <= lvl <= 5) ->
     forall pid lvl, HierarchyBuilder.level_map l' !! pid = Some lvl -> 1 <= lvl <= 5) ->
  forall l self l' self',
    for_each xs body l self = (Ok l', self') ->
    (forall pid lvl, HierarchyBuilder.level_map l !! pid = Some lvl -> 1 <= lvl <= 5) ->
    forall pid lvl, HierarchyBuilder.level_map l' !! pid = Some lvl -> 1 <= lvl <= 5.
Proof.
  intros Hbody. induction xs as [|x xs IH]; intros l self l' self' Hrun Hmap.
  - cbn in Hrun. injection Hrun as <- _. exact Hmap.
  - cbn [for_each] in Hrun. unfold mbind at 1 in Hrun.
    unfold HierarchyBuilder.M_bind at 1 in Hrun.
    destruct (body l x self) as [[l1|e] self1] eqn:Hstep; [|discriminate Hrun].
    exact (IH l1 self1 l' self' Hrun (Hbody l x self l1 self1 Hstep Hmap)).
Qed.

Lemma seed_main_genre_levels enricher l main_genre self l' self' :
  HierarchyBuilder.seed_main_genre enricher l main_genre self = (Ok l', self') ->
  (forall pid lvl, HierarchyBuilder.level_map l !! pid = Some lvl -> 1 <= lvl <= 5) ->
  forall pid lvl, HierarchyBuilder.level_map l' !! pid = Some lvl -> 1 <= lvl <= 5.
Proof.
  intros Hrun Hmap. cbn in Hrun. injection Hrun as <- _.
  cbn [HierarchyBuilder.level_map].
  exact (proj1 (level_map_writes era_combo (HierarchyBuilder.level_map l) None _ Hmap)).
Qed.

Lemma place_combo_levels enricher determine_parent l combo self l' self' :
  HierarchyBuilder.place_combo enricher determine_parent l combo self = (Ok l', self') ->
  (forall pid lvl, HierarchyBuilder.level_map l !! pid = Some lvl -> 1 <= lvl <= 5) ->
  forall pid lvl, HierarchyBuilder.level_map l' !! pid = Some lvl -> 1 <= lvl <= 5.
Proof.
  intros Hrun Hmap. unfold HierarchyBuilder.place_combo in Hrun.
  unfold mbind at 1 in Hrun. unfold HierarchyBuilder.M_bind at 1 in Hrun.
  destruct (HierarchyBuilder.getattr "_determine_parent" determine_parent self)
    as [[resolve|e] self1]; [|discriminate Hrun].
  cbn zeta in Hrun. destruct (_ <=? 5) in Hrun.
  - cbn in Hrun. injection Hrun as <- _. cbn [HierarchyBuilder.level_map].
    exact (proj2 (level_map_writes combo (HierarchyBuilder.level_map l) _ _ Hmap)).
  - cbn in Hrun. injection Hrun as <- _. exact Hmap.
Qed.

Lemma level_maps_of_build_hierarchy enricher determine_parent self l1 self1 :
  for_each HierarchyBuilder.main_genres (HierarchyBuilder.seed_main_genre enricher)
    {| HierarchyBuilder.genres := []; HierarchyBuilder.parent_map := ∅;
       HierarchyBuilder.level_map := ∅ |} self
  = (Ok l1, self1) ->
  (forall pid lvl, HierarchyBuilder.level_map l1 !! pid = Some lvl -> 1 <= lvl <= 5)
  /\ forall combos l2 self2,
       for_each combos (HierarchyBuilder.place_combo enricher determine_parent) l1 self1
       = (Ok l2, self2) ->
       forall pid lvl, HierarchyBuilder.level_map l2 !! pid = Some lvl -> 1 <= lvl <= 5.
Proof.
  intros Hseed.
  assert (Hl1 : forall pid lvl,
             HierarchyBuilder.level_map l1 !! pid = Some lvl -> 1 <= lvl <= 5).
  { apply (level_map_of_loop (HierarchyBuilder.seed_main_genre enricher)
             HierarchyBuilder.main_genres (seed_main_genre_levels enricher)
             _ _ _ _ Hseed).
    intros pid lvl Hlookup. cbn in Hlookup. now rewrite lookup_empty in Hlookup. }
  split; [exact Hl1|].
  intros combos l2 self2 Hplace.
  exact (level_map_of_loop (HierarchyBuilder.place_combo enricher determine_parent)
           combos (place_combo_levels enricher determine_parent) _ _ _ _ Hplace Hl1).
Qed.

(** ** DuplicateDetector: merging one group *)

Lemma list_in_true x xs : list_in x xs = true <-> In x xs.
Proof.
  unfold list_in. rewrite existsb_exists. split.
  - intros [y [Hin Heq]]. apply bool_decide_eq_true in Heq. now subst.
  - intros Hin. exists x. split; [exact Hin|]. now apply bool_decide_eq_true.
Qed.

Lemma list_in_app x xs ys : list_in x (xs ++ ys) = list_in x xs || list_in x ys.
Proof. unfold list_in. apply existsb_app. Qed.

Lemma filter_filter_comm {A} (p q : A -> bool) xs :
  List.filter p (List.filter q xs) = List.filter q (List.filter p xs).
Proof.
  induction xs as [|x xs IH]; [reflexivity|]. cbn.
  destruct (p x) eqn:Hp, (q x) eqn:Hq; cbn; rewrite ?Hp, ?Hq, IH; reflexivity.
Qed.

Lemma filter_absorb {A} (p q : A -> bool) xs :
  (forall x, p x = true -> q x = true) ->
  List.filter p (List.filter q xs) = List.filter p xs.
Proof.
  intros Himp. induction xs as [|x xs IH]; [reflexivity|]. cbn.
  destruct (p x) eqn:Hp.
  - rewrite (Himp x Hp). cbn. now rewrite Hp, IH.
  - destruct (q x); cbn; rewrite ?Hp, IH; reflexivity.
Qed.

Lemma distinct_in_order_filter p xs :
  distinct_in_order (List.filter p xs) = List.filter p (distinct_in_order xs).
Proof.
  induction xs as [|x xs IH]; [reflexivity|]. cbn.
  destruct (p x) eqn:Hp; cbn.
  - now rewrite IH, filter_filter_comm.
  - rewrite IH. symmetry. apply filter_absorb.
    intros y Hy. apply negb_true_iff, bool_decide_eq_false. congruence.
Qed.

Lemma filter_filter_and {A} (p q : A -> bool) xs :
  List.filter p (List.filter q xs) = List.filter (fun x => q x && p x) xs.
Proof.
  induction xs as [|x xs IH]; [reflexivity|]. cbn.
  destruct (q x); cbn; [destruct (p x)|]; now rewrite IH.
Qed.

(** [dict.fromkeys] read from an accumulator of keys already seen. *)
Lemma fold_fromkeys xs : forall keys,
  fold_left (fun keys k => if list_in k keys then keys else keys ++ [k]) xs keys
  = keys ++ distinct_in_order (List.filter (fun x => negb (list_in x keys)) xs).
Proof.
  induction xs as [|x xs IH]; intros keys; cbn [fold_left List.filter].
  - cbn. now rewrite app_nil_r.
  - destruct (list_in x keys) eqn:Hx; cbn [negb].
    + apply IH.
    + rewrite IH. cbn [distinct_in_order]. rewrite <- app_assoc. cbn [app].
      do 2 f_equal. rewrite <- distinct_in_order_filter. f_equal.
      rewrite filter_filter_and. apply List.filter_ext. intros y.
      rewrite list_in_app. cbn. now rewrite orb_false_r, negb_orb.
Qed.

(** [list(dict.fromkeys(xs))] lists the distinct elements of [xs] in order
    of first appearance. *)
Lemma dict_fromkeys_distinct xs : dict_fromkeys xs = distinct_in_order xs.
Proof.
  unfold dict_fromkeys. rewrite fold_fromkeys. cbn [app]. f_equal.
  transitivity (List.filter (fun _ => true) xs).
  - now apply List.filter_ext.
  - induction xs as [|x xs IH]; cbn; congruence.
Qed.

(** C5. The entry that replaces a merge group is the group's first member
    in every field but [source], and its [source] is the first three
    distinct sources of the members, in order of first appearance, joined
    by " / ". *)
Theorem merge_group_keeps_first_member (base : Genre) (others : list Genre) :
  exists merged,
    DuplicateDetector._merge_genre_group (base :: others) = Ok merged
    /\ id merged = id base /\ name merged = name base
    /\ level merged = level base /\ parent_id merged = parent_id base
    /\ region merged = region base /\ language merged = language base
    /\ period merged = period base /\ status merged = status base
    /\ instruments merged = instruments base /\ pioneers merged = pioneers base
    /\ artists merged = artists base /\ works merged = works base
    /\ bpm merged = bpm base /\ time_signature merged = time_signature base
    /\ source merged =
         join (u " / ")
           (take 3 (distinct_in_order (List.map source (base :: others)))).
Proof.
  eexists. split; [reflexivity|].
  cbn [id name level parent_id region language period status instruments
       pioneers artists works bpm time_signature source].
  repeat (split; [reflexivity|]).
  now rewrite dict_fromkeys_distinct.
Qed.

(** ** DuplicateDetector: the lexical-variant rule *)

(** What the synonym loop adds: the table's value for every word of the
    set that is a key of the table. *)
Lemma elem_of_add_synonyms (table : gmap pystr pystr) (words : gset pystr) (w : pystr) :
  w ∈ DuplicateDetector.add_synonyms table words
  <-> w ∈ words \/ exists word, word ∈ words /\ table !! word = Some w.
Proof.
  unfold DuplicateDetector.add_synonyms.
  generalize words at 1 3 as start. intros start.
  apply (set_fold_ind_L
           (fun (r : gset pystr) (X : gset pystr) =>
              w ∈ r <-> w ∈ start \/ exists word, word ∈ X /\ table !! word = Some w)).
  - split; [auto|]. intros [H|[word [H _]]]; [exact H|].
    now apply not_elem_of_empty in H.
  - intros x X r Hx IH. destruct (table !! x) as [other|] eqn:Hlookup.
    + rewrite elem_of_union, IH, elem_of_singleton. split.
      * intros [[H|[word [H1 H2]]]| ->]; [now left| |].
        -- right. exists word. split; [apply elem_of_union; now right|exact H2].
        -- right. exists x. split; [|exact Hlookup].
           apply elem_of_union. left. now apply elem_of_singleton.
      * intros [H|[word [H1 H2]]]; [now left; left|].
        apply elem_of_union in H1 as [H1|H1].
        -- apply elem_of_singleton in H1. subst word. right. congruence.
        -- left. right. now exists word.
    + rewrite IH. split.
      * intros [H|[word [H1 H2]]]; [now left|].
        right. exists word. split; [apply elem_of_union; now right|exact H2].
      * intros [H|[word [H1 H2]]]; [now left|].
        apply elem_of_union in H1 as [H1|H1].
        -- apply elem_of_singleton in H1. subst word. congruence.
        -- right. now exists word.
Qed.

(** The rule as the code computes it: the share of common words, after
    expansion by the code's table, reaches 70% of either set. *)
Lemma are_variants_unfold (lower : pystr -> pystr) (name1 name2 : pystr) :
  let words1 := DuplicateDetector.add_synonyms DuplicateDetector.synonyms
                  (list_to_set (split (lower name1))) in
  let words2 := DuplicateDetector.add_synonyms DuplicateDetector.synonyms
                  (list_to_set (split (lower name2))) in
  DuplicateDetector._are_variants lower name1 name2
  = DuplicateDetector.covers (words1 ∩ words2) words1
    || DuplicateDetector.covers (words1 ∩ words2) words2.
Proof.
  cbn zeta. unfold DuplicateDetector._are_variants.
  now destruct (_ || _).
Qed.

(** The code's table is the specification's without the entry that maps
    the French word back. *)
Lemma synonyms_missing_entry :
  DuplicateDetector.synonyms_both_ways
  = <[ u "fran" ++ [231%N] ++ u "ais" := u "french" ]> DuplicateDetector.synonyms
  /\ DuplicateDetector.synonyms !! (u "fran" ++ [231%N] ++ u "ais") = None.
Proof. split; vm_compute; reflexivity. Qed.

(** C3. The code's synonym table has no entry from the French word with
    cedilla back to "french", so the pair french/francais is applied in one
    direction only: the names below are variants by the rule as specified
    (two common words of two) and not by the code (one common word of
    two).  The specification's own example is judged similar. *)
Theorem are_variants_french_one_way :
  let name1 := u "Fran" ++ [231%N] ++ u "ais Pop" in
  let name2 := u "French" in
  DuplicateDetector._are_variants lower_latin1 name1 name2 = false
  /\ DuplicateDetector.are_variants_spec lower_latin1 name1 name2 = true
  /\ DuplicateDetector._are_variants lower_latin1 (u "UK Hip-Hop") (u "British Hip-Hop")
     = true.
Proof. cbn zeta. repeat split; vm_compute; reflexivity. Qed.

(** ** DuplicateDetector: similarity of two entries *)

Lemma are_variants_symmetric (lower : pystr -> pystr) (name1 name2 : pystr) :
  DuplicateDetector._are_variants lower name1 name2
  = DuplicateDetector._are_variants lower name2 name1.
Proof.
  rewrite !are_variants_unfold. cbn zeta.
  set (w1 := DuplicateDetector.add_synonyms _ (list_to_set (split (lower name1)))).
  set (w2 := DuplicateDetector.add_synonyms _ (list_to_set (split (lower name2)))).
  rewrite (comm_L (∩) w2 w1). apply orb_comm.
Qed.

(** The verdict depends on the two names only. *)
Lemma are_similar_names lower jellyfish threshold (g1 g2 h1 h2 : Genre) :
  name g1 = name h1 -> name g2 = name h2 ->
  DuplicateDetector._are_similar lower jellyfish threshold g1 g2
  = DuplicateDetector._are_similar lower jellyfish threshold h1 h2.
Proof. unfold DuplicateDetector._are_similar. now intros -> ->. Qed.

(** What the source decides of the symmetry of the similarity test: the
    comparison of the lower-cased names and the lexical-variant rule give
    the same verdict with the arguments swapped, so the test is symmetric
    without backend; with a backend the names are handed to
    [jellyfish.jaro_winkler] in the order of the arguments, and the verdict
    is symmetric for a score that does not depend on that order.  Whether
    the library's score does is not decided by this repository. *)
Lemma are_similar_symmetric (lower : pystr -> pystr)
    (jellyfish : option (pystr -> pystr -> Q)) (similarity_threshold : Q) :
  (forall jaro_winkler, jellyfish = Some jaro_winkler ->
     forall a b, jaro_winkler a b = jaro_winkler b a) ->
  forall g1 g2 : Genre,
    DuplicateDetector._are_similar lower jellyfish similarity_threshold g1 g2
    = DuplicateDetector._are_similar lower jellyfish similarity_threshold g2 g1.
Proof.
  intros Hbackend g1 g2. unfold DuplicateDetector._are_similar.
  rewrite (are_variants_symmetric lower (name g1) (name g2)).
  destruct (decide (lower (name g1) = lower (name g2))) as [Heq|Hne].
  - rewrite !bool_decide_eq_true_2; [reflexivity|now symmetry|exact Heq].
  - rewrite !bool_decide_eq_false_2; [|congruence|exact Hne].
    destruct jellyfish as [jaro_winkler|]; [|reflexivity].
    now rewrite (Hbackend jaro_winkler eq_refl (lower (name g1)) (lower (name g2))).
Qed.

(** The verdict on the specification's two names, in both orders, without
    backend and with a backend that scores every pair alike. *)
Lemma are_similar_symmetric_witness :
  let g1 := entry_of_level 2 (Some 5) in
  let g2 := mkGenre 9 (u "British Hip-Hop") 2 (Some 5) [] [] [] [] [] [] [] [] [] [] [] in
  DuplicateDetector._are_similar lower_latin1 None (85 # 100) g1 g2
  = DuplicateDetector._are_similar lower_latin1 None (85 # 100) g2 g1
  /\ DuplicateDetector._are_similar lower_latin1 (Some (fun _ _ => 1 # 2)) (85 # 100) g1 g2
     = DuplicateDetector._are_similar lower_latin1 (Some (fun _ _ => 1 # 2)) (85 # 100) g2 g1.
Proof.
  cbn zeta. split.
  - apply (are_similar_symmetric lower_latin1 None (85 # 100)).
    intros jaro_winkler Hsome. discriminate Hsome.
  - apply (are_similar_symmetric lower_latin1 (Some (fun _ _ => 1 # 2)) (85 # 100)).
    intros jaro_winkler Hsome a b. injection Hsome as <-. reflexivity.
Defined.

(** ** HierarchyBuilder: building the hierarchy *)

Section BuildHierarchy.
Variable enricher : pystr -> pystr -> Metadata.
Variable determine_parent : Combo -> gmap pystr Z -> list Genre -> option Z.

(** Seeding the main genres never raises. *)
Lemma seed_main_genres_ok (names : list pystr) :
  forall l self, exists l' self',
    for_each names (HierarchyBuilder.seed_main_genre enricher) l self = (Ok l', self').
Proof.
  induction names as [|n names IH]; intros l self.
  - now exists l, self.
  - cbn [for_each]. unfold mbind, HierarchyBuilder.M_bind.
    unfold HierarchyBuilder.seed_main_genre at 1.
    unfold mbind, HierarchyBuilder.M_bind, HierarchyBuilder.get_next_id.
    unfold mret, HierarchyBuilder.M_ret. apply IH.
Qed.

(** The first candidate placed ends the call: the attribute reference
    [self._determine_parent] raises. *)
Lemma place_first_combo_raises combo combos l self :
  for_each (combo :: combos)
    (HierarchyBuilder.place_combo enricher determine_parent) l self
  = (Raise (AttributeError "_determine_parent"), self).
Proof. reflexivity. Qed.
End BuildHierarchy.

Lemma length_insert_by_key {A} (key : A -> Z) x xs :
  length (insert_by_key key x xs) = S (length xs).
Proof.
  induction xs as [|y xs IH]; [reflexivity|]. cbn.
  destruct (key x <? key y); cbn; now rewrite ?IH.
Qed.

Lemma length_sorted {A} (key : A -> Z) xs : length (sorted key xs) = length xs.
Proof.
  unfold sorted.
  assert (H : forall acc,
             length (fold_left (fun acc x => insert_by_key key x acc) xs acc)
             = (length xs + length acc)%nat).
  { induction xs as [|x xs IH]; intros acc; [reflexivity|].
    cbn [fold_left]. rewrite IH, length_insert_by_key. cbn. lia. }
  rewrite H. cbn. lia.
Qed.

(** Without candidates the call returns the twenty main genres, all of
    level 1 and without parent. *)
Lemma build_hierarchy_no_candidates enricher determine_parent :
  exists genres,
    HierarchyBuilder.build_hierarchy enricher determine_parent []
      HierarchyBuilder.__init__
    = (Ok genres, {| HierarchyBuilder.id_counter := 21 |})
    /\ List.map name genres = HierarchyBuilder.main_genres
    /\ Forall (fun g => level g = 1 /\ parent_id g = None) genres.
Proof.
  eexists. split; [vm_compute; reflexivity|]. split; [reflexivity|].
  repeat constructor.
Qed.

(** C1. Hierarchy assignment raises for every non-empty candidate list,
    whatever the attribute function and whatever a parent resolver would
    compute: placing the first candidate evaluates
    [self._determine_parent], a name that neither the class nor its
    instances define, and the AttributeError ends the call. *)
Theorem build_hierarchy_raises_on_candidates
    (enricher : pystr -> pystr -> Metadata)
    (determine_parent : Combo -> gmap pystr Z -> list Genre -> option Z)
    (combo : Combo) (combos : list Combo) (self : HierarchyBuilder.t) :
  fst (HierarchyBuilder.build_hierarchy enricher determine_parent (combo :: combos) self)
  = Raise (AttributeError "_determine_parent").
Proof.
  unfold HierarchyBuilder.build_hierarchy.
  unfold mbind at 1. unfold HierarchyBuilder.M_bind at 1.
  destruct (seed_main_genres_ok enricher HierarchyBuilder.main_genres
              {| HierarchyBuilder.genres := []; HierarchyBuilder.parent_map := ∅;
                 HierarchyBuilder.level_map := ∅ |} self) as [l' [self' Hseed]].
  rewrite Hseed.
  unfold mbind at 1. unfold HierarchyBuilder.M_bind at 1.
  destruct (sorted _ (combo :: combos)) as [|first rest] eqn:Hsorted.
  - apply (f_equal (@length Combo)) in Hsorted.
    rewrite length_sorted in Hsorted. discriminate Hsorted.
  - now rewrite place_first_combo_raises.
Qed.

(** ** DynamicGenreGenerator *)

Section GeneratorRules.
Variable rng : Type.
Abbreviation G := (DynamicGenreGenerator.G rng).

Lemma post_ret {A} (a : A) (P : A -> Prop) Q : P a -> post rng (mret a) P Q.
Proof. intros H g. exact H. Qed.

Lemma post_bind {A B} (m : G A) (f : A -> G B) (P' : A -> Prop) Q' P Q :
  post rng m P' Q' -> (forall r, Q' r -> Q r) ->
  (forall a, P' a -> post rng (f a) P Q) -> post rng (m ≫= f) P Q.
Proof.
  intros Hm HQ Hf g. unfold mbind, DynamicGenreGenerator.G_bind.
  specialize (Hm g). destruct (m g) as [a g'|r g'|e g']; [|now apply HQ|exact Hm].
  now apply Hf.
Qed.

Lemma post_then {A B} (m : G A) (f : A -> G B) (P' : A -> Prop) P Q :
  post rng m P' Q -> (forall a, P' a -> post rng (f a) P Q) -> post rng (m ≫= f) P Q.
Proof. intros Hm Hf. now apply (post_bind m f P' Q P Q). Qed.

Lemma post_lift {A} (r : result A) (a : A) (P : A -> Prop) Q :
  r = Ok a -> P a -> post rng (DynamicGenreGenerator.lift rng r) P Q.
Proof. intros -> H g. exact H. Qed.

Lemma post_return {A} (r : list Combo) (P : A -> Prop) (Q : list Combo -> Prop) :
  Q r -> post rng (DynamicGenreGenerator.return_ rng r) P Q.
Proof. intros H g. exact H. Qed.

Lemma post_weaken {A} (m : G A) (P P' : A -> Prop) (Q Q' : list Combo -> Prop) :
  post rng m P Q -> (forall a, P a -> P' a) -> (forall r, Q r -> Q' r) -> post rng m P' Q'.
Proof.
  intros Hm HP HQ g. specialize (Hm g).
  destruct (m g); auto.
Qed.

Lemma appends_for_each {A} (xs : list A) (body : list Combo -> A -> G (list Combo)) c :
  (forall x, In x xs -> appends rng c (fun s => body s x)) ->
  appends rng (length xs * c) (for_each xs body).
Proof.
  induction xs as [|x xs IH]; intros Hbody s.
  - apply post_ret. cbn. lia.
  - cbn [for_each]. eapply post_bind.
    + exact (Hbody x (or_introl eq_refl) s).
    + auto.
    + intros s' Hs'. cbn beta in Hs'. eapply post_weaken.
      * exact (IH (fun y Hy => Hbody y (or_intror Hy)) s').
      * cbn beta. intros s'' Hs''. cbn [length]. lia.
      * auto.
Qed.

Lemma appends_up_to_for_each {A} limit (xs : list A)
    (body : list Combo -> A -> G (list Combo)) c :
  (forall x, In x xs -> appends_up_to rng limit c (fun s => body s x)) ->
  appends_up_to rng limit (length xs * c) (for_each xs body).
Proof.
  induction xs as [|x xs IH]; intros Hbody s Hs.
  - apply post_ret. cbn. split; [lia|exact Hs].
  - cbn [for_each]. eapply post_bind.
    + exact (Hbody x (or_introl eq_refl) s Hs).
    + cbn beta. intros r [Hr Hbound]. split; [exact Hr|]. cbn [length]. lia.
    + intros s' [Hlen Hs']. eapply post_weaken.
      * exact (IH (fun y Hy => Hbody y (or_intror Hy)) s' Hs').
      * cbn beta. intros s'' [Hlen'' Hs'']. cbn [length]. split; [lia|exact Hs''].
      * cbn beta. intros r [Hr Hbound]. split; [exact Hr|]. cbn [length]. lia.
Qed.
End GeneratorRules.

Section GeneratorCounts.
Variable rng : Type.
Variable random_random : rng -> Z * rng.
Variable randbelow : nat -> rng -> nat * rng.
Variable config : DynamicGenreGenerator.data_sources.

Lemma appends_up_to_emit limit (formatted : result pystr) (combo : pystr -> Combo) name :
  formatted = Ok name ->
  appends_up_to rng limit 1
    (fun generated =>
       name ← DynamicGenreGenerator.lift rng formatted;
       let generated := generated ++ [combo name] in
       if len generated >=? limit then DynamicGenreGenerator.return_ rng generated
       else mret generated).
Proof.
  intros Hfmt s Hs. eapply post_bind.
  - apply (post_lift rng formatted name (fun n => n = name)); [exact Hfmt|reflexivity].
  - intros r Hr. exact Hr.
  - intros n ->. cbn zeta.
    assert (Hlen : length (s ++ [combo name]) = (length s + 1)%nat)
      by (rewrite length_app; reflexivity).
    unfold len in *. destruct (Z.geb_spec (Z.of_nat (length (s ++ [combo name]))) limit).
    + apply post_return. split; lia.
    + apply post_ret. split; [exact Hlen|lia].
Qed.

Lemma appends_emit (formatted : result pystr) (combo : pystr -> Combo) name :
  formatted = Ok name ->
  appends rng 1
    (fun generated =>
       name ← DynamicGenreGenerator.lift rng formatted;
       mret (generated ++ [combo name])).
Proof.
  intros Hfmt s. eapply post_bind.
  - apply (post_lift rng formatted name (fun n => n = name)); [exact Hfmt|reflexivity].
  - intros r Hr. exact Hr.
  - intros n ->. apply post_ret. rewrite length_app. reflexivity.
Qed.

Lemma regional_fusions_count limit :
  appends_up_to rng limit (count_regional config)
    (DynamicGenreGenerator.regional_fusions rng config limit).
Proof.
  unfold DynamicGenreGenerator.regional_fusions, count_regional.
  apply appends_up_to_for_each. intros [r1 r2] _.
  apply appends_up_to_for_each. intros base _.
  apply (appends_up_to_for_each rng limit
           (take 2 DynamicGenreGenerator.regional_fusion_patterns) _ 1).
  intros pattern Hin.
  cbn [take firstn DynamicGenreGenerator.regional_fusion_patterns In] in Hin.
  destruct Hin as [<-|[<-|[]]].
  - eapply (appends_up_to_emit limit _
              (fun name => mkCombo name (u "regional_fusion") [r1; r2; base])).
    reflexivity.
  - eapply (appends_up_to_emit limit _
              (fun name => mkCombo name (u "regional_fusion") [r1; r2; base])).
    reflexivity.
Qed.

Lemma era_variants_count :
  appends rng (count_era config) (DynamicGenreGenerator.era_variants rng config).
Proof.
  unfold DynamicGenreGenerator.era_variants, count_era.
  apply appends_for_each. intros era _.
  apply appends_for_each. intros base _.
  apply (appends_for_each rng DynamicGenreGenerator.era_genre_patterns _ 1).
  intros pattern Hin.
  cbn [DynamicGenreGenerator.era_genre_patterns In] in Hin.
  destruct Hin as [<-|[<-|[<-|[<-|[]]]]].
  - eapply (appends_emit _ (fun name => mkCombo name (u "era_variant") [era; base])).
    reflexivity.
  - eapply (appends_emit _ (fun name => mkCombo name (u "era_variant") [era; base])).
    reflexivity.
  - eapply (appends_emit _ (fun name => mkCombo name (u "era_variant") [era; base])).
    reflexivity.
  - eapply (appends_emit _ (fun name => mkCombo name (u "era_variant") [era; base])).
    reflexivity.
Qed.

Lemma instrument_genres_count :
  appends rng (count_instrument config)
    (DynamicGenreGenerator.instrument_genres rng config).
Proof.
  unfold DynamicGenreGenerator.instrument_genres, count_instrument.
  apply appends_for_each. intros instrument _.
  apply appends_for_each. intros base _.
  apply (appends_for_each rng
           (take 2 DynamicGenreGenerator.instrument_based_patterns) _ 1).
  intros pattern Hin.
  cbn [take firstn DynamicGenreGenerator.instrument_based_patterns In] in Hin.
  destruct Hin as [<-|[<-|[]]].
  - eapply (appends_emit _
              (fun name => mkCombo name (u "instrument_based") [instrument; base])).
    reflexivity.
  - eapply (appends_emit _
              (fun name => mkCombo name (u "instrument_based") [instrument; base])).
    reflexivity.
Qed.

Lemma appends_one (combo : Combo) :
  appends rng 1 (fun generated => mret (generated ++ [combo])).
Proof. intros s. apply post_ret. rewrite length_app. reflexivity. Qed.

Lemma appends_seq c1 c2 (m1 m2 : list Combo -> DynamicGenreGenerator.G rng (list Combo)) :
  appends rng c1 m1 -> appends rng c2 m2 ->
  appends rng (c1 + c2) (fun generated => generated ← m1 generated; m2 generated).
Proof.
  intros H1 H2 s. eapply post_bind; [exact (H1 s)|auto|].
  intros s' Hs'. cbn beta in Hs'. eapply post_weaken; [exact (H2 s')| |auto].
  cbn beta. intros s'' Hs''. lia.
Qed.

Lemma appends_count c c' (m : list Combo -> DynamicGenreGenerator.G rng (list Combo)) :
  c = c' -> appends rng c m -> appends rng c' m.
Proof. now intros <-. Qed.

Lemma modifier_variants_count :
  appends rng (count_modifier config)
    (DynamicGenreGenerator.modifier_variants rng config).
Proof.
  unfold DynamicGenreGenerator.modifier_variants, count_modifier.
  set (n := length (take 10 (DynamicGenreGenerator.regions config))).
  apply (appends_count
           (length (DynamicGenreGenerator.base_genres config)
            * (length DynamicGenreGenerator.modifiers_electronic * 1
               + length DynamicGenreGenerator.modifiers_traditional * (n * 1)))).
  { f_equal. cbn [length DynamicGenreGenerator.modifiers_electronic
                  DynamicGenreGenerator.modifiers_traditional]. lia. }
  apply appends_for_each. intros base _. apply appends_seq.
  - apply appends_for_each. intros mod_ _. apply appends_one.
  - apply appends_for_each. intros mod_ _.
    apply appends_for_each. intros region _. apply appends_one.
Qed.

(** The draws of the micro-genre loop succeed when [_randbelow(n)] stays
    below [n] and the lists drawn from are not empty. *)
Hypothesis randbelow_lt : forall n g, (0 < n)%nat -> (fst (randbelow n g) < n)%nat.

Lemma post_random_above bound Q :
  post rng (DynamicGenreGenerator.random_above rng random_random bound) (fun _ => True) Q.
Proof.
  intros g. unfold DynamicGenreGenerator.random_above.
  now destruct (random_random g).
Qed.

Lemma post_choice {A} (seq : list A) Q :
  seq <> [] -> post rng (DynamicGenreGenerator.choice rng randbelow seq) (fun _ => True) Q.
Proof using randbelow_lt.
  intros Hseq g. unfold DynamicGenreGenerator.choice.
  destruct seq as [|x seq]; [contradiction|].
  assert (Hlt := randbelow_lt (length (x :: seq)) g ltac:(cbn; lia)).
  destruct (randbelow (length (x :: seq)) g) as [i g'].
  cbn [fst] in Hlt. apply lookup_lt_is_Some_2 in Hlt as [y Hy].
  now rewrite Hy.
Qed.

Hypothesis regions_nonempty : DynamicGenreGenerator.regions config <> [].
Hypothesis base_genres_nonempty : DynamicGenreGenerator.base_genres config <> [].

Lemma post_optional_choice (seq : list pystr) (components : list pystr) (b : bool) Q :
  seq <> [] ->
  post rng (if b then c ← DynamicGenreGenerator.choice rng randbelow seq;
                      mret (components ++ [c])
            else mret components) (fun _ => True) Q.
Proof using randbelow_lt.
  intros Hseq. destruct b; [|now apply post_ret].
  eapply post_then; [now apply post_choice|].
  intros c _. now apply post_ret.
Qed.

Lemma micro_genre_count (i : nat) :
  appends rng 1
    (fun generated =>
       DynamicGenreGenerator.micro_genre rng random_random randbelow config generated i).
Proof using randbelow_lt regions_nonempty base_genres_nonempty.
  intros s. unfold DynamicGenreGenerator.micro_genre.
  eapply post_then; [apply post_random_above|]. intros b1 _.
  eapply post_then; [apply post_optional_choice; discriminate|]. intros c1 _.
  eapply post_then; [apply post_random_above|]. intros b2 _.
  eapply post_then; [apply post_optional_choice|].
  { destruct (DynamicGenreGenerator.regions config); [contradiction|discriminate]. }
  intros c2 _.
  eapply post_then; [apply post_random_above|]. intros b3 _.
  eapply post_then; [apply post_optional_choice; discriminate|]. intros c3 _.
  eapply post_then; [now apply post_choice|]. intros c4 _.
  apply post_ret. rewrite length_app. reflexivity.
Qed.

Lemma micro_genres_count limit generated :
  post rng (DynamicGenreGenerator.micro_genres rng random_random randbelow config
              limit generated)
    (fun generated' =>
       len generated' = len generated + Z.max 0 (Z.min 3000 (limit - len generated)))
    (fun _ => False).
Proof using randbelow_lt regions_nonempty base_genres_nonempty.
  unfold DynamicGenreGenerator.micro_genres.
  eapply post_weaken.
  - apply (appends_for_each rng (range (Z.min 3000 (limit - len generated))) _ 1).
    intros i _. apply micro_genre_count.
  - cbn beta. intros s' Hs'. unfold len, range in *. rewrite Hs', length_seq. lia.
  - auto.
Qed.

Lemma length_slice_to {A} (xs : list A) (stop : Z) :
  0 <= stop -> len (slice_to xs stop) = Z.min stop (len xs).
Proof.
  intros Hstop. unfold slice_to, len.
  destruct (Z.ltb_spec stop 0); [lia|]. rewrite length_take. lia.
Qed.

Lemma body_count limit :
  1 <= limit ->
  post rng (DynamicGenreGenerator.body rng random_random randbelow config limit)
    (fun _ => False)
    (fun generated => len generated = Z.min limit (count_fixed config + 3000)).
Proof using randbelow_lt regions_nonempty base_genres_nonempty.
  intros Hlimit. unfold DynamicGenreGenerator.body.
  eapply post_bind.
  { apply regional_fusions_count. unfold len. cbn [length]. lia. }
  { cbn beta. intros r [Hr Hbound]. unfold count_fixed, len in *.
    cbn [length] in Hbound. lia. }
  intros s1 [H1 Hbelow]. cbn [length] in H1.
  eapply post_bind; [apply era_variants_count|contradiction|]. intros s2 H2.
  eapply post_bind; [apply instrument_genres_count|contradiction|]. intros s3 H3.
  eapply post_bind; [apply modifier_variants_count|contradiction|]. intros s4 H4.
  eapply post_bind; [apply micro_genres_count|contradiction|]. intros s5 H5.
  cbn beta in H2, H3, H4, H5.
  apply post_return. rewrite length_slice_to by lia.
  unfold count_fixed, len in *. lia.
Qed.
End GeneratorCounts.

(** For a limit of at least 1 the call returns, and the number of
    candidates is the limit or, when that is smaller, all that the five
    strategies make: those of the four fixed strategies and 3000 micro
    genres. *)
Lemma generate_combinations_count (rng : Type) (random_random : rng -> Z * rng)
    (randbelow : nat -> rng -> nat * rng) (config : DynamicGenreGenerator.data_sources)
    (limit : Z) (g : rng) :
  (forall n g, (0 < n)%nat -> (fst (randbelow n g) < n)%nat) ->
  DynamicGenreGenerator.regions config <> [] ->
  DynamicGenreGenerator.base_genres config <> [] ->
  1 <= limit ->
  exists generated g',
    DynamicGenreGenerator.generate_combinations rng random_random randbelow config limit g
    = (Ok generated, g')
    /\ len generated = Z.min limit (count_fixed config + 3000).
Proof.
  intros Hbelow Hregions Hbase Hlimit.
  assert (H := body_count rng random_random randbelow config Hbelow Hregions Hbase
                 limit Hlimit g).
  unfold DynamicGenreGenerator.generate_combinations.
  destruct (DynamicGenreGenerator.body _ _ _ _ _ g) as [a g'|r g'|e g'];
    [contradiction| |contradiction].
  now exists r, g'.
Qed.

(** With the default vocabularies the four fixed strategies make 3800
    candidates, so a limit between 1 and 6800 is met exactly. *)
Lemma generate_combinations_default_count (rng : Type) (random_random : rng -> Z * rng)
    (randbelow : nat -> rng -> nat * rng) (limit : Z) (g : rng) :
  (forall n g, (0 < n)%nat -> (fst (randbelow n g) < n)%nat) ->
  1 <= limit ->
  exists generated g',
    DynamicGenreGenerator.generate_combinations rng random_random randbelow
      DynamicGenreGenerator.default_data_sources limit g
    = (Ok generated, g')
    /\ len generated = Z.min limit 6800.
Proof.
  intros Hbelow Hlimit.
  destruct (generate_combinations_count rng random_random randbelow
              DynamicGenreGenerator.default_data_sources limit g Hbelow)
    as (generated & g' & Hrun & Hlen); [discriminate|discriminate|exact Hlimit|].
  exists generated, g'. split; [exact Hrun|].
  rewrite Hlen. replace (count_fixed DynamicGenreGenerator.default_data_sources) with 3800
    by (vm_compute; reflexivity).
  reflexivity.
Qed.

(** The specification's example, with a random source that always draws
    0: a limit of 37 is met by the first 37 regional fusions. *)
Example generate_37 :
  exists generated,
    DynamicGenreGenerator.generate_combinations unit (fun g => (0, g)) (fun _ g => (O, g))
      DynamicGenreGenerator.default_data_sources 37 tt = (Ok generated, tt)
    /\ length generated = 37%nat
    /\ Forall (fun combo => combo_type combo = u "regional_fusion") generated.
Proof.
  eexists. split; [vm_compute; reflexivity|]. split; [reflexivity|].
  repeat constructor.
Qed.

Example generate_37_counted :
  exists generated g',
    DynamicGenreGenerator.generate_combinations unit (fun g => (0, g)) (fun _ g => (O, g))
      DynamicGenreGenerator.default_data_sources 37 tt = (Ok generated, g')
    /\ len generated = 37.
Proof.
  apply (generate_combinations_default_count unit (fun g => (0, g)) (fun _ g => (O, g)) 37 tt).
  - intros n g Hn. exact Hn.
  - lia.
Qed.


(** C4. With a limit of 0 the first regional fusion is appended before the
    limit is looked at, and the early return hands back that one
    candidate: more than the limit, whatever the random source. *)
Theorem generate_combinations_limit_zero (rng : Type)
    (random_random : rng -> Z * rng) (randbelow : nat -> rng -> nat * rng) (g : rng) :
  DynamicGenreGenerator.generate_combinations rng random_random randbelow
    DynamicGenreGenerator.default_data_sources 0 g
  = (Ok [ {| combo_name := u "USA UK Fusion"; combo_type := u "regional_fusion";
             components := [u "USA"; u "UK"; u "Blues"] |} ], g).
Proof. vm_compute. reflexivity. Qed.

(** ** DuplicateDetector: merging duplicates *)

Lemma elem_of_enumerate {A} (xs : list A) : forall start j x,
  In (j, x) (enumerate start xs) <-> (start <= j)%nat /\ xs !! (j - start)%nat = Some x.
Proof.
  induction xs as [|y xs IH]; intros start j x; cbn [enumerate In].
  - split; [tauto|]. now intros [_ H].
  - rewrite IH. split.
    + intros [Heq|[Hle Hlookup]].
      * injection Heq as <- <-. split; [lia|]. now rewrite Nat.sub_diag.
      * split; [lia|]. now replace (j - start)%nat with (S (j - S start)) by lia.
    + intros [Hle Hlookup]. destruct (decide (j = start)) as [->|Hne].
      * left. rewrite Nat.sub_diag in Hlookup. cbn in Hlookup. congruence.
      * right. split; [lia|].
        now replace (j - start)%nat with (S (j - S start)) in Hlookup by lia.
Qed.

Lemma for_each_cons_ok {A S} (body : S -> A -> result S) x xs s s' :
  body s x = Ok s' -> for_each (x :: xs) body s = for_each xs body s'.
Proof. intros H. cbn [for_each]. now rewrite H. Qed.

Section MergeDuplicates.
Variable lower : pystr -> pystr.
Variable jellyfish : option (pystr -> pystr -> Q).
Variable threshold : Q.

Abbreviation similar := (DuplicateDetector._are_similar lower jellyfish threshold).
Abbreviation round := (DuplicateDetector.merge_round lower jellyfish threshold).
Abbreviation collect := (DuplicateDetector.collect_similar lower jellyfish threshold).
Abbreviation merge := (DuplicateDetector.merge_duplicates lower jellyfish threshold).
Abbreviation hits := (similar_later similar).

Lemma collect_similar_hits processed g1 later : forall group indices,
  collect processed g1 later (group, indices)
  = (group ++ List.map snd (hits processed g1 later),
     indices ∪ list_to_set (List.map fst (hits processed g1 later))).
Proof.
  unfold DuplicateDetector.collect_similar.
  induction later as [|[j g2] later IH]; intros group indices.
  - cbn. now rewrite app_nil_r, (right_id_L ∅ (∪)).
  - cbn [fold_left similar_later List.filter fst snd].
    destruct (bool_decide (j ∉ processed) && similar g1 g2) eqn:Hhit.
    + rewrite IH. cbn [List.map fst snd list_to_set foldr].
      fold (hits processed g1 later).
      now rewrite <- app_assoc, <- (assoc_L (∪)).
    + apply IH.
Qed.

Lemma merge_round_processed genres merged processed i g1 :
  i ∈ processed -> round genres (merged, processed) (i, g1) = Ok (merged, processed).
Proof.
  intros Hi. unfold DuplicateDetector.merge_round.
  now rewrite bool_decide_eq_true_2.
Qed.

Lemma merge_round_fresh genres merged processed i g1 :
  i ∉ processed ->
  let found := hits processed g1 (enumerate (i + 1) (drop (i + 1) genres)) in
  exists out,
    round genres (merged, processed) (i, g1)
    = Ok (merged ++ [out], processed ∪ ({[ i ]} ∪ list_to_set (List.map fst found)))
    /\ name out = name g1
    /\ (found = [] -> out = g1).
Proof.
  intros Hi found. unfold DuplicateDetector.merge_round.
  rewrite bool_decide_eq_false_2 by exact Hi.
  rewrite collect_similar_hits. fold found.
  destruct found as [|[j g2] found'].
  - exists g1. cbn. auto.
  - eexists. split; [reflexivity|]. split; [reflexivity|]. discriminate.
Qed.

Lemma dissimilar_snoc gs g :
  dissimilar similar gs -> Forall (fun m => similar m g = false) gs ->
  dissimilar similar (gs ++ [g]).
Proof.
  induction gs as [|m gs IH]; cbn [dissimilar app].
  - intros _ _. split; [constructor|exact I].
  - intros [Hm Hgs] Hall. inversion Hall as [|? ? Hmg Hrest]; subst.
    split; [|now apply IH].
    apply Forall_app. split; [exact Hm|]. now constructor.
Qed.

Lemma rounds_dissimilar genres : forall rest i merged processed,
  drop i genres = rest ->
  round_inv similar genres i merged processed ->
  exists merged' processed',
    for_each (enumerate i rest) (round genres) (merged, processed)
    = Ok (merged', processed')
    /\ dissimilar similar merged'
    /\ (forall j, (j < i + length rest)%nat -> j ∈ processed').
Proof.
  induction rest as [|g1 rest IH]; intros i merged processed Hdrop (Hdis & Hlater & Hdone).
  - exists merged, processed. cbn. split; [reflexivity|]. split; [exact Hdis|].
    intros j Hj. apply Hdone. lia.
  - assert (Hi : genres !! i = Some g1).
    { rewrite <- (Nat.add_0_r i), <- lookup_drop, Hdrop. reflexivity. }
    assert (Hdrop' : drop (S i) genres = rest).
    { rewrite (drop_S _ _ _ Hi) in Hdrop. now injection Hdrop. }
    cbn [enumerate length].
    assert (Hgoal : forall merged1 processed1,
               round genres (merged, processed) (i, g1) = Ok (merged1, processed1) ->
               round_inv similar genres (S i) merged1 processed1 ->
               exists merged' processed',
                 for_each ((i, g1) :: enumerate (S i) rest) (round genres)
                   (merged, processed) = Ok (merged', processed')
                 /\ dissimilar similar merged'
                 /\ (forall j, (j < i + S (length rest))%nat -> j ∈ processed')).
    { intros merged1 processed1 Hround Hinv.
      rewrite (for_each_cons_ok _ _ _ _ _ Hround).
      destruct (IH (S i) merged1 processed1 Hdrop' Hinv)
        as (merged' & processed' & Hrun & Hdis' & Hall).
      exists merged', processed'. split; [exact Hrun|]. split; [exact Hdis'|].
      intros j Hj. apply Hall. lia. }
    destruct (decide (i ∈ processed)) as [Hin|Hnot].
    + apply (Hgoal merged processed (merge_round_processed _ _ _ _ _ Hin)).
      split; [exact Hdis|]. split.
      * intros m j g Hm Hj. apply Hlater; [exact Hm|lia].
      * intros j Hj. destruct (decide (j = i)) as [->|Hne]; [exact Hin|].
        apply Hdone. lia.
    + destruct (merge_round_fresh genres merged processed i g1 Hnot)
        as (out & Hround & Hname & _).
      apply (Hgoal _ _ Hround). split; [|split].
      * apply dissimilar_snoc; [exact Hdis|]. apply List.Forall_forall.
        intros m Hm. rewrite (are_similar_names _ _ _ m out m g1 eq_refl Hname).
        apply (Hlater m i g1 Hm); [lia|exact Hi|exact Hnot].
      * intros m j g Hm Hj Hg Hfresh. apply in_app_or in Hm as [Hm|[<-|[]]].
        -- apply (Hlater m j g Hm); [lia|exact Hg|].
           intros Hp. apply Hfresh. apply elem_of_union. now left.
        -- rewrite (are_similar_names _ _ _ out g g1 g Hname eq_refl).
           destruct (similar g1 g) eqn:Hsim; [|reflexivity].
           exfalso. apply Hfresh. apply elem_of_union. right.
           apply elem_of_union. right.
           apply elem_of_list_to_set, list_elem_of_In, in_map_iff.
           exists (j, g). split; [reflexivity|].
           apply filter_In. split.
           ++ apply elem_of_enumerate. split; [lia|].
              rewrite lookup_drop.
              now replace (i + 1 + (j - (i + 1)))%nat with j by lia.
           ++ cbn [fst snd]. rewrite Hsim, bool_decide_eq_true_2; [reflexivity|].
              intros Hp. apply Hfresh. apply elem_of_union. now left.
      * intros j Hj. apply elem_of_union.
        destruct (decide (j = i)) as [->|Hne].
        -- right. apply elem_of_union. left. now apply elem_of_singleton.
        -- left. apply Hdone. lia.
Qed.

(** The closing loop adds nothing once every index is processed. *)
Lemma closing_loop_adds_nothing (processed : gset nat) (xs : list Genre) :
  forall start merged,
    (forall j, (start <= j < start + length xs)%nat -> j ∈ processed) ->
    fold_left (fun merged_genres '(i, genre) =>
                 if bool_decide (i ∉ processed)
                 then merged_genres ++ [genre]
                 else merged_genres)
              (enumerate start xs) merged = merged.
Proof.
  induction xs as [|x xs IH]; intros start merged Hall; [reflexivity|].
  cbn [enumerate fold_left].
  rewrite bool_decide_eq_false_2.
  - apply IH. intros j Hj. apply Hall. cbn [length]. lia.
  - intros Hnot. apply Hnot. apply Hall. cbn [length]. lia.
Qed.

Lemma merge_duplicates_from_rounds genres merged processed :
  for_each (enumerate 0 genres) (round genres) ([], ∅) = Ok (merged, processed) ->
  (forall j, (j < length genres)%nat -> j ∈ processed) ->
  merge genres = Ok merged.
Proof.
  intros Hrun Hall. unfold DuplicateDetector.merge_duplicates.
  rewrite Hrun. cbn [mbind result_bind mret result_ret].
  f_equal. apply closing_loop_adds_nothing. intros j Hj. apply Hall. lia.
Qed.

(** Merging returns, and no entry of its result is similar to a later
    one. *)
Lemma merge_duplicates_dissimilar_result genres :
  exists merged, merge genres = Ok merged /\ dissimilar similar merged.
Proof.
  destruct (rounds_dissimilar genres genres 0 [] ∅ eq_refl)
    as (merged & processed & Hrun & Hdis & Hall).
  { split; [exact I|]. split; [intros m j g []|]. intros j Hj. lia. }
  exists merged. split; [|exact Hdis].
  now apply (merge_duplicates_from_rounds genres merged processed).
Qed.

Lemma hits_none processed g1 rest : forall start,
  Forall (fun h => similar g1 h = false) rest ->
  hits processed g1 (enumerate start rest) = [].
Proof.
  induction rest as [|h rest IH]; intros start Hall; [reflexivity|].
  inversion Hall as [|? ? Hh Hrest]; subst.
  cbn [enumerate similar_later List.filter fst snd]. rewrite Hh, andb_false_r.
  now apply IH.
Qed.

Lemma rounds_identity genres : forall rest i merged processed,
  drop i genres = rest ->
  dissimilar similar rest ->
  (forall j, j ∈ processed <-> (j < i)%nat) ->
  exists processed',
    for_each (enumerate i rest) (round genres) (merged, processed)
    = Ok (merged ++ rest, processed')
    /\ (forall j, (j < i + length rest)%nat -> j ∈ processed').
Proof.
  induction rest as [|g1 rest IH]; intros i merged processed Hdrop Hdis Hdone.
  - exists processed. cbn. rewrite app_nil_r. split; [reflexivity|].
    intros j Hj. apply Hdone. lia.
  - assert (Hi : genres !! i = Some g1).
    { rewrite <- (Nat.add_0_r i), <- lookup_drop, Hdrop. reflexivity. }
    assert (Hdrop' : drop (S i) genres = rest).
    { rewrite (drop_S _ _ _ Hi) in Hdrop. now injection Hdrop. }
    destruct Hdis as [Hg1 Hdis].
    assert (Hnot : i ∉ processed) by (rewrite Hdone; lia).
    destruct (merge_round_fresh genres merged processed i g1 Hnot)
      as (out & Hround & _ & Hsame).
    replace (i + 1)%nat with (S i) in Hround, Hsame by lia.
    rewrite Hdrop', (hits_none processed g1 rest (S i) Hg1) in Hround, Hsame.
    rewrite (Hsame eq_refl) in Hround. cbn [List.map list_to_set foldr] in Hround.
    cbn [enumerate]. rewrite (for_each_cons_ok _ _ _ _ _ Hround).
    destruct (IH (S i) (merged ++ [g1]) (processed ∪ ({[ i ]} ∪ ∅)) Hdrop' Hdis)
      as (processed' & Hrun & Hall).
    { intros j. rewrite elem_of_union, elem_of_union, elem_of_singleton, Hdone.
      split; [intros [H|[H|H]]; [lia|lia|now apply not_elem_of_empty in H]|].
      intros Hj. destruct (decide (j = i)); [right; now left|left; lia]. }
    exists processed'. rewrite <- app_assoc in Hrun. split; [exact Hrun|].
    intros j Hj. apply Hall. cbn [length] in Hj. lia.
Qed.

(** Entries none of which is similar to a later one are left as they
    are. *)
Lemma merge_duplicates_identity genres :
  dissimilar similar genres -> merge genres = Ok genres.
Proof.
  intros Hdis.
  destruct (rounds_identity genres genres 0 [] ∅ eq_refl Hdis)
    as (processed & Hrun & Hall).
  { intros j. split; [intros H; now apply not_elem_of_empty in H|lia]. }
  now apply (merge_duplicates_from_rounds genres genres processed).
Qed.
End MergeDuplicates.

(** C2. Merging is idempotent: the merge returns a list, and merging that
    list again returns it unchanged. *)
Theorem merge_duplicates_idempotent (lower : pystr -> pystr)
    (jellyfish : option (pystr -> pystr -> Q)) (similarity_threshold : Q)
    (genres : list Genre) :
  exists merged,
    DuplicateDetector.merge_duplicates lower jellyfish similarity_threshold genres
    = Ok merged
    /\ DuplicateDetector.merge_duplicates lower jellyfish similarity_threshold merged
       = Ok merged
    /\ (DuplicateDetector.merge_duplicates lower jellyfish similarity_threshold genres
        ≫= DuplicateDetector.merge_duplicates lower jellyfish similarity_threshold)
       = DuplicateDetector.merge_duplicates lower jellyfish similarity_threshold genres.
Proof.
  destruct (merge_duplicates_dissimilar_result lower jellyfish similarity_threshold genres)
    as (merged & Hmerge & Hdis).
  exists merged. split; [exact Hmerge|].
  assert (Hagain := merge_duplicates_identity lower jellyfish similarity_threshold
                      merged Hdis).
  split; [exact Hagain|]. rewrite Hmerge. exact Hagain.
Qed.


(** ** DuplicateDetector: what merging keeps *)

Lemma with_source_same (g : Genre) : with_source g (source g) = g.
Proof. now destruct g. Qed.

Section MergeTrace.
Variable lower : pystr -> pystr.
Variable jellyfish : option (pystr -> pystr -> Q).
Variable threshold : Q.

Abbreviation similar := (DuplicateDetector._are_similar lower jellyfish threshold).
Abbreviation round := (DuplicateDetector.merge_round lower jellyfish threshold).
Abbreviation merge := (DuplicateDetector.merge_duplicates lower jellyfish threshold).
Abbreviation hits := (similar_later similar).

Lemma are_similar_refl (g : Genre) : similar g g = true.
Proof.
  unfold DuplicateDetector._are_similar. now rewrite bool_decide_eq_true_2.
Qed.

Lemma merge_round_fresh_source genres merged processed i g1 :
  i ∉ processed ->
  let found := hits processed g1 (enumerate (i + 1) (drop (i + 1) genres)) in
  exists s,
    round genres (merged, processed) (i, g1)
    = Ok (merged ++ [with_source g1 s],
          processed ∪ ({[ i ]} ∪ list_to_set (List.map fst found)))
    /\ s = join (u " / ")
             (take 3 (distinct_in_order (List.map source (g1 :: List.map snd found)))).
Proof.
  intros Hi found. unfold DuplicateDetector.merge_round.
  rewrite bool_decide_eq_false_2 by exact Hi.
  rewrite collect_similar_hits. fold found.
  destruct found as [|[j g2] found'].
  - exists (source g1). cbn. rewrite with_source_same. split; [reflexivity|].
    unfold join. reflexivity.
  - eexists. split; [reflexivity|]. now rewrite dict_fromkeys_distinct.
Qed.

Lemma rounds_trace genres : forall rest i merged processed,
  drop i genres = rest ->
  trace_inv similar genres i merged processed ->
  exists merged' processed',
    for_each (enumerate i rest) (round genres) (merged, processed)
    = Ok (merged', processed')
    /\ trace_inv similar genres (i + length rest) merged' processed'.
Proof.
  induction rest as [|g1 rest IH]; intros i merged processed Hdrop Hinv.
  - exists merged, processed. split; [reflexivity|].
    cbn [length]. now rewrite Nat.add_0_r.
  - assert (Hi : genres !! i = Some g1).
    { rewrite <- (Nat.add_0_r i), <- lookup_drop, Hdrop. reflexivity. }
    assert (Hdrop' : drop (S i) genres = rest).
    { rewrite (drop_S _ _ _ Hi) in Hdrop. now injection Hdrop. }
    assert (Htake : take (S i) genres = take i genres ++ [g1])
      by now apply take_S_r.
    cbn [enumerate length].
    assert (Hgoal : forall merged1 processed1,
               round genres (merged, processed) (i, g1) = Ok (merged1, processed1) ->
               trace_inv similar genres (S i) merged1 processed1 ->
               exists merged' processed',
                 for_each ((i, g1) :: enumerate (S i) rest) (round genres)
                   (merged, processed) = Ok (merged', processed')
                 /\ trace_inv similar genres (i + S (length rest)) merged' processed').
    { intros merged1 processed1 Hround Hinv1.
      rewrite (for_each_cons_ok _ _ _ _ _ Hround).
      destruct (IH (S i) merged1 processed1 Hdrop' Hinv1)
        as (merged' & processed' & Hrun & Hinv').
      exists merged', processed'. split; [exact Hrun|].
      now replace (i + S (length rest))%nat with (S i + length rest)%nat by lia. }
    destruct Hinv as ((leaders & Hsub & Hrel) & Hcover & Hdone).
    destruct (decide (i ∈ processed)) as [Hin|Hnot].
    + apply (Hgoal merged processed (merge_round_processed _ _ _ _ _ _ _ _ Hin)).
      split; [|split].
      * exists leaders. split; [|exact Hrel]. rewrite Htake.
        now apply sublist_inserts_r.
      * exact Hcover.
      * intros j Hj. destruct (decide (j = i)) as [->|Hne]; [exact Hin|].
        apply Hdone. lia.
    + destruct (merge_round_fresh_source genres merged processed i g1 Hnot)
        as (s & Hround & _).
      apply (Hgoal _ _ Hround). split; [|split].
      * exists (leaders ++ [g1]). split.
        -- rewrite Htake. now apply sublist_app.
        -- apply Forall2_app; [exact Hrel|]. constructor; [now exists s|constructor].
      * intros j g Hj Hg.
        apply elem_of_union in Hj as [Hj|Hj].
        { destruct (Hcover j g Hj Hg) as (m & Hm & Hsim).
          exists m. split; [apply in_or_app; now left|exact Hsim]. }
        exists (with_source g1 s). split; [apply in_or_app; right; now left|].
        rewrite (are_similar_names _ _ _ (with_source g1 s) g g1 g eq_refl eq_refl).
        apply elem_of_union in Hj as [Hj|Hj].
        { apply elem_of_singleton in Hj. subst j.
          assert (g = g1) by congruence. subst g. apply are_similar_refl. }
        apply elem_of_list_to_set, list_elem_of_In, in_map_iff in Hj
          as ([j' g'] & Hfst & Hfound).
        cbn [fst] in Hfst. subst j'.
        apply filter_In in Hfound as [Henum Hhit].
        apply elem_of_enumerate in Henum as [Hle Hlookup].
        rewrite lookup_drop in Hlookup.
        replace (i + 1 + (j - (i + 1)))%nat with j in Hlookup by lia.
        assert (g' = g) by congruence. subst g'.
        cbn [fst snd] in Hhit. now apply andb_prop in Hhit as [_ Hhit].
      * intros j Hj. apply elem_of_union.
        destruct (decide (j = i)) as [->|Hne].
        -- right. apply elem_of_union. left. now apply elem_of_singleton.
        -- left. apply Hdone. lia.
Qed.

Lemma merge_duplicates_trace genres :
  exists merged leaders,
    merge genres = Ok merged
    /\ sublist leaders genres
    /\ Forall2 (fun g m => exists s, m = with_source g s) leaders merged
    /\ (forall g, In g genres -> exists m, In m merged /\ similar m g = true).
Proof.
  destruct (rounds_trace genres genres 0 [] ∅ eq_refl)
    as (merged & processed & Hrun & (leaders & Hsub & Hrel) & Hcover & Hdone).
  { split; [|split].
    - exists []. split; [apply sublist_nil_l|constructor].
    - intros j g Hj. now apply not_elem_of_empty in Hj.
    - intros j Hj. lia. }
  cbn [Nat.add] in Hsub, Hdone.
  exists merged, leaders. split.
  { apply (merge_duplicates_from_rounds _ _ _ genres merged processed Hrun).
    intros j Hj. now apply Hdone. }
  rewrite firstn_all in Hsub. split; [exact Hsub|]. split; [exact Hrel|].
  intros g Hg. apply list_elem_of_In, list_elem_of_lookup in Hg as [j Hj].
  apply (Hcover j g); [|exact Hj]. apply Hdone. now apply lookup_lt_Some in Hj.
Qed.
End MergeTrace.

Section MergeProperties.
Variable lower : pystr -> pystr.
Variable jellyfish : option (pystr -> pystr -> Q).
Variable threshold : Q.

Abbreviation similar := (DuplicateDetector._are_similar lower jellyfish threshold).
Abbreviation round := (DuplicateDetector.merge_round lower jellyfish threshold).
Abbreviation merge := (DuplicateDetector.merge_duplicates lower jellyfish threshold).
Abbreviation hits := (similar_later similar).

Lemma dissimilar_lookup (gs : list Genre) : forall i j a b,
  dissimilar similar gs -> (i < j)%nat -> gs !! i = Some a -> gs !! j = Some b ->
  similar a b = false.
Proof.
  induction gs as [|g gs IH]; intros i j a b Hdis Hij Ha Hb; [discriminate|].
  destruct Hdis as [Hg Hdis]. destruct j as [|j]; [lia|]. cbn in Hb.
  destruct i as [|i].
  - cbn in Ha. injection Ha as <-.
    rewrite List.Forall_forall in Hg. apply Hg.
    apply list_elem_of_In, list_elem_of_lookup. now exists j.
  - cbn in Ha. apply (IH i j a b Hdis); [lia|exact Ha|exact Hb].
Qed.

Lemma rounds_all_processed genres : forall rest i merged processed,
  (forall j, (i <= j < i + length rest)%nat -> j ∈ processed) ->
  for_each (enumerate i rest) (round genres) (merged, processed)
  = Ok (merged, processed).
Proof.
  induction rest as [|g rest IH]; intros i merged processed Hall; [reflexivity|].
  cbn [enumerate].
  rewrite (for_each_cons_ok _ _ _ _ _
             (merge_round_processed _ _ _ genres merged processed i g
                (Hall i ltac:(cbn [length]; lia)))).
  apply IH. intros j Hj. apply Hall. cbn [length]. lia.
Qed.

Lemma wordless_similar (g h : Genre) :
  split (lower (name g)) = [] -> similar g h = true.
Proof.
  intros Hwords. unfold DuplicateDetector._are_similar.
  destruct (bool_decide _); [reflexivity|].
  destruct (match jellyfish with Some _ => _ | None => _ end); [reflexivity|].
  rewrite are_variants_unfold. cbn zeta. rewrite Hwords. cbn [list_to_set foldr].
  unfold DuplicateDetector.add_synonyms at 1 2 3.
  rewrite set_fold_empty, (left_absorb_L ∅ (∩)).
  unfold DuplicateDetector.covers at 1. now rewrite size_empty.
Qed.

Lemma similar_later_all (g : Genre) (rest : list Genre) :
  (forall h, similar g h = true) ->
  forall start, hits ∅ g (enumerate start rest) = enumerate start rest.
Proof.
  intros Hsim. unfold similar_later.
  induction rest as [|h rest IH]; intros start; [reflexivity|].
  cbn [enumerate List.filter fst snd]. rewrite Hsim, IH.
  now rewrite bool_decide_eq_true_2 by apply not_elem_of_empty.
Qed.
End MergeProperties.

Lemma map_snd_enumerate {A} (xs : list A) :
  forall start, List.map snd (enumerate start xs) = xs.
Proof.
  induction xs as [|x xs IH]; intros start; [reflexivity|]. cbn. now rewrite IH.
Qed.

Lemma elem_of_map_fst_enumerate {A} (xs : list A) (start j : nat) :
  (start <= j < start + length xs)%nat ->
  j ∈ (list_to_set (List.map fst (enumerate start xs)) : gset nat).
Proof.
  intros Hj. apply elem_of_list_to_set, list_elem_of_In, in_map_iff.
  destruct (lookup_lt_is_Some_2 xs (j - start)) as [x Hx]; [lia|].
  exists (j, x). split; [reflexivity|].
  apply elem_of_enumerate. split; [lia|exact Hx].
Qed.


(** X2. Merging drops no entry without a representative: every input
    entry is similar to an entry of the result. *)
Theorem merge_duplicates_represents_every_entry (lower : pystr -> pystr)
    (jellyfish : option (pystr -> pystr -> Q)) (similarity_threshold : Q)
    (genres : list Genre) :
  exists merged,
    DuplicateDetector.merge_duplicates lower jellyfish similarity_threshold genres
    = Ok merged
    /\ forall g, In g genres ->
         exists m, In m merged
                   /\ DuplicateDetector._are_similar lower jellyfish
                        similarity_threshold m g = true.
Proof.
  destruct (merge_duplicates_trace lower jellyfish similarity_threshold genres)
    as (merged & leaders & Hmerge & _ & _ & Hcover).
  now exists merged.
Qed.

(** X3. The result of merging holds no duplicate: no entry of it is
    similar to an entry behind it. *)
Theorem merge_duplicates_result_has_no_duplicates (lower : pystr -> pystr)
    (jellyfish : option (pystr -> pystr -> Q)) (similarity_threshold : Q)
    (genres : list Genre) :
  exists merged,
    DuplicateDetector.merge_duplicates lower jellyfish similarity_threshold genres
    = Ok merged
    /\ forall i j a b, (i < j)%nat -> merged !! i = Some a -> merged !! j = Some b ->
         DuplicateDetector._are_similar lower jellyfish similarity_threshold a b
         = false.
Proof.
  destruct (merge_duplicates_dissimilar_result lower jellyfish similarity_threshold
              genres) as (merged & Hmerge & Hdis).
  exists merged. split; [exact Hmerge|].
  intros i j a b Hij Ha Hb.
  exact (dissimilar_lookup lower jellyfish similarity_threshold merged i j a b
           Hdis Hij Ha Hb).
Qed.

(** X4. A list in which no entry is similar to a later one is returned as
    it is; so are the empty list and every list of one entry. *)
Theorem merge_duplicates_unchanged_without_duplicates (lower : pystr -> pystr)
    (jellyfish : option (pystr -> pystr -> Q)) (similarity_threshold : Q) :
  (forall genres,
      dissimilar (DuplicateDetector._are_similar lower jellyfish similarity_threshold)
        genres ->
      DuplicateDetector.merge_duplicates lower jellyfish similarity_threshold genres
      = Ok genres)
  /\ DuplicateDetector.merge_duplicates lower jellyfish similarity_threshold [] = Ok []
  /\ (forall e, DuplicateDetector.merge_duplicates lower jellyfish
                  similarity_threshold [e] = Ok [e]).
Proof.
  split; [|split].
  - intros genres Hdis. now apply merge_duplicates_identity.
  - reflexivity.
  - intros e. apply merge_duplicates_identity. cbn. split; [constructor|exact I].
Qed.

Lemma merge_duplicates_unchanged_without_duplicates_witness :
  DuplicateDetector.merge_duplicates lower_latin1 None (85 # 100) jazz_and_rock
  = Ok jazz_and_rock.
Proof.
  apply (proj1 (merge_duplicates_unchanged_without_duplicates lower_latin1 None
                  (85 # 100))).
  cbn [dissimilar jazz_and_rock]. split; [|split; [constructor|exact I]].
  constructor; [vm_compute; reflexivity|constructor].
Defined.

(** X5. An entry whose name holds no word (it is empty or all white space)
    is similar to every entry, so when it comes first the whole input is
    merged into it. *)
Theorem merge_duplicates_wordless_first_absorbs (lower : pystr -> pystr)
    (jellyfish : option (pystr -> pystr -> Q)) (similarity_threshold : Q)
    (g : Genre) (rest : list Genre) :
  split (lower (name g)) = [] ->
  (forall h, DuplicateDetector._are_similar lower jellyfish similarity_threshold g h
             = true)
  /\ DuplicateDetector.merge_duplicates lower jellyfish similarity_threshold (g :: rest)
     = Ok [ with_source g
              (join (u " / ")
                 (take 3 (distinct_in_order (List.map source (g :: rest))))) ].
Proof.
  intros Hwords.
  assert (Hsim := fun h => wordless_similar lower jellyfish similarity_threshold g h
                             Hwords).
  split; [exact Hsim|].
  destruct (merge_round_fresh_source lower jellyfish similarity_threshold
              (g :: rest) [] ∅ 0 g) as (s & Hround & Hs).
  { apply not_elem_of_empty. }
  cbn [Nat.add drop skipn] in Hround, Hs.
  rewrite (similar_later_all lower jellyfish similarity_threshold g rest Hsim) in Hround, Hs.
  rewrite map_snd_enumerate in Hs. subst s.
  apply (merge_duplicates_from_rounds lower jellyfish similarity_threshold
           (g :: rest) _
           (∅ ∪ ({[ 0%nat ]} ∪ list_to_set (List.map fst (enumerate 1 rest))))).
  - cbn [enumerate]. rewrite (for_each_cons_ok _ _ _ _ _ Hround).
    apply rounds_all_processed. intros j Hj.
    apply elem_of_union. right. apply elem_of_union. right.
    now apply elem_of_map_fst_enumerate.
  - intros j Hj. cbn [length] in Hj.
    apply elem_of_union. right. apply elem_of_union.
    destruct (decide (j = 0%nat)) as [->|Hne].
    + left. now apply elem_of_singleton.
    + right. apply elem_of_map_fst_enumerate. lia.
Qed.

Lemma merge_duplicates_wordless_first_absorbs_witness :
  DuplicateDetector.merge_duplicates lower_latin1 None (85 # 100) blank_then_two
  = Ok [ mkGenre 7 (u "  ") 1 None [] [] (u "1950-now") (u "A") [] [] [] []
           (u "c / a / b") [] [] ].
Proof.
  apply (proj2 (merge_duplicates_wordless_first_absorbs lower_latin1 None (85 # 100)
                  (mkGenre 7 (u "  ") 1 None [] [] (u "1950-now") (u "A") [] [] [] []
                     (u "c") [] [])
                  jazz_and_rock eq_refl)).
Defined.

(** ** QualityAssurance: batches *)

Section ValidateBatch.
Variable re_match : pystr -> pystr -> bool.
Variable rules : QualityAssurance.validation_rules.

Abbreviation check := (QualityAssurance.validate_entry re_match rules).
Abbreviation valid := (is_valid re_match rules).

Lemma validate_batch_from (genres : list Genre) : forall valid_genres all_errors,
  fold_left
    (fun '(valid_genres, all_errors) genre =>
       let errors := check genre in
       match errors with
       | [] => (valid_genres ++ [genre], all_errors)
       | _ =>
           (valid_genres,
            all_errors ++
            List.map (fun e => u "Genre " ++ str_of_int (id genre) ++ u " ("
                               ++ name genre ++ u "): " ++ e) errors)
       end)
    genres (valid_genres, all_errors)
  = (valid_genres ++ List.filter valid genres,
     all_errors ++
     flat_map (fun genre =>
                 List.map (fun e => u "Genre " ++ str_of_int (id genre) ++ u " ("
                                    ++ name genre ++ u "): " ++ e) (check genre))
              genres).
Proof.
  induction genres as [|g genres IH]; intros valid_genres all_errors.
  - cbn. now rewrite !app_nil_r.
  - cbn [fold_left List.filter flat_map]. unfold is_valid at 1. cbn zeta.
    destruct (check g) as [|e errors] eqn:Hcheck.
    + rewrite IH. cbn [List.map app]. now rewrite <- app_assoc.
    + rewrite IH. now rewrite <- app_assoc.
Qed.

Lemma validate_batch_split (genres : list Genre) :
  QualityAssurance.validate_batch re_match rules genres
  = (List.filter valid genres,
     flat_map (fun genre =>
                 List.map (fun e => u "Genre " ++ str_of_int (id genre) ++ u " ("
                                    ++ name genre ++ u "): " ++ e) (check genre))
              genres).
Proof. unfold QualityAssurance.validate_batch. now rewrite validate_batch_from. Qed.

Lemma is_valid_no_errors (genre : Genre) : valid genre = true <-> check genre = [].
Proof. unfold is_valid. destruct (check genre); split; congruence. Qed.

Lemma reason_if_nil violated reason : reason_if violated reason = [] <-> violated = false.
Proof. destruct violated; cbn; split; congruence. Qed.

Lemma is_valid_conditions (genre : Genre) :
  valid genre = true <->
  len (name genre) <= QualityAssurance.max_name_length rules
  /\ re_match (QualityAssurance.period_format rules) (period genre) = true
  /\ In (status genre) [u "A"; u "H"; u "E"; u "X"]
  /\ 1 <= level genre <= 5
  /\ (1 < level genre -> parent_id genre <> None).
Proof.
  rewrite is_valid_no_errors, validate_entry_checks.
  rewrite !app_nil, !reason_if_nil, <- list_in_true.
  rewrite !negb_false_iff, orb_false_iff, andb_false_iff.
  rewrite Z.gtb_ltb, !Z.ltb_ge, Z.gtb_ltb, Z.ltb_ge, Z.gtb_ltb, Z.ltb_ge.
  rewrite bool_decide_eq_false.
  split.
  - intros (H1 & H2 & H3 & [H4 H5] & H6). repeat split; try assumption.
    intros Hlevel. destruct H6 as [H6|H6]; [lia|exact H6].
  - intros (H1 & H2 & H3 & [H4 H5] & H6). repeat split; try assumption.
    destruct (Z.le_gt_cases (level genre) 1) as [Hle|Hgt]; [now left|right; auto].
Qed.
End ValidateBatch.

Lemma filter_all_true {A} (p : A -> bool) (xs : list A) :
  Forall (fun x => p x = true) xs -> List.filter p xs = xs.
Proof.
  induction 1 as [|x xs Hx _ IH]; [reflexivity|]. cbn. now rewrite Hx, IH.
Qed.

Lemma filter_keeps_true {A} (p : A -> bool) (xs : list A) :
  Forall (fun x => p x = true) (List.filter p xs).
Proof. apply List.Forall_forall. intros x Hx. now apply filter_In in Hx. Qed.

Lemma validate_batch_all_valid re_match rules (genres : list Genre) :
  Forall (fun g => is_valid re_match rules g = true) genres ->
  QualityAssurance.validate_batch re_match rules genres = (genres, []).
Proof.
  intros Hall. rewrite validate_batch_split. f_equal.
  - now apply filter_all_true.
  - induction Hall as [|g genres Hg _ IH]; [reflexivity|].
    cbn [flat_map]. apply is_valid_no_errors in Hg. now rewrite Hg, IH.
Qed.

(** X6. Batch validation keeps exactly the entries without violation, in
    the order of the input, and reports one message per violation. *)
Theorem validate_batch_partitions (re_match : pystr -> pystr -> bool)
    (rules : QualityAssurance.validation_rules) (genres : list Genre) :
  let '(valid_genres, all_errors) := QualityAssurance.validate_batch re_match rules genres in
  valid_genres
  = List.filter (fun g => bool_decide
                            (QualityAssurance.validate_entry re_match rules g = []))
      genres
  /\ sublist valid_genres genres
  /\ length all_errors
     = list_sum (List.map (fun g => length (QualityAssurance.validate_entry
                                              re_match rules g)) genres).
Proof.
  rewrite validate_batch_split. split; [|split].
  - apply List.filter_ext. intros g. unfold is_valid.
    destruct (QualityAssurance.validate_entry re_match rules g);
      [now rewrite bool_decide_eq_true_2|now rewrite bool_decide_eq_false_2].
  - induction genres as [|g genres IH]; [constructor|]. cbn.
    destruct (is_valid re_match rules g); now constructor.
  - induction genres as [|g genres IH]; [reflexivity|].
    change (length (List.map (fun e => u "Genre " ++ str_of_int (id g) ++ u " ("
                                       ++ name g ++ u "): " ++ e)
                      (QualityAssurance.validate_entry re_match rules g)
                    ++ flat_map (fun genre =>
                         List.map (fun e => u "Genre " ++ str_of_int (id genre) ++ u " ("
                                            ++ name genre ++ u "): " ++ e)
                           (QualityAssurance.validate_entry re_match rules genre)) genres)
            = (length (QualityAssurance.validate_entry re_match rules g)
               + list_sum (List.map (fun g => length (QualityAssurance.validate_entry
                                                        re_match rules g)) genres))%nat).
    rewrite length_app, length_map. now f_equal.
Qed.

(** X7. Every entry that batch validation accepts has a name within the
    length cap, a period that matches the pattern, a status among A, H, E
    and X, a level from 1 to 5, and a parent unless its level is 1;
    validating the accepted entries again accepts all and reports
    nothing. *)
Theorem validate_batch_accepts_well_formed (re_match : pystr -> pystr -> bool)
    (rules : QualityAssurance.validation_rules) (genres : list Genre) :
  let valid_genres := fst (QualityAssurance.validate_batch re_match rules genres) in
  Forall (fun g =>
            len (name g) <= QualityAssurance.max_name_length rules
            /\ re_match (QualityAssurance.period_format rules) (period g) = true
            /\ In (status g) [u "A"; u "H"; u "E"; u "X"]
            /\ 1 <= level g <= 5
            /\ (1 < level g -> parent_id g <> None)) valid_genres
  /\ QualityAssurance.validate_batch re_match rules valid_genres = (valid_genres, []).
Proof.
  cbn zeta. rewrite validate_batch_split. cbn [fst].
  assert (Hvalid := filter_keeps_true (is_valid re_match rules) genres).
  split.
  - eapply Forall_impl; [exact Hvalid|].
    intros g Hg. now apply is_valid_conditions.
  - now apply validate_batch_all_valid.
Qed.

Lemma validate_entry_with_source re_match rules (g : Genre) (s : pystr) :
  QualityAssurance.validate_entry re_match rules (with_source g s)
  = QualityAssurance.validate_entry re_match rules g.
Proof. reflexivity. Qed.

(** X8. Merging keeps validity: when every entry of the input passes
    validation, so does every entry of the merged list, and validating the
    merged list returns it whole, without message. *)
Theorem merge_duplicates_keeps_validity (lower : pystr -> pystr)
    (jellyfish : option (pystr -> pystr -> Q)) (similarity_threshold : Q)
    (re_match : pystr -> pystr -> bool) (rules : QualityAssurance.validation_rules)
    (genres : list Genre) :
  Forall (fun g => QualityAssurance.validate_entry re_match rules g = []) genres ->
  exists merged,
    DuplicateDetector.merge_duplicates lower jellyfish similarity_threshold genres
    = Ok merged
    /\ Forall (fun m => QualityAssurance.validate_entry re_match rules m = []) merged
    /\ QualityAssurance.validate_batch re_match rules merged = (merged, []).
Proof.
  intros Hvalid.
  destruct (merge_duplicates_trace lower jellyfish similarity_threshold genres)
    as (merged & leaders & Hmerge & Hsub & Hrel & _).
  exists merged. split; [exact Hmerge|].
  assert (Hmerged : Forall (fun m => QualityAssurance.validate_entry re_match rules m = [])
                      merged).
  { assert (Hleaders : Forall (fun g => QualityAssurance.validate_entry re_match rules g
                                        = []) leaders).
    { rewrite List.Forall_forall in Hvalid. apply List.Forall_forall.
      intros g Hg. apply Hvalid.
      apply list_elem_of_In. eapply elem_of_sublist; [|exact Hsub].
      now apply list_elem_of_In. }
    clear Hsub Hmerge Hvalid.
    induction Hrel as [|g m leaders merged [s ->] _ IH]; [constructor|].
    inversion Hleaders as [|? ? Hg Hrest]; subst.
    constructor; [now rewrite validate_entry_with_source|now apply IH]. }
  split; [exact Hmerged|].
  apply validate_batch_all_valid.
  eapply Forall_impl; [exact Hmerged|].
  intros m Hm. now apply is_valid_no_errors.
Qed.

Lemma merge_duplicates_keeps_validity_witness :
  exists merged,
    DuplicateDetector.merge_duplicates lower_latin1 None (85 # 100) two_hip_hops
    = Ok merged
    /\ Forall (fun m => QualityAssurance.validate_entry
                          QualityAssurance.re_match_default
                          QualityAssurance.default_rules m = []) merged
    /\ QualityAssurance.validate_batch QualityAssurance.re_match_default
         QualityAssurance.default_rules merged = (merged, []).
Proof.
  apply (merge_duplicates_keeps_validity lower_latin1 None (85 # 100)
           QualityAssurance.re_match_default QualityAssurance.default_rules
           two_hip_hops).
  repeat constructor.
Defined.

(** ** DynamicGenreGenerator: the candidates *)

Section GeneratorShapes.
Variable rng : Type.
Variable random_random : rng -> Z * rng.
Variable randbelow : nat -> rng -> nat * rng.
Variable config : DynamicGenreGenerator.data_sources.

Abbreviation G := (DynamicGenreGenerator.G rng).
Abbreviation wf := (fun combo => well_formed_candidate combo = true).

Lemma holds_ret {A} (a : A) (P : A -> Prop) Q : P a -> holds_after rng (mret a) P Q.
Proof. intros H g. exact H. Qed.

Lemma holds_bind {A B} (m : G A) (f : A -> G B) (P' : A -> Prop) P Q :
  holds_after rng m P' Q -> (forall a, P' a -> holds_after rng (f a) P Q) ->
  holds_after rng (m ≫= f) P Q.
Proof.
  intros Hm Hf g. unfold mbind, DynamicGenreGenerator.G_bind.
  specialize (Hm g). destruct (m g) as [a g'|r g'|e g']; [|exact Hm|exact I].
  now apply Hf.
Qed.

Lemma holds_lift {A} (r : result A) Q :
  holds_after rng (DynamicGenreGenerator.lift rng r) (fun _ => True) Q.
Proof. intros g. now destruct r. Qed.

Lemma holds_return {A} (r : list Combo) (P : A -> Prop) (Q : list Combo -> Prop) :
  Q r -> holds_after rng (DynamicGenreGenerator.return_ rng r) P Q.
Proof. intros H g. exact H. Qed.

Lemma keeps_for_each {A} (P : Combo -> Prop) (xs : list A)
    (body : list Combo -> A -> G (list Combo)) :
  (forall x, keeps rng P (fun s => body s x)) -> keeps rng P (for_each xs body).
Proof.
  intros Hbody. induction xs as [|x xs IH]; intros s Hs.
  - now apply holds_ret.
  - cbn [for_each]. eapply holds_bind; [exact (Hbody x s Hs)|].
    intros s' Hs'. exact (IH s' Hs').
Qed.

Lemma keeps_emit (P : Combo -> Prop) (formatted : result pystr)
    (combo : pystr -> Combo) :
  (forall name, P (combo name)) ->
  keeps rng P (fun generated =>
                 name ← DynamicGenreGenerator.lift rng formatted;
                 mret (generated ++ [combo name])).
Proof.
  intros Hcombo s Hs. eapply holds_bind; [apply holds_lift|].
  intros name _. apply holds_ret. apply Forall_app. split; [exact Hs|].
  constructor; [apply Hcombo|constructor].
Qed.

Lemma keeps_emit_up_to (P : Combo -> Prop) limit (formatted : result pystr)
    (combo : pystr -> Combo) :
  (forall name, P (combo name)) ->
  keeps rng P (fun generated =>
                 name ← DynamicGenreGenerator.lift rng formatted;
                 let generated := generated ++ [combo name] in
                 if len generated >=? limit
                 then DynamicGenreGenerator.return_ rng generated
                 else mret generated).
Proof.
  intros Hcombo s Hs. eapply holds_bind; [apply holds_lift|].
  intros name _. cbn zeta.
  assert (Forall P (s ++ [combo name])).
  { apply Forall_app. split; [exact Hs|]. constructor; [apply Hcombo|constructor]. }
  destruct (len (s ++ [combo name]) >=? limit);
    [now apply holds_return|now apply holds_ret].
Qed.

Lemma keeps_one (P : Combo -> Prop) (combo : Combo) :
  P combo -> keeps rng P (fun generated => mret (generated ++ [combo])).
Proof.
  intros Hcombo s Hs. apply holds_ret. apply Forall_app. split; [exact Hs|].
  constructor; [exact Hcombo|constructor].
Qed.

Lemma regional_fusions_shape limit :
  keeps rng wf (DynamicGenreGenerator.regional_fusions rng config limit).
Proof.
  unfold DynamicGenreGenerator.regional_fusions.
  apply keeps_for_each. intros [r1 r2].
  apply keeps_for_each. intros base.
  apply keeps_for_each. intros pattern.
  apply (keeps_emit_up_to wf limit _
           (fun name => mkCombo name (u "regional_fusion") [r1; r2; base])).
  reflexivity.
Qed.

Lemma era_variants_shape :
  keeps rng wf (DynamicGenreGenerator.era_variants rng config).
Proof.
  unfold DynamicGenreGenerator.era_variants.
  apply keeps_for_each. intros era.
  apply keeps_for_each. intros base.
  apply keeps_for_each. intros pattern.
  apply (keeps_emit wf _ (fun name => mkCombo name (u "era_variant") [era; base])).
  reflexivity.
Qed.

Lemma instrument_genres_shape :
  keeps rng wf (DynamicGenreGenerator.instrument_genres rng config).
Proof.
  unfold DynamicGenreGenerator.instrument_genres.
  apply keeps_for_each. intros instrument.
  apply keeps_for_each. intros base.
  apply keeps_for_each. intros pattern.
  apply (keeps_emit wf _
           (fun name => mkCombo name (u "instrument_based") [instrument; base])).
  reflexivity.
Qed.

Lemma modifier_variants_shape :
  keeps rng wf (DynamicGenreGenerator.modifier_variants rng config).
Proof.
  unfold DynamicGenreGenerator.modifier_variants.
  apply keeps_for_each. intros base s Hs.
  eapply holds_bind.
  - apply (keeps_for_each wf DynamicGenreGenerator.modifiers_electronic); [|exact Hs].
    intros mod_. now apply keeps_one.
  - intros s' Hs'.
    apply (keeps_for_each wf DynamicGenreGenerator.modifiers_traditional); [|exact Hs'].
    intros mod_. apply keeps_for_each. intros region. now apply keeps_one.
Qed.

Lemma holds_optional_choice (seq components : list pystr) (b : bool) Q :
  holds_after rng
    (if b then c ← DynamicGenreGenerator.choice rng randbelow seq;
               mret (components ++ [c])
     else mret components)
    (fun components' =>
       (length components <= length components' <= length components + 1)%nat) Q.
Proof.
  destruct b.
  - eapply (holds_bind _ _ (fun _ => True)).
    + intros g. unfold DynamicGenreGenerator.choice.
      destruct seq; [exact I|]. destruct (randbelow _ g) as [i g'].
      now destruct (_ !! i).
    + intros c _. apply holds_ret. rewrite length_app. cbn. lia.
  - apply holds_ret. lia.
Qed.

Lemma micro_genre_shape (i : nat) :
  keeps rng wf
    (fun generated =>
       DynamicGenreGenerator.micro_genre rng random_random randbelow config generated i).
Proof.
  intros s Hs. unfold DynamicGenreGenerator.micro_genre.
  eapply (holds_bind _ _ (fun _ => True)).
  { intros g. unfold DynamicGenreGenerator.random_above.
    now destruct (random_random g). }
  intros b1 _. eapply holds_bind; [apply holds_optional_choice|]. intros c1 H1.
  eapply (holds_bind _ _ (fun _ => True)).
  { intros g. unfold DynamicGenreGenerator.random_above.
    now destruct (random_random g). }
  intros b2 _. eapply holds_bind; [apply holds_optional_choice|]. intros c2 H2.
  eapply (holds_bind _ _ (fun _ => True)).
  { intros g. unfold DynamicGenreGenerator.random_above.
    now destruct (random_random g). }
  intros b3 _. eapply holds_bind; [apply holds_optional_choice|]. intros c3 H3.
  eapply (holds_bind _ _ (fun _ => True)).
  { intros g. unfold DynamicGenreGenerator.choice.
    destruct (DynamicGenreGenerator.base_genres config); [exact I|].
    destruct (randbelow _ g) as [k g']. now destruct (_ !! k). }
  intros c4 _. apply holds_ret. apply Forall_app. split; [exact Hs|].
  constructor; [|constructor].
  unfold well_formed_candidate. cbn [components combo_type]. cbn zeta.
  rewrite length_app. cbn [length] in *.
  replace (bool_decide (u "micro_genre" = u "regional_fusion")) with false by reflexivity.
  replace (bool_decide (u "micro_genre" = u "era_variant")) with false by reflexivity.
  replace (bool_decide (u "micro_genre" = u "instrument_based")) with false by reflexivity.
  replace (bool_decide (u "micro_genre" = u "electronic_variant")) with false by reflexivity.
  replace (bool_decide (u "micro_genre" = u "traditional_variant")) with false by reflexivity.
  replace (bool_decide (u "micro_genre" = u "micro_genre")) with true by reflexivity.
  cbn [andb orb].
  apply andb_true_intro. split; [apply Nat.leb_le|apply Nat.leb_le]; lia.
Qed.

Lemma body_shape limit :
  holds_after rng (DynamicGenreGenerator.body rng random_random randbelow config limit)
    (fun _ => False) (Forall wf).
Proof.
  unfold DynamicGenreGenerator.body.
  eapply holds_bind; [apply regional_fusions_shape; constructor|]. intros s1 H1.
  eapply holds_bind; [now apply era_variants_shape|]. intros s2 H2.
  eapply holds_bind; [now apply instrument_genres_shape|]. intros s3 H3.
  eapply holds_bind; [now apply modifier_variants_shape|]. intros s4 H4.
  eapply holds_bind.
  { unfold DynamicGenreGenerator.micro_genres.
    apply (keeps_for_each wf); [|exact H4]. intros i. apply micro_genre_shape. }
  intros s5 H5. apply holds_return. unfold slice_to.
  destruct (limit <? 0); now apply Forall_take.
Qed.
End GeneratorShapes.

Lemma generated_candidates_shape (rng : Type) (random_random : rng -> Z * rng)
    (randbelow : nat -> rng -> nat * rng) (config : DynamicGenreGenerator.data_sources)
    (limit : Z) (g g' : rng) (generated : list Combo) :
  DynamicGenreGenerator.generate_combinations rng random_random randbelow config limit g
  = (Ok generated, g') ->
  Forall (fun combo => well_formed_candidate combo = true) generated.
Proof.
  unfold DynamicGenreGenerator.generate_combinations. intros Hrun.
  assert (H := body_shape rng random_random randbelow config limit g).
  destruct (DynamicGenreGenerator.body _ _ _ _ _ g) as [a ga|r gr|e ge];
    [contradiction| |discriminate Hrun].
  injection Hrun as <- _. exact H.
Qed.

Lemma well_formed_candidate_cases (combo : Combo) :
  well_formed_candidate combo = true <->
  (combo_type combo = u "regional_fusion" /\ length (components combo) = 3%nat)
  \/ (combo_type combo = u "era_variant" /\ length (components combo) = 2%nat)
  \/ (combo_type combo = u "instrument_based" /\ length (components combo) = 2%nat)
  \/ (combo_type combo = u "electronic_variant" /\ length (components combo) = 2%nat)
  \/ (combo_type combo = u "traditional_variant" /\ length (components combo) = 3%nat)
  \/ (combo_type combo = u "micro_genre"
      /\ (1 <= length (components combo) <= 4)%nat).
Proof.
  unfold well_formed_candidate. cbn zeta.
  rewrite !orb_true_iff, !andb_true_iff, !bool_decide_eq_true, !Nat.eqb_eq, !Nat.leb_le.
  tauto.
Qed.

(** X9. Every candidate the generator returns has one of the six variant
    types and the number of components of its strategy: three for a
    regional fusion or a traditional variant, two for an era, instrument or
    electronic variant, and one to four for a micro genre. *)
Theorem generate_combinations_candidate_shapes (rng : Type)
    (random_random : rng -> Z * rng) (randbelow : nat -> rng -> nat * rng)
    (config : DynamicGenreGenerator.data_sources) (limit : Z) (g g' : rng)
    (generated : list Combo) :
  DynamicGenreGenerator.generate_combinations rng random_random randbelow config limit g
  = (Ok generated, g') ->
  Forall (fun combo =>
            (combo_type combo = u "regional_fusion" /\ length (components combo) = 3%nat)
            \/ (combo_type combo = u "era_variant" /\ length (components combo) = 2%nat)
            \/ (combo_type combo = u "instrument_based"
                /\ length (components combo) = 2%nat)
            \/ (combo_type combo = u "electronic_variant"
                /\ length (components combo) = 2%nat)
            \/ (combo_type combo = u "traditional_variant"
                /\ length (components combo) = 3%nat)
            \/ (combo_type combo = u "micro_genre"
                /\ (1 <= length (components combo) <= 4)%nat)) generated.
Proof.
  intros Hrun.
  eapply Forall_impl;
    [exact (generated_candidates_shape rng random_random randbelow config limit g g'
              generated Hrun)|].
  intros combo Hcombo. now apply well_formed_candidate_cases.
Qed.

Lemma generate_combinations_candidate_shapes_witness :
  Forall (fun combo =>
            (combo_type combo = u "regional_fusion" /\ length (components combo) = 3%nat)
            \/ (combo_type combo = u "era_variant" /\ length (components combo) = 2%nat)
            \/ (combo_type combo = u "instrument_based"
                /\ length (components combo) = 2%nat)
            \/ (combo_type combo = u "electronic_variant"
                /\ length (components combo) = 2%nat)
            \/ (combo_type combo = u "traditional_variant"
                /\ length (components combo) = 3%nat)
            \/ (combo_type combo = u "micro_genre"
                /\ (1 <= length (components combo) <= 4)%nat)) first_two_fusions.
Proof.
  apply (generate_combinations_candidate_shapes unit (fun g => (0, g))
           (fun _ g => (O, g)) DynamicGenreGenerator.default_data_sources 2 tt tt).
  vm_compute. reflexivity.
Defined.

(** X10. The level of a generated candidate under a resolved parent
    depends on its type and the parent's level only: the component counts
    the level rules ask for always hold for era, instrument, electronic and
    traditional variants and micro genres, and never for a regional fusion,
    which has three components and so falls to the last rule. *)
Theorem generated_candidate_level_by_type (rng : Type)
    (random_random : rng -> Z * rng) (randbelow : nat -> rng -> nat * rng)
    (config : DynamicGenreGenerator.data_sources) (limit : Z) (g g' : rng)
    (generated : list Combo) :
  DynamicGenreGenerator.generate_combinations rng random_random randbelow config limit g
  = (Ok generated, g') ->
  forall combo (level_map : gmap Z Z) (pid : Z),
    In combo generated ->
    let parent_level := default 1 (level_map !! pid) in
    HierarchyBuilder._determine_level_advanced combo level_map (Some pid)
    = if bool_decide (combo_type combo = u "era_variant")
      then Z.min (parent_level + 1) 2
      else if list_in (combo_type combo) [u "instrument_based"; u "electronic_variant"]
      then Z.min (parent_level + 1) 3
      else if list_in (combo_type combo) [u "traditional_variant"; u "micro_genre"]
      then Z.min (parent_level + 2) 4
      else Z.min (parent_level + 2) 5.
Proof.
  intros Hrun combo level_map pid Hin parent_level.
  assert (Hshape := generated_candidates_shape rng random_random randbelow config
                      limit g g' generated Hrun).
  rewrite List.Forall_forall in Hshape. specialize (Hshape combo Hin).
  apply well_formed_candidate_cases in Hshape.
  unfold HierarchyBuilder._determine_level_advanced. fold parent_level.
  destruct Hshape as [[Ht Hn]|[[Ht Hn]|[[Ht Hn]|[[Ht Hn]|[[Ht Hn]|[Ht Hn]]]]]];
    rewrite Ht; try rewrite Hn; cbn zeta; try reflexivity.
  replace (list_in (u "micro_genre") [u "era_variant"; u "regional_fusion"])
    with false by reflexivity.
  replace (list_in (u "micro_genre") [u "instrument_based"; u "electronic_variant"])
    with false by reflexivity.
  replace (list_in (u "micro_genre") [u "traditional_variant"; u "micro_genre"])
    with true by reflexivity.
  replace (bool_decide (u "micro_genre" = u "era_variant")) with false by reflexivity.
  cbn [andb]. destruct (Z.leb_spec (Z.of_nat (length (components combo))) 4);
    [reflexivity|lia].
Qed.

Lemma generated_candidate_level_by_type_witness :
  HierarchyBuilder._determine_level_advanced
    (mkCombo (u "USA UK Fusion") (u "regional_fusion") [u "USA"; u "UK"; u "Blues"])
    {[ 1 := 1 ]} (Some 1) = 3.
Proof.
  apply (generated_candidate_level_by_type unit (fun g => (0, g)) (fun _ g => (O, g))
           DynamicGenreGenerator.default_data_sources 2 tt tt first_two_fusions).
  - vm_compute. reflexivity.
  - now left.
Defined.

(** X11. For a limit of at least 1, non-empty region and base-genre lists
    and a [_randbelow] that stays in range, the call returns, and the
    number of candidates is the limit unless the five strategies together
    make fewer: the fixed strategies' candidates and 3000 micro genres. *)
Theorem generate_combinations_meets_positive_limit (rng : Type)
    (random_random : rng -> Z * rng) (randbelow : nat -> rng -> nat * rng)
    (config : DynamicGenreGenerator.data_sources) (limit : Z) (g : rng) :
  (forall n g, (0 < n)%nat -> (fst (randbelow n g) < n)%nat) ->
  DynamicGenreGenerator.regions config <> [] ->
  DynamicGenreGenerator.base_genres config <> [] ->
  1 <= limit ->
  exists generated g',
    DynamicGenreGenerator.generate_combinations rng random_random randbelow config limit g
    = (Ok generated, g')
    /\ len generated = Z.min limit (count_fixed config + 3000)
    /\ len generated <= limit
    /\ (limit <= count_fixed config + 3000 -> len generated = limit).
Proof.
  intros Hbelow Hregions Hbase Hlimit.
  destruct (generate_combinations_count rng random_random randbelow config limit g
              Hbelow Hregions Hbase Hlimit) as (generated & g' & Hrun & Hlen).
  exists generated, g'. split; [exact Hrun|]. split; [exact Hlen|]. lia.
Qed.

Lemma generate_combinations_meets_positive_limit_witness :
  exists generated g',
    DynamicGenreGenerator.generate_combinations unit (fun g => (0, g)) (fun _ g => (O, g))
      DynamicGenreGenerator.default_data_sources 5000 tt = (Ok generated, g')
    /\ len generated = Z.min 5000
                         (count_fixed DynamicGenreGenerator.default_data_sources + 3000)
    /\ len generated <= 5000
    /\ (5000 <= count_fixed DynamicGenreGenerator.default_data_sources + 3000 ->
        len generated = 5000).
Proof.
  apply (generate_combinations_meets_positive_limit unit (fun g => (0, g))
           (fun _ g => (O, g)) DynamicGenreGenerator.default_data_sources 5000 tt).
  - intros n g Hn. exact Hn.
  - discriminate.
  - discriminate.
  - lia.
Defined.

(** X12. With a limit of 0 or below, at least two regions and a base
    genre, the call returns one candidate, the first regional fusion: the
    early return looks at the limit only after appending. *)
Theorem generate_combinations_nonpositive_limit (rng : Type)
    (random_random : rng -> Z * rng) (randbelow : nat -> rng -> nat * rng)
    (config : DynamicGenreGenerator.data_sources) (limit : Z) (g : rng)
    (r1 r2 base : pystr) (regions' base_genres' : list pystr) :
  DynamicGenreGenerator.regions config = r1 :: r2 :: regions' ->
  DynamicGenreGenerator.base_genres config = base :: base_genres' ->
  limit <= 0 ->
  DynamicGenreGenerator.generate_combinations rng random_random randbelow config limit g
  = (Ok [ {| combo_name := r1 ++ u " " ++ r2 ++ u " Fusion";
             combo_type := u "regional_fusion";
             components := [r1; r2; base] |} ], g).
Proof.
  intros Hregions Hbase Hlimit.
  unfold DynamicGenreGenerator.generate_combinations, DynamicGenreGenerator.body.
  unfold mbind at 1. unfold DynamicGenreGenerator.G_bind at 1.
  unfold DynamicGenreGenerator.regional_fusions. rewrite Hregions, Hbase.
  cbn [take firstn combinations2 List.map app for_each
       DynamicGenreGenerator.regional_fusion_patterns].
  unfold mbind, DynamicGenreGenerator.G_bind.
  unfold DynamicGenreGenerator.lift at 1.
  replace (format (u "{region1} {region2} Fusion")
             [(u "region1", r1); (u "region2", r2); (u "base", base)])
    with (Ok (r1 ++ u " " ++ r2 ++ u " Fusion")) by reflexivity.
  cbn zeta. cbn [app].
  replace (len [ {| combo_name := r1 ++ u " " ++ r2 ++ u " Fusion";
                    combo_type := u "regional_fusion";
                    components := [r1; r2; base] |} ] >=? limit) with true.
  - reflexivity.
  - symmetry. unfold len. cbn [length]. apply Z.geb_le. lia.
Qed.

Lemma generate_combinations_nonpositive_limit_witness :
  DynamicGenreGenerator.generate_combinations unit (fun g => (0, g)) (fun _ g => (O, g))
    DynamicGenreGenerator.default_data_sources (-5) tt
  = (Ok [ {| combo_name := u "USA" ++ u " " ++ u "UK" ++ u " Fusion";
             combo_type := u "regional_fusion";
             components := [u "USA"; u "UK"; u "Blues"] |} ], tt).
Proof.
  apply (generate_combinations_nonpositive_limit unit (fun g => (0, g))
           (fun _ g => (O, g)) DynamicGenreGenerator.default_data_sources (-5) tt
           (u "USA") (u "UK") (u "Blues")
           (skipn 2 (DynamicGenreGenerator.regions
                       DynamicGenreGenerator.default_data_sources))
           (skipn 1 (DynamicGenreGenerator.base_genres
                       DynamicGenreGenerator.default_data_sources))).
  - reflexivity.
  - reflexivity.
  - lia.
Defined.

(** ** HierarchyBuilder: the main genres *)

Section Seeding.
Variable enricher : pystr -> pystr -> Metadata.
Variable determine_parent : Combo -> gmap pystr Z -> list Genre -> option Z.

Lemma for_each_cons_run {A S} (body : S -> A -> HierarchyBuilder.M S) x xs s s' self self' :
  body s x self = (Ok s', self') ->
  for_each (x :: xs) body s self = for_each xs body s' self'.
Proof.
  intros Hbody. cbn [for_each]. unfold mbind at 1. unfold HierarchyBuilder.M_bind at 1.
  now rewrite Hbody.
Qed.

(** The main-genre loop issues consecutive ids from the counter. *)
Lemma seed_main_genres_ids (names : list pystr) : forall l self,
  exists l',
    for_each names (HierarchyBuilder.seed_main_genre enricher) l self
    = (Ok l', {| HierarchyBuilder.id_counter :=
                   HierarchyBuilder.id_counter self + Z.of_nat (length names) |})
    /\ HierarchyBuilder.genres l'
       = HierarchyBuilder.genres l
         ++ imap (fun k n =>
                    HierarchyBuilder.make_genre
                      (HierarchyBuilder.id_counter self + Z.of_nat k) n 1 None
                      (enricher n (u "main"))) names.
Proof.
  induction names as [|n names IH]; intros l self.
  - exists l. cbn. rewrite Z.add_0_r, app_nil_r. now destruct self.
  - rewrite (for_each_cons_run _ n names l _ self _ eq_refl).
    match goal with
    | |- context [for_each names _ ?l1 ?self1] =>
        destruct (IH l1 self1) as (l' & Hrun & Hgenres)
    end.
    exists l'. rewrite Hrun. split.
    + do 2 f_equal. cbn [HierarchyBuilder.id_counter length]. lia.
    + rewrite Hgenres. cbn [HierarchyBuilder.genres HierarchyBuilder.id_counter imap].
      rewrite <- app_assoc. cbn [app]. f_equal. f_equal.
      * now rewrite Z.add_0_r.
      * apply imap_ext. intros k x _. cbn. f_equal. lia.
Qed.
End Seeding.

(** X13. Without candidates, and with an enricher whose metadata call
    returns, hierarchy building returns the twenty main genres in their
    order, each of level 1 and without parent, with consecutive ids that
    start at the instance's counter, and leaves the counter twenty higher:
    a later call never issues one of these ids again. *)
Theorem build_hierarchy_seeds_consecutive_ids
    (enricher : pystr -> pystr -> Metadata)
    (determine_parent : Combo -> gmap pystr Z -> list Genre -> option Z)
    (self : HierarchyBuilder.t) :
  let first_id := HierarchyBuilder.id_counter self in
  HierarchyBuilder.build_hierarchy enricher determine_parent [] self
  = (Ok (imap (fun k n =>
                 HierarchyBuilder.make_genre (first_id + Z.of_nat k) n 1 None
                   (enricher n (u "main")))
           HierarchyBuilder.main_genres),
     {| HierarchyBuilder.id_counter := first_id + 20 |}).
Proof.
  cbn zeta. unfold HierarchyBuilder.build_hierarchy.
  unfold mbind at 1. unfold HierarchyBuilder.M_bind at 1.
  destruct (seed_main_genres_ids enricher HierarchyBuilder.main_genres
              {| HierarchyBuilder.genres := []; HierarchyBuilder.parent_map := ∅;
                 HierarchyBuilder.level_map := ∅ |} self) as (l' & Hrun & Hgenres).
  rewrite Hrun. cbn [sorted fold_left for_each].
  unfold mbind, HierarchyBuilder.M_bind, mret, HierarchyBuilder.M_ret.
  now rewrite Hgenres.
Qed.

(** ** MetadataEnricher: the inferred fields *)

Lemma NoDup_distinct_in_order xs : List.NoDup (distinct_in_order xs).
Proof.
  induction xs as [|x xs IH]; cbn [distinct_in_order]; constructor.
  - rewrite filter_In. intros [_ H].
    apply negb_true_iff, bool_decide_eq_false in H. now apply H.
  - now apply List.NoDup_filter.
Qed.

Lemma distinct_in_order_In x xs : In x (distinct_in_order xs) <-> In x xs.
Proof.
  induction xs as [|y xs IH]; [reflexivity|]. cbn [distinct_in_order In].
  rewrite filter_In, IH. split.
  - intros [H|[H _]]; auto.
  - intros [H|H]; [now left|].
    destruct (decide (x = y)) as [->|Hne]; [now left|right].
    split; [assumption|]. now apply negb_true_iff, bool_decide_eq_false.
Qed.

Lemma length_join_le (sep : pystr) (n : nat) (parts : list pystr) :
  parts <> [] ->
  Forall (fun p => (length p <= n)%nat) parts ->
  (length (join sep parts) + length sep <= length parts * (n + length sep))%nat.
Proof.
  intros Hne Hall. induction Hall as [|p parts Hp Hparts IH]; [contradiction|].
  destruct parts as [|q parts]; [cbn; lia|].
  change (join sep (p :: q :: parts)) with (p ++ sep ++ join sep (q :: parts)).
  rewrite !length_app. specialize (IH ltac:(discriminate)).
  cbn [length] in *. lia.
Qed.

Lemma slice_to_short {A} (xs : list A) (stop : Z) :
  len xs <= stop -> slice_to xs stop = xs.
Proof.
  unfold len, slice_to. intros H.
  destruct (Z.ltb_spec stop 0); [lia|]. apply take_ge. lia.
Qed.

Section Instruments.
Variable lower capitalize : pystr -> pystr.

Abbreviation known := (fun i : pystr => In i known_instruments).

Lemma known_app xs ys : Forall known xs -> Forall known ys -> Forall known (xs ++ ys).
Proof. intros. now apply Forall_app. Qed.

Lemma known_listed xs :
  forallb (fun i => list_in i known_instruments) xs = true -> Forall known xs.
Proof.
  intros H. apply Forall_forall. intros i Hi. apply list_in_true.
  rewrite forallb_forall in H. apply H. now apply list_elem_of_In.
Qed.

Lemma known_if (c : bool) xs ys :
  Forall known xs -> Forall known ys -> Forall known (if c then xs else ys).
Proof. now destruct c. Qed.

Lemma mapped_instruments_known kv :
  In kv MetadataEnricher.instrument_mappings ->
  Forall known (snd kv) /\ snd kv <> [].
Proof.
  intros Hin.
  assert (Hall : forallb (fun kv : pystr * list pystr =>
                   forallb (fun i => list_in i known_instruments) (snd kv)
                   && negb (bool_decide (snd kv = [])))
                   MetadataEnricher.instrument_mappings = true)
    by (vm_compute; reflexivity).
  rewrite forallb_forall in Hall. apply Hall, andb_true_iff in Hin as [Hk Hne].
  split; [now apply known_listed|].
  now apply negb_true_iff, bool_decide_eq_false in Hne.
Qed.

Lemma first_key_in_some {V} (mapping : list (pystr * V)) genre_lower kv :
  MetadataEnricher.first_key_in lower mapping genre_lower = Some kv ->
  In kv mapping.
Proof. intros H. now apply find_some in H. Qed.

Lemma related_instruments_known genre_lower ins :
  Forall known ins ->
  Forall known (MetadataEnricher.related_instruments genre_lower ins).
Proof.
  intros H. unfold MetadataEnricher.related_instruments. cbv zeta.
  repeat (apply known_if || apply known_app || assumption
          || (apply known_listed; vm_compute; reflexivity)).
Qed.

Lemma keyword_instruments_known genre_lower ins :
  Forall known ins ->
  Forall known (MetadataEnricher.keyword_instruments genre_lower ins).
Proof.
  intros H. unfold MetadataEnricher.keyword_instruments. cbv zeta.
  repeat (apply known_if || apply known_app || assumption
          || (apply known_listed; vm_compute; reflexivity)).
Qed.

Lemma base_genre_instruments_known genre_lower ins :
  Forall known ins ->
  Forall known (MetadataEnricher.base_genre_instruments capitalize genre_lower ins).
Proof.
  intros H. unfold MetadataEnricher.base_genre_instruments.
  destruct (List.find _ _) as [base|]; [|assumption].
  apply known_app; [assumption|].
  unfold slice_to. cbn [Z.ltb Z.compare Z.to_nat Pos.to_nat Pos.iter_op Init.Nat.add].
  apply Forall_take.
  unfold dict_get. destruct (List.find _ _) as [kv|] eqn:Hfind; cbn [default].
  - apply find_some in Hfind as [Hin _]. now apply mapped_instruments_known.
  - apply known_listed. vm_compute. reflexivity.
Qed.

Lemma related_instruments_nonempty genre_lower ins :
  ins <> [] -> MetadataEnricher.related_instruments genre_lower ins <> [].
Proof.
  intros H. unfold MetadataEnricher.related_instruments. cbv zeta.
  repeat match goal with
         | |- context [if ?c then _ else _] => destruct c
         end;
    try assumption; intros Happ;
    repeat (apply app_eq_nil in Happ as [Happ _]); contradiction.
Qed.

Lemma keyword_instruments_nonempty genre_lower ins :
  ins <> [] -> MetadataEnricher.keyword_instruments genre_lower ins <> [].
Proof.
  intros H. unfold MetadataEnricher.keyword_instruments. cbv zeta.
  repeat match goal with
         | |- context [if ?c then _ else _] => destruct c
         end;
    try assumption; intros Happ;
    repeat (apply app_eq_nil in Happ as [Happ _]); contradiction.
Qed.

(** The list handed to [dict.fromkeys]: known instruments, at least one. *)
Lemma collected_instruments genre_name :
  exists ins,
    MetadataEnricher._infer_instruments lower capitalize genre_name
    = join (u "/") (take 5 (distinct_in_order ins))
    /\ ins <> [] /\ Forall known ins.
Proof.
  unfold MetadataEnricher._infer_instruments. cbv zeta.
  set (genre_lower := lower genre_name).
  set (start := match MetadataEnricher.first_key_in lower _ genre_lower with
                | Some (_, instr_list) => (instr_list, true)
                | None => ([], false)
                end).
  assert (Hstart : Forall known (fst start)).
  { subst start. destruct (MetadataEnricher.first_key_in _ _ _) as [[k v]|] eqn:Hkey.
    - apply first_key_in_some in Hkey. now apply (mapped_instruments_known (k, v)).
    - constructor. }
  destruct start as [instruments matched]. cbn [fst] in Hstart.
  eexists. split.
  - rewrite dict_fromkeys_distinct. reflexivity.
  - split.
    + destruct (bool_decide _) eqn:Hempty; [discriminate|].
      now apply bool_decide_eq_false in Hempty.
    + apply known_if; [apply known_listed; vm_compute; reflexivity|].
      apply known_if; [apply base_genre_instruments_known|];
        apply keyword_instruments_known, known_if; try assumption;
        now apply related_instruments_known.
Qed.
End Instruments.

Section InstrumentFallback.
Variable lower capitalize : pystr -> pystr.
Hypothesis lower_ascii : forall s, is_ascii s = true -> lower s = lower_latin1 s.

(** No key of the mapping occurs in the name: none of the six base
    genres does, each being a key in lower case. *)
Lemma mapping_key_absent genre_lower key :
  MetadataEnricher.first_key_in lower MetadataEnricher.instrument_mappings genre_lower
  = None ->
  list_in key (List.map fst MetadataEnricher.instrument_mappings) = true ->
  is_ascii key = true ->
  str_in (lower_latin1 key) genre_lower = false.
Proof using lower_ascii.
  intros Hnone Hkey Hascii. apply list_in_true, in_map_iff in Hkey as (kv & <- & Hin).
  rewrite <- (lower_ascii _ Hascii).
  exact (find_none _ _ Hnone kv Hin).
Qed.

Lemma base_genre_fallback_idle genre_lower ins :
  MetadataEnricher.first_key_in lower MetadataEnricher.instrument_mappings genre_lower
  = None ->
  MetadataEnricher.base_genre_instruments capitalize genre_lower ins = ins.
Proof using lower_ascii.
  intros Hnone. unfold MetadataEnricher.base_genre_instruments.
  assert (Hfind : List.find (fun base => str_in base genre_lower)
                    [u "rock"; u "jazz"; u "blues"; u "electronic"; u "classical";
                     u "folk"] = None).
  { cbn [List.find].
    change (u "rock") with (lower_latin1 (u "Rock")).
    change (u "jazz") with (lower_latin1 (u "Jazz")).
    change (u "blues") with (lower_latin1 (u "Blues")).
    change (u "electronic") with (lower_latin1 (u "Electronic")).
    change (u "classical") with (lower_latin1 (u "Classical")).
    change (u "folk") with (lower_latin1 (u "Folk")).
    rewrite !(mapping_key_absent genre_lower _ Hnone) by (vm_compute; reflexivity).
    reflexivity. }
  now rewrite Hfind.
Qed.
End InstrumentFallback.

(** The inferred instruments: one to five known names, slash-joined. *)
Lemma infer_instruments_shape (lower capitalize : pystr -> pystr)
    (genre_name : pystr) :
  let text := MetadataEnricher._infer_instruments lower capitalize genre_name in
  (exists names,
     text = join (u "/") names
     /\ NoDup names /\ (1 <= length names <= 5)%nat
     /\ Forall (fun i => In i known_instruments) names)
  /\ 1 <= len text <= 84.
Proof.
  cbn zeta.
  destruct (collected_instruments lower capitalize genre_name)
    as (ins & -> & Hne & Hknown).
  set (names := take 5 (distinct_in_order ins)).
  assert (Hnames : Forall (fun i => In i known_instruments) names).
  { apply Forall_forall. intros i Hi.
    apply (subseteq_take 5), list_elem_of_In in Hi.
    rewrite distinct_in_order_In in Hi.
    rewrite Forall_forall in Hknown. apply Hknown, list_elem_of_In, Hi. }
  assert (Hcount : (1 <= length names <= 5)%nat).
  { subst names. rewrite length_take. destruct ins as [|i ins]; [contradiction|].
    cbn [distinct_in_order length]. lia. }
  assert (Hsize : Forall (fun i : pystr => (1 <= length i <= 16)%nat) names).
  { assert (Hall : forallb (fun i : pystr => (1 <=? length i)%nat && (length i <=? 16)%nat)
                     known_instruments = true) by (vm_compute; reflexivity).
    rewrite forallb_forall in Hall. eapply Forall_impl; [exact Hnames|].
    intros i Hi. apply Hall, andb_true_iff in Hi as [H1 H2].
    apply Nat.leb_le in H1, H2. lia. }
  assert (Hlen : 1 <= len (join (u "/") names) <= 84).
  { unfold len. split.
    - destruct names as [|i [|j names']]; [cbn in Hcount; lia| |];
        apply Forall_cons_1 in Hsize as [Hi _].
      + cbn [join]. lia.
      + change (join (u "/") (i :: j :: names'))
          with (i ++ u "/" ++ join (u "/") (j :: names')).
        rewrite length_app. lia.
    - assert (Hmax : Forall (fun i : pystr => (length i <= 16)%nat) names)
        by (eapply Forall_impl; [exact Hsize|]; intros i Hi; cbn beta in *; lia).
      assert (Hsome : names <> []) by (intros Hnil; rewrite Hnil in Hcount; cbn in Hcount; lia).
      assert (Hle := length_join_le (u "/") 16 names Hsome Hmax).
      change (length (u "/")) with 1%nat in Hle. lia. }
  split; [|exact Hlen].
  exists names. split; [reflexivity|]. split; [|split; assumption].
  subst names. eapply sublist_NoDup; [|apply sublist_take].
  apply NoDup_ListNoDup, NoDup_distinct_in_order.
Qed.

(** X14. The instruments inferred for a genre name are the names of one to
    five distinct known instruments joined by slashes, whatever [str.lower]
    and [str.capitalize] return: the text is never empty and has at most 84
    code points. *)
Theorem infer_instruments_names (lower capitalize : pystr -> pystr)
    (genre_name : pystr) :
  let text := MetadataEnricher._infer_instruments lower capitalize genre_name in
  (exists names,
     text = join (u "/") names
     /\ NoDup names /\ (1 <= length names <= 5)%nat
     /\ Forall (fun i => In i known_instruments) names)
  /\ 1 <= len text <= 84.
Proof. apply infer_instruments_shape. Qed.

(** X15. The fallback on base genres in the instrument inference is dead
    code: where [str.lower] lower-cases ASCII text letter by letter, a name
    that contains rock, jazz, blues, electronic, classical or folk has
    matched that key of the mapping before, so the inferred instruments do
    not depend on what [str.capitalize] returns. *)
Theorem infer_instruments_ignores_base_fallback
    (lower capitalize capitalize' : pystr -> pystr) (genre_name : pystr) :
  (forall s, is_ascii s = true -> lower s = lower_latin1 s) ->
  MetadataEnricher._infer_instruments lower capitalize genre_name
  = MetadataEnricher._infer_instruments lower capitalize' genre_name.
Proof.
  intros Hlower. unfold MetadataEnricher._infer_instruments. cbv zeta.
  destruct (MetadataEnricher.first_key_in lower _ (lower genre_name))
    as [[k v]|] eqn:Hkey.
  - apply first_key_in_some, mapped_instruments_known in Hkey as [_ Hne].
    cbn [snd negb] in *.
    rewrite (bool_decide_eq_false_2 _
               (keyword_instruments_nonempty (lower genre_name) v Hne)).
    reflexivity.
  - now rewrite !(base_genre_fallback_idle lower _ Hlower _ _ Hkey).
Qed.

Lemma infer_instruments_ignores_base_fallback_witness :
  MetadataEnricher._infer_instruments lower_latin1 (fun s => s) (u "Garage Rockabilly")
  = MetadataEnricher._infer_instruments lower_latin1 (fun _ => []) (u "Garage Rockabilly").
Proof.
  apply (infer_instruments_ignores_base_fallback lower_latin1 (fun s => s)
           (fun _ => []) (u "Garage Rockabilly")).
  intros s _. reflexivity.
Defined.

Section InferredValues.
Variable lower : pystr -> pystr.

Lemma infer_period_values genre_name :
  In (MetadataEnricher._infer_period lower genre_name)
    (List.map snd MetadataEnricher.period_rules
     ++ [u "1980-now"; u "1800-now"; u "1600-1900"; u "1950-now"]).
Proof.
  unfold MetadataEnricher._infer_period, MetadataEnricher.period_rules.
  cbn [MetadataEnricher.scan_period_rules].
  repeat match goal with
         | |- context [if ?c then _ else _] => destruct c
         end;
    apply list_in_true; vm_compute; reflexivity.
Qed.

Lemma infer_region_language genre_name :
  let region := MetadataEnricher._infer_region lower genre_name in
  In (region, MetadataEnricher._infer_language region) region_languages.
Proof.
  cbn zeta. unfold MetadataEnricher._infer_region. cbn [List.find].
  repeat match goal with
         | |- context [if ?c then _ else _] => destruct c
         end;
    vm_compute; tauto.
Qed.

Lemma infer_bpm_length genre_name :
  len (MetadataEnricher._infer_bpm lower genre_name) <= 7.
Proof.
  unfold MetadataEnricher._infer_bpm.
  destruct (MetadataEnricher.first_key_in lower _ _) as [[k v]|] eqn:Hkey.
  - apply first_key_in_some in Hkey.
    assert (Hall : forallb (fun kv : pystr * pystr => len (snd kv) <=? 7)
                     MetadataEnricher.bpm_mappings = true) by (vm_compute; reflexivity).
    rewrite forallb_forall in Hall. apply Hall in Hkey. now apply Z.leb_le in Hkey.
  - repeat match goal with
           | |- context [if ?c then _ else _] => destruct c
           end;
      vm_compute; discriminate.
Qed.
End InferredValues.

(** X16. The period inferred for a genre name passes the default period
    pattern unless it is the period of the Prehistoric era, 40000BC-3000BC,
    whose first year has five digits: an entry that carries this period is
    rejected by the validation with the default rules. *)
Theorem inferred_period_against_default_pattern (lower : pystr -> pystr)
    (genre_name : pystr) :
  let inferred := MetadataEnricher._infer_period lower genre_name in
  QualityAssurance.match_default_period inferred
  = negb (bool_decide (inferred = u "40000BC-3000BC"))
  /\ (forall genre,
        period genre = inferred -> inferred = u "40000BC-3000BC" ->
        is_valid QualityAssurance.re_match_default QualityAssurance.default_rules
          genre = false).
Proof.
  cbn zeta. split.
  - assert (Hall : forallb (fun p => Bool.eqb (QualityAssurance.match_default_period p)
                                       (negb (bool_decide (p = u "40000BC-3000BC"))))
                     (List.map snd MetadataEnricher.period_rules
                      ++ [u "1980-now"; u "1800-now"; u "1600-1900"; u "1950-now"])
                   = true) by (vm_compute; reflexivity).
    rewrite forallb_forall in Hall.
    now apply Bool.eqb_prop, Hall, infer_period_values.
  - intros genre Hperiod Hpre.
    destruct (is_valid _ _ genre) eqn:Hvalid; [|reflexivity].
    apply is_valid_conditions in Hvalid as (_ & Hmatch & _).
    rewrite Hperiod, Hpre in Hmatch. vm_compute in Hmatch. discriminate Hmatch.
Qed.

Lemma inferred_period_against_default_pattern_witness :
  QualityAssurance.match_default_period
    (MetadataEnricher._infer_period lower_latin1 (u "Prehistoric Blues")) = false
  /\ is_valid QualityAssurance.re_match_default QualityAssurance.default_rules
       prehistoric_blues = false.
Proof.
  destruct (inferred_period_against_default_pattern lower_latin1
              (u "Prehistoric Blues")) as [Hmatch Hvalid].
  split.
  - exact Hmatch.
  - apply (Hvalid prehistoric_blues); reflexivity.
Defined.

(** X17. The region inferred for a genre name is one of seventeen, and
    the language inferred from it is the one the table [region_languages]
    gives: Scandinavia, Asia and Europe have no entry in the language map
    and get EN, and the entry for Russia is never used, so RU is never
    inferred. *)
Theorem inferred_region_and_language (lower : pystr -> pystr) (genre_name : pystr) :
  let inferred := MetadataEnricher._infer_region lower genre_name in
  In (inferred, MetadataEnricher._infer_language inferred) region_languages
  /\ MetadataEnricher._infer_language inferred <> u "RU".
Proof.
  cbn zeta. assert (Hin := infer_region_language lower genre_name). cbn zeta in Hin.
  split; [exact Hin|].
  assert (Hall : forallb (fun rl : pystr * pystr => negb (bool_decide (snd rl = u "RU")))
                   region_languages = true) by (vm_compute; reflexivity).
  rewrite forallb_forall in Hall. apply Hall in Hin.
  now apply negb_true_iff, bool_decide_eq_false in Hin.
Qed.

(** X18. The texts inferred for a genre name fit the fields they are cut
    to when the metadata is put together: the region and the period have at
    most 15 code points, the language at most 5, the instruments at most
    100 and the tempo range at most 15, so none of these cuts shortens its
    text. *)
Theorem inferred_fields_fit_their_cuts (lower capitalize : pystr -> pystr)
    (genre_name : pystr) :
  let inferred_region := MetadataEnricher._infer_region lower genre_name in
  slice_to inferred_region 15 = inferred_region
  /\ slice_to (MetadataEnricher._infer_language inferred_region) 5
     = MetadataEnricher._infer_language inferred_region
  /\ slice_to (MetadataEnricher._infer_period lower genre_name) 15
     = MetadataEnricher._infer_period lower genre_name
  /\ slice_to (MetadataEnricher._infer_instruments lower capitalize genre_name) 100
     = MetadataEnricher._infer_instruments lower capitalize genre_name
  /\ slice_to (MetadataEnricher._infer_bpm lower genre_name) 15
     = MetadataEnricher._infer_bpm lower genre_name.
Proof.
  cbn zeta.
  assert (Hregion : forallb (fun rl : pystr * pystr =>
                       (len (fst rl) <=? 15) && (len (snd rl) <=? 5))
                      region_languages = true) by (vm_compute; reflexivity).
  rewrite forallb_forall in Hregion.
  assert (Hrl := infer_region_language lower genre_name). cbn zeta in Hrl.
  apply Hregion, andb_true_iff in Hrl as [Hr Hl].
  cbn [fst snd] in Hr, Hl. apply Z.leb_le in Hr, Hl.
  assert (Hperiod : forallb (fun p : pystr => len p <=? 15)
                      (List.map snd MetadataEnricher.period_rules
                       ++ [u "1980-now"; u "1800-now"; u "1600-1900"; u "1950-now"])
                    = true) by (vm_compute; reflexivity).
  rewrite forallb_forall in Hperiod.
  assert (Hp := infer_period_values lower genre_name).
  apply Hperiod, Z.leb_le in Hp.
  destruct (infer_instruments_shape lower capitalize genre_name) as [_ Hins].
  assert (Hbpm := infer_bpm_length lower genre_name).
  split; [|split; [|split; [|split]]]; apply slice_to_short; lia.
Qed.

Section TimeSignature.
Variable lower : pystr -> pystr.
Variable rng : Type.
Variable randbelow : nat -> rng -> nat * rng.
Hypothesis randbelow_lt : forall n g, (0 < n)%nat -> (fst (randbelow n g) < n)%nat.

Abbreviation named := (@names_signature rng).

Lemma named_listed ts g :
  list_in ts known_time_signatures = true -> named (Ok ts, g).
Proof. intros H. exists ts, g. split; [reflexivity|]. now apply list_in_true. Qed.

Lemma choice_named (seq : list pystr) g :
  seq <> [] -> Forall (fun ts => In ts known_time_signatures) seq ->
  named (MetadataEnricher.choice rng randbelow seq g).
Proof using randbelow_lt.
  intros Hne Hall. unfold MetadataEnricher.choice.
  destruct seq as [|x seq']; [contradiction|].
  assert (Hlt := randbelow_lt (length (x :: seq')) g ltac:(cbn; lia)).
  destruct (randbelow _ g) as [i g']. cbn [fst] in Hlt.
  destruct (lookup_lt_is_Some_2 (x :: seq') i Hlt) as [ts Hts]. rewrite Hts.
  exists ts, g'. split; [reflexivity|].
  rewrite Forall_forall in Hall. eapply Hall, list_elem_of_lookup_2, Hts.
Qed.

Lemma infer_time_signature_named genre_name g :
  named (MetadataEnricher._infer_time_signature lower rng randbelow genre_name g).
Proof using randbelow_lt.
  unfold MetadataEnricher._infer_time_signature.
  destruct (MetadataEnricher.first_key_in lower _ _) as [[k signatures]|] eqn:Hkey.
  - apply first_key_in_some in Hkey.
    assert (Hall : forallb (fun kv : pystr * list pystr =>
                     match snd kv with
                     | ts :: _ => list_in ts known_time_signatures
                     | [] => false
                     end
                     && match List.filter (fun s => negb (list_in s [u "4/4"; u "3/4"]))
                                (snd kv) with
                        | ts :: _ => list_in ts known_time_signatures
                        | [] => true
                        end)
                     MetadataEnricher.time_signature_mappings = true)
      by (vm_compute; reflexivity).
    rewrite forallb_forall in Hall. apply Hall, andb_true_iff in Hkey as [Hfirst Huncommon].
    cbn [snd] in Hfirst, Huncommon.
    repeat match goal with
           | |- context [if ?c then _ else _] => destruct c
           end;
      try (apply named_listed; vm_compute; reflexivity).
    all: try (destruct signatures as [|ts signatures]; [discriminate|]).
    all: now apply named_listed.
  - repeat match goal with
           | |- context [if ?c then _ else _] => destruct c
           end;
      try (apply named_listed; vm_compute; reflexivity).
    apply choice_named; [discriminate|].
    apply Forall_forall. intros ts Hts. apply list_in_true.
    assert (Hall : forallb (fun ts => list_in ts known_time_signatures)
                     [u "5/4"; u "7/4"; u "7/8"; u "9/8"] = true)
      by (vm_compute; reflexivity).
    rewrite forallb_forall in Hall. now apply Hall, list_elem_of_In.
Qed.
End TimeSignature.

(** X19. With a [_randbelow] that stays in range the time signature
    inference returns for every genre name: no lookup of a first signature
    fails, and the result is one of the nine known signatures, of at most
    four code points, which the cut to 10 leaves whole. *)
Theorem infer_time_signature_returns (lower : pystr -> pystr) (rng : Type)
    (randbelow : nat -> rng -> nat * rng) (genre_name : pystr) (g : rng) :
  (forall n g, (0 < n)%nat -> (fst (randbelow n g) < n)%nat) ->
  exists time_signature g',
    MetadataEnricher._infer_time_signature lower rng randbelow genre_name g
    = (Ok time_signature, g')
    /\ In time_signature known_time_signatures
    /\ slice_to time_signature 10 = time_signature.
Proof.
  intros Hlt.
  destruct (infer_time_signature_named lower rng randbelow Hlt genre_name g)
    as (ts & g' & Hrun & Hin).
  exists ts, g'. split; [exact Hrun|]. split; [exact Hin|].
  apply slice_to_short.
  assert (Hall : forallb (fun ts : pystr => len ts <=? 4) known_time_signatures = true)
    by (vm_compute; reflexivity).
  rewrite forallb_forall in Hall. apply Hall, Z.leb_le in Hin. lia.
Qed.

Lemma infer_time_signature_returns_witness :
  exists time_signature g',
    MetadataEnricher._infer_time_signature lower_latin1 unit draw_first
      (u "Progressive Odd Meter") tt
    = (Ok time_signature, g')
    /\ In time_signature known_time_signatures
    /\ slice_to time_signature 10 = time_signature.
Proof.
  apply (infer_time_signature_returns lower_latin1 unit draw_first
           (u "Progressive Odd Meter") tt).
  intros n g Hn. exact Hn.
Defined.

(** ** MetadataEnricher: generating the metadata *)

Section Metadata.
Variable lower capitalize : pystr -> pystr.
Variable rng : Type.
Variable randbelow : nat -> rng -> nat * rng.
Variable random_sample : list pystr -> Z -> rng -> result (list pystr) * rng.
Variable str_isdigit : pystr -> bool.
Variable int_of_str : pystr -> result Z.
Variable artist_database : list (pystr * list pystr).
Variable generate_source : pystr -> pystr.

Abbreviation generate_realistic_metadata :=
  (MetadataEnricher.generate_realistic_metadata lower capitalize rng randbelow
     random_sample str_isdigit int_of_str artist_database generate_source).

Lemma generate_realistic_metadata_raises genre_name genre_type g :
  exists e g', generate_realistic_metadata genre_name genre_type g = (Raise e, g').
Proof.
  unfold MetadataEnricher.generate_realistic_metadata.
  unfold mbind at 1. unfold MetadataEnricher.R_bind at 1.
  destruct (MetadataEnricher._infer_time_signature _ _ _ _ g) as [[ts|e] g1];
    [|now eexists _, _].
  unfold mbind at 1. unfold MetadataEnricher.R_bind at 1.
  destruct (MetadataEnricher._generate_artists _ _ _ _ _ _ g1) as [[[pioneers artists]|e] g2];
    [|now eexists _, _].
  unfold mbind at 1. unfold MetadataEnricher.R_bind at 1.
  destruct (MetadataEnricher._generate_works _ _ _ _ _ _ _ g2) as [[works|e] g3];
    [|now eexists _, _].
  now eexists _, _.
Qed.
End Metadata.

(** C6. The period rule is as the claim has it: [_infer_period] dates
    "Baroque Jazz Fusion" by its first era, Baroque, as "1600-1750".  The
    claim's example, however, reads the period off the inference as a
    whole, and that call returns no metadata: for the name and type of the
    example it ends in an exception, whatever the random source, the artist
    database and the library functions are, and with draws and library
    functions that do not fail it is the AttributeError of
    [_generate_source], the method the class does not define. *)
Theorem infer_baroque_jazz_fusion_raises :
  MetadataEnricher._infer_period lower_latin1 (u "Baroque Jazz Fusion")
  = u "1600-1750"
  /\ (forall (lower capitalize : pystr -> pystr) (rng : Type)
             (randbelow : nat -> rng -> nat * rng)
             (random_sample : list pystr -> Z -> rng -> result (list pystr) * rng)
             (str_isdigit : pystr -> bool) (int_of_str : pystr -> result Z)
             (artist_database : list (pystr * list pystr))
             (generate_source : pystr -> pystr) (g : rng),
        exists e g',
          MetadataEnricher.generate_realistic_metadata lower capitalize rng
            randbelow random_sample str_isdigit int_of_str artist_database
            generate_source (u "Baroque Jazz Fusion") (u "era_variant") g
          = (Raise e, g'))
  /\ MetadataEnricher.generate_realistic_metadata lower_latin1 (fun s => s) unit
       draw_first sample_prefix ascii_isdigit ascii_int fifty_artists_each
       (fun s => s) (u "Baroque Jazz Fusion") (u "era_variant") tt
     = (Raise (AttributeError "_generate_source"), tt).
Proof.
  split; [vm_compute; reflexivity|]. split.
  - intros lower capitalize rng randbelow random_sample str_isdigit int_of_str
      artist_database generate_source g.
    apply generate_realistic_metadata_raises.
  - vm_compute. reflexivity.
Qed.

(** ** HierarchyBuilder: an enricher that raises *)

Section BuildWithEffects.
Variable E : Type.
Variable determine_parent : Combo -> gmap pystr Z -> list Genre -> option Z.

Lemma seed_main_genre_raises
    (enricher : pystr -> pystr -> E -> result Metadata * E) l main_genre e self x e' :
  enricher main_genre (u "main") e = (Raise x, e') ->
  HierarchyBuilderE.seed_main_genre E enricher l main_genre (e, self)
  = (Raise x, (e', self)).
Proof.
  intros Hraise. unfold HierarchyBuilderE.seed_main_genre.
  unfold mbind, HierarchyBuilderE.ME_bind, HierarchyBuilderE.of_enricher.
  cbn [fst snd]. now rewrite Hraise.
Qed.

(** An exception of the enricher at the first main genre ends the call;
    no id has been taken. *)
Lemma build_hierarchy_enricher_raises
    (enricher : pystr -> pystr -> E -> result Metadata * E) combos e self x e' :
  enricher (u "Blues") (u "main") e = (Raise x, e') ->
  HierarchyBuilderE.build_hierarchy E enricher determine_parent combos (e, self)
  = (Raise x, (e', self)).
Proof.
  intros Hraise. unfold HierarchyBuilderE.build_hierarchy, HierarchyBuilder.main_genres.
  cbn [for_each]. unfold mbind at 1. unfold HierarchyBuilderE.ME_bind at 1.
  unfold mbind at 1. unfold HierarchyBuilderE.ME_bind at 1.
  now rewrite (seed_main_genre_raises enricher _ _ e self x e' Hraise).
Qed.
End BuildWithEffects.

Section BuilderModels.
Variable E : Type.
Variable enricher : pystr -> pystr -> Metadata.
Variable determine_parent : Combo -> gmap pystr Z -> list Genre -> option Z.

Lemma for_each_beside {A S} (bodyE : S -> A -> HierarchyBuilderE.ME E S)
    (body : S -> A -> HierarchyBuilder.M S) (e : E) :
  (forall s x self, bodyE s x (e, self) = beside e (body s x self)) ->
  forall xs s self,
    @for_each _ (HierarchyBuilderE.ME_bind E) (HierarchyBuilderE.ME_ret E) _ _
      xs bodyE s (e, self)
    = beside e (for_each xs body s self).
Proof.
  intros Hbody. induction xs as [|x xs IH]; intros s self; [reflexivity|].
  cbn [for_each]. unfold mbind.
  unfold HierarchyBuilderE.ME_bind at 1. unfold HierarchyBuilder.M_bind at 1.
  rewrite Hbody. unfold beside at 1.
  destruct (body s x self) as [[s'|err] self']; cbn [fst snd]; [apply IH|reflexivity].
Qed.

Lemma seed_main_genre_beside l main_genre e self :
  HierarchyBuilderE.seed_main_genre E (fun n ty e => (Ok (enricher n ty), e))
    l main_genre (e, self)
  = beside e (HierarchyBuilder.seed_main_genre enricher l main_genre self).
Proof. reflexivity. Qed.

Lemma place_combo_beside l combo e self :
  HierarchyBuilderE.place_combo E (fun n ty e => (Ok (enricher n ty), e))
    determine_parent l combo (e, self)
  = beside e (HierarchyBuilder.place_combo enricher determine_parent l combo self).
Proof.
  unfold HierarchyBuilderE.place_combo, HierarchyBuilder.place_combo.
  unfold mbind. unfold HierarchyBuilderE.ME_bind at 1.
  unfold HierarchyBuilder.M_bind at 1.
  unfold HierarchyBuilderE.of_builder at 1. cbn [fst snd].
  destruct (HierarchyBuilder.getattr "_determine_parent" determine_parent self)
    as [[dp|err] self']; [|reflexivity].
  destruct (_ <=? 5); reflexivity.
Qed.

(** The two models of [build_hierarchy] agree for an enricher that only
    returns. *)
Lemma build_hierarchy_pure_enricher combos e self :
  HierarchyBuilderE.build_hierarchy E (fun n ty e => (Ok (enricher n ty), e))
    determine_parent combos (e, self)
  = beside e (HierarchyBuilder.build_hierarchy enricher determine_parent combos self).
Proof.
  unfold HierarchyBuilderE.build_hierarchy, HierarchyBuilder.build_hierarchy.
  unfold mbind. unfold HierarchyBuilderE.ME_bind at 1.
  unfold HierarchyBuilder.M_bind at 1.
  rewrite (for_each_beside _ (HierarchyBuilder.seed_main_genre enricher) e
             (fun l n self => seed_main_genre_beside l n e self)).
  unfold beside at 1.
  match goal with
  | |- context [for_each HierarchyBuilder.main_genres ?b ?l0 self] =>
      destruct (for_each HierarchyBuilder.main_genres b l0 self) as [[l|err] self1]
  end; cbn [fst snd]; [|reflexivity].
  unfold mbind. unfold HierarchyBuilderE.ME_bind at 1.
  unfold HierarchyBuilder.M_bind at 1.
  rewrite (for_each_beside _ (HierarchyBuilder.place_combo enricher determine_parent) e
             (fun l c self => place_combo_beside l c e self)).
  unfold beside at 1.
  match goal with
  | |- context [for_each ?cs ?b l self1] =>
      destruct (for_each cs b l self1) as [[l'|err] self2]
  end; cbn [fst snd]; reflexivity.
Qed.
End BuilderModels.

(** ** BatchProcessor and MusicGenreAgentV4 *)

Lemma range_step_empty (stop step : Z) :
  stop <= 0 -> 1 <= step -> range_step 0 stop step = Ok [].
Proof.
  intros Hstop Hstep. unfold range_step.
  destruct (Z.eqb_spec step 0); [lia|]. destruct (Z.ltb_spec 0 step); [|lia].
  assert ((stop - 0 + step - 1) / step < 1) by (apply Z.div_lt_upper_bound; lia).
  replace (Z.to_nat ((stop - 0 + step - 1) / step)) with 0%nat by lia.
  reflexivity.
Qed.

Lemma range_step_first (stop step : Z) :
  1 <= stop -> 1 <= step -> exists rest, range_step 0 stop step = Ok (0 :: rest).
Proof.
  intros Hstop Hstep. unfold range_step.
  destruct (Z.eqb_spec step 0); [lia|]. destruct (Z.ltb_spec 0 step); [|lia].
  assert (1 <= (stop - 0 + step - 1) / step) by (apply Z.div_le_lower_bound; lia).
  destruct (Z.to_nat ((stop - 0 + step - 1) / step)) as [|count] eqn:Hcount; [lia|].
  eexists. cbn [seq List.map]. reflexivity.
Qed.

Section Pipeline.
Variable rng : Type.
Variable random_random : rng -> Z * rng.
Variable randbelow : nat -> rng -> nat * rng.
Variable random_sample : list pystr -> Z -> rng -> result (list pystr) * rng.
Variable lower capitalize : pystr -> pystr.
Variable str_isdigit : pystr -> bool.
Variable int_of_str : pystr -> result Z.
Variable config : DynamicGenreGenerator.data_sources.
Variable artist_database : list (pystr * list pystr).
Variable generate_source : pystr -> pystr.
Variable determine_parent : Combo -> gmap pystr Z -> list Genre -> option Z.
Variable re_match : pystr -> pystr -> bool.
Variable rules : QualityAssurance.validation_rules.
Variable jellyfish : option (pystr -> pystr -> Q).
Variable similarity_threshold : Q.

Abbreviation process_batch :=
  (MusicGenreAgentV4.process_batch rng random_random randbelow random_sample lower
     capitalize str_isdigit int_of_str config artist_database generate_source
     determine_parent re_match rules).

Abbreviation process_in_batches :=
  (MusicGenreAgentV4.process_in_batches rng random_random randbelow random_sample
     lower capitalize str_isdigit int_of_str config artist_database generate_source
     determine_parent re_match rules).

Abbreviation generate_database :=
  (MusicGenreAgentV4.generate_database rng random_random randbelow random_sample
     lower capitalize str_isdigit int_of_str config artist_database generate_source
     determine_parent re_match rules jellyfish similarity_threshold).

(** A batch never comes back: the generator raises, or the enricher does
    at the first main genre. *)
Lemma process_batch_raises total_genres all_genres batch_start w :
  exists e w',
    process_batch total_genres all_genres batch_start w = (Raise e, w')
    /\ untouched w w'.
Proof.
  unfold MusicGenreAgentV4.process_batch. cbn zeta.
  destruct (DynamicGenreGenerator.generate_combinations _ _ _ _ _ _)
    as [[combinations|e] g'].
  - destruct (generate_realistic_metadata_raises lower capitalize rng randbelow
                random_sample str_isdigit int_of_str artist_database generate_source
                (u "Blues") (u "main") g') as (e & g'' & Hraise).
    unfold MusicGenreAgentV4.enricher.
    rewrite (build_hierarchy_enricher_raises rng determine_parent _ combinations
               g' (builder w) e g'' Hraise).
    eexists _, _. split; [reflexivity|]. now repeat split.
  - eexists _, _. split; [reflexivity|]. now repeat split.
Qed.

(** The batches yield nothing: no batch and an empty list, or an
    exception. *)
Lemma process_in_batches_cases total_genres w :
  process_in_batches total_genres w = (Ok [], w)
  \/ exists e w', process_in_batches total_genres w = (Raise e, w') /\ untouched w w'.
Proof.
  unfold MusicGenreAgentV4.process_in_batches.
  destruct (range_step 0 total_genres _) as [[|batch_start rest]|e].
  - now left.
  - right. cbn [MusicGenreAgentV4.process_batches].
    destruct (process_batch_raises total_genres [] batch_start w) as (e & w' & -> & Hw).
    now eexists _, _.
  - right. eexists _, _. split; [reflexivity|]. now repeat split.
Qed.

Lemma generate_database_cases target_count w :
  generate_database target_count w
  = (Ok [], mkWorld (random_state w) (builder w) (batch_processor w) (mkStats 0 0 0))
  \/ exists e w', generate_database target_count w = (Raise e, w') /\ untouched w w'.
Proof.
  unfold MusicGenreAgentV4.generate_database.
  destruct (process_in_batches_cases target_count w) as [->|(e & w' & -> & Hw)].
  - now left.
  - right. now eexists _, _.
Qed.

Lemma generate_database_nothing target_count w :
  1 <= BatchProcessor.batch_size (batch_processor w) ->
  target_count <= 0 ->
  generate_database target_count w
  = (Ok [], mkWorld (random_state w) (builder w) (batch_processor w) (mkStats 0 0 0)).
Proof.
  intros Hbatch Htarget. unfold MusicGenreAgentV4.generate_database,
    MusicGenreAgentV4.process_in_batches.
  now rewrite (range_step_empty _ _ Htarget Hbatch).
Qed.

Lemma generate_database_raises target_count w :
  1 <= BatchProcessor.batch_size (batch_processor w) ->
  1 <= target_count ->
  exists e w', generate_database target_count w = (Raise e, w') /\ untouched w w'.
Proof.
  intros Hbatch Htarget. unfold MusicGenreAgentV4.generate_database,
    MusicGenreAgentV4.process_in_batches.
  destruct (range_step_first _ _ Htarget Hbatch) as [rest ->].
  cbn [MusicGenreAgentV4.process_batches].
  destruct (process_batch_raises target_count [] 0 w) as (e & w' & -> & Hw).
  now eexists _, _.
Qed.
End Pipeline.

(** X20. Metadata generation never returns: for every genre name, type,
    artist database, random source and library behaviour the call ends in
    an exception, that of a step that draws or, when all of them return,
    that of the lookup of [_generate_source], a method the class does not
    define. *)
Theorem generate_realistic_metadata_never_returns
    (lower capitalize : pystr -> pystr) (rng : Type)
    (randbelow : nat -> rng -> nat * rng)
    (random_sample : list pystr -> Z -> rng -> result (list pystr) * rng)
    (str_isdigit : pystr -> bool) (int_of_str : pystr -> result Z)
    (artist_database : list (pystr * list pystr))
    (generate_source : pystr -> pystr) (genre_name genre_type : pystr) (g : rng) :
  exists e g',
    MetadataEnricher.generate_realistic_metadata lower capitalize rng randbelow
      random_sample str_isdigit int_of_str artist_database generate_source
      genre_name genre_type g
    = (Raise e, g').
Proof.
  unfold MetadataEnricher.generate_realistic_metadata.
  unfold mbind at 1. unfold MetadataEnricher.R_bind at 1.
  destruct (MetadataEnricher._infer_time_signature _ _ _ _ g) as [[ts|e] g1];
    [|now eexists _, _].
  unfold mbind at 1. unfold MetadataEnricher.R_bind at 1.
  destruct (MetadataEnricher._generate_artists _ _ _ _ _ _ g1)
    as [[[pioneers artists]|e] g2]; [|now eexists _, _].
  unfold mbind at 1. unfold MetadataEnricher.R_bind at 1.
  destruct (MetadataEnricher._generate_works _ _ _ _ _ _ _ g2) as [[works|e] g3];
    [|now eexists _, _].
  now eexists _, _.
Qed.

(** X21. With the enricher of this repository hierarchy building raises
    for every list of candidates, the empty one included: the first main
    genre's metadata call does not return.  No id has been taken, so the
    counter is as before. *)
Theorem build_hierarchy_fails_with_metadata_enricher
    (lower capitalize : pystr -> pystr) (rng : Type)
    (randbelow : nat -> rng -> nat * rng)
    (random_sample : list pystr -> Z -> rng -> result (list pystr) * rng)
    (str_isdigit : pystr -> bool) (int_of_str : pystr -> result Z)
    (artist_database : list (pystr * list pystr))
    (generate_source : pystr -> pystr)
    (determine_parent : Combo -> gmap pystr Z -> list Genre -> option Z)
    (genre_combinations : list Combo) (g : rng) (self : HierarchyBuilder.t) :
  exists e g',
    HierarchyBuilderE.build_hierarchy rng
      (MetadataEnricher.generate_realistic_metadata lower capitalize rng randbelow
         random_sample str_isdigit int_of_str artist_database generate_source)
      determine_parent genre_combinations (g, self)
    = (Raise e, (g', self)).
Proof.
  destruct (generate_realistic_metadata_raises lower capitalize rng randbelow
              random_sample str_isdigit int_of_str artist_database generate_source
              (u "Blues") (u "main") g) as (e & g' & Hraise).
  exists e, g'. now apply build_hierarchy_enricher_raises.
Qed.

(** X22. With a batch size of at least 1, database generation yields no
    entry.  For a target count of 0 or below no batch runs: the result is
    the empty list, and only the counters change, to zero.  For a target
    count of at least 1 the first batch ends the call with an exception,
    whatever the random draws, the data sources and the library functions
    are; the builder has taken no id, and the batch processor and the
    counters are as before. *)
Theorem generate_database_yields_nothing (rng : Type)
    (random_random : rng -> Z * rng) (randbelow : nat -> rng -> nat * rng)
    (random_sample : list pystr -> Z -> rng -> result (list pystr) * rng)
    (lower capitalize : pystr -> pystr) (str_isdigit : pystr -> bool)
    (int_of_str : pystr -> result Z)
    (config : DynamicGenreGenerator.data_sources)
    (artist_database : list (pystr * list pystr))
    (generate_source : pystr -> pystr)
    (determine_parent : Combo -> gmap pystr Z -> list Genre -> option Z)
    (re_match : pystr -> pystr -> bool) (rules : QualityAssurance.validation_rules)
    (jellyfish : option (pystr -> pystr -> Q)) (similarity_threshold : Q)
    (target_count : Z) (w : world rng) :
  1 <= BatchProcessor.batch_size (batch_processor w) ->
  (target_count <= 0 ->
   MusicGenreAgentV4.generate_database rng random_random randbelow random_sample
     lower capitalize str_isdigit int_of_str config artist_database generate_source
     determine_parent re_match rules jellyfish similarity_threshold target_count w
   = (Ok [], mkWorld (random_state w) (builder w) (batch_processor w) (mkStats 0 0 0)))
  /\ (1 <= target_count ->
      exists e w',
        MusicGenreAgentV4.generate_database rng random_random randbelow random_sample
          lower capitalize str_isdigit int_of_str config artist_database
          generate_source determine_parent re_match rules jellyfish
          similarity_threshold target_count w
        = (Raise e, w')
        /\ untouched w w').
Proof.
  intros Hbatch. split; intros Htarget.
  - now apply generate_database_nothing.
  - now apply generate_database_raises.
Qed.

Lemma generate_database_yields_nothing_witness :
  MusicGenreAgentV4.generate_database unit (fun g => (0, g)) draw_first sample_prefix
    lower_latin1 (fun s => s) ascii_isdigit ascii_int
    DynamicGenreGenerator.default_data_sources two_rock_artists (fun s => s)
    (fun _ _ _ => None) QualityAssurance.re_match_default
    QualityAssurance.default_rules None (85 # 100) 0 fresh_world
  = (Ok [], fresh_world)
  /\ exists e w',
       MusicGenreAgentV4.generate_database unit (fun g => (0, g)) draw_first
         sample_prefix lower_latin1 (fun s => s) ascii_isdigit ascii_int
         DynamicGenreGenerator.default_data_sources two_rock_artists (fun s => s)
         (fun _ _ _ => None) QualityAssurance.re_match_default
         QualityAssurance.default_rules None (85 # 100) 15000 fresh_world
       = (Raise e, w')
       /\ untouched fresh_world w'.
Proof.
  assert (H := generate_database_yields_nothing unit (fun g => (0, g)) draw_first
                 sample_prefix lower_latin1 (fun s => s) ascii_isdigit ascii_int
                 DynamicGenreGenerator.default_data_sources two_rock_artists
                 (fun s => s) (fun _ _ _ => None) QualityAssurance.re_match_default
                 QualityAssurance.default_rules None (85 # 100)).
  split.
  - apply (proj1 (H 0 fresh_world ltac:(cbn; lia))). lia.
  - apply (proj2 (H 15000 fresh_world ltac:(cbn; lia))). lia.
Defined.

(** X23. [run] returns the empty list for every target count, batch size,
    random source, configuration and library behaviour, and whatever the
    export and the summary do: generation returns the empty list or raises,
    and the handler answers every exception with the empty list. *)
Theorem run_returns_no_entry (rng : Type)
    (random_random : rng -> Z * rng) (randbelow : nat -> rng -> nat * rng)
    (random_sample : list pystr -> Z -> rng -> result (list pystr) * rng)
    (lower capitalize : pystr -> pystr) (str_isdigit : pystr -> bool)
    (int_of_str : pystr -> result Z)
    (config : DynamicGenreGenerator.data_sources)
    (artist_database : list (pystr * list pystr))
    (generate_source : pystr -> pystr)
    (determine_parent : Combo -> gmap pystr Z -> list Genre -> option Z)
    (re_match : pystr -> pystr -> bool) (rules : QualityAssurance.validation_rules)
    (jellyfish : option (pystr -> pystr -> Q)) (similarity_threshold : Q)
    (export_database print_summary : list Genre -> result unit)
    (target_count : Z) (w : world rng) :
  fst (MusicGenreAgentV4.run rng random_random randbelow random_sample lower
         capitalize str_isdigit int_of_str config artist_database generate_source
         determine_parent re_match rules jellyfish similarity_threshold
         export_database print_summary target_count w) = [].
Proof.
  unfold MusicGenreAgentV4.run.
  destruct (generate_database_cases rng random_random randbelow random_sample lower
              capitalize str_isdigit int_of_str config artist_database
              generate_source determine_parent re_match rules jellyfish
              similarity_threshold target_count w) as [->|(e & w' & -> & _)].
  - destruct (export_database []); [|reflexivity].
    now destruct (print_summary []).
  - reflexivity.
Qed.

(** ** MetadataEnricher: the methods that draw *)

Section Draws.
Variable rng : Type.
Variable randbelow : nat -> rng -> nat * rng.
Hypothesis randbelow_lt : forall n g, (0 < n)%nat -> (fst (randbelow n g) < n)%nat.

Abbreviation R := (MetadataEnricher.R rng).
Abbreviation bind := (MetadataEnricher.R_bind rng).

Lemma returns_ret {A} (P : A -> Prop) a g :
  P a -> returns P (MetadataEnricher.R_ret rng A a) g.
Proof. intros H. now exists a, g. Qed.

Lemma returns_bind {A B} (P : A -> Prop) (Q : B -> Prop) (m : R A) (k : A -> R B) g :
  returns P m g ->
  (forall a g', P a -> returns Q (k a) g') ->
  returns Q (bind A B k m) g.
Proof.
  intros (a & g' & Hm & Ha) Hk. unfold returns, MetadataEnricher.R_bind.
  rewrite Hm. now apply Hk.
Qed.

Lemma returns_weaken {A} (P Q : A -> Prop) (m : R A) g :
  returns P m g -> (forall a, P a -> Q a) -> returns Q m g.
Proof. intros (a & g' & Hm & Ha) HPQ. exists a, g'. auto. Qed.

Lemma returns_lift {A} (P : A -> Prop) (r : result A) a g :
  r = Ok a -> P a -> returns P (MetadataEnricher.lift rng r) g.
Proof. intros -> Ha. now exists a, g. Qed.

Lemma returns_choice {A} (seq : list A) g :
  seq <> [] -> returns (fun x => In x seq) (MetadataEnricher.choice rng randbelow seq) g.
Proof using randbelow_lt.
  intros Hne. unfold returns, MetadataEnricher.choice.
  destruct seq as [|x seq']; [contradiction|].
  assert (Hlt := randbelow_lt (length (x :: seq')) g ltac:(cbn; lia)).
  destruct (randbelow _ g) as [i g']. cbn [fst] in Hlt.
  destruct (lookup_lt_is_Some_2 (x :: seq') i Hlt) as [y Hy]. rewrite Hy.
  exists y, g'. split; [reflexivity|].
  eapply list_elem_of_In, list_elem_of_lookup_2, Hy.
Qed.

Lemma returns_randint (a b : Z) g :
  a <= b ->
  returns (fun y => a <= y <= b) (MetadataEnricher.randint rng randbelow a b) g.
Proof using randbelow_lt.
  intros Hab. unfold returns, MetadataEnricher.randint.
  destruct (Z.leb_spec a b); [|lia].
  assert (Hlt := randbelow_lt (Z.to_nat (b - a + 1)) g ltac:(lia)).
  destruct (randbelow _ g) as [i g']. cbn [fst] in Hlt.
  exists (a + Z.of_nat i), g'. split; [reflexivity|]. lia.
Qed.

(** A loop whose body returns and takes the invariant from [k] rounds to
    [k + 1] returns, with the invariant at the number of rounds. *)
Lemma returns_for_each {A S} (I : nat -> S -> Prop) (body : S -> A -> R S) xs :
  (forall k s x g, I k s -> returns (I (Datatypes.S k)) (body s x) g) ->
  forall k s g, I k s ->
    returns (I (k + length xs)%nat)
      (@for_each _ bind (MetadataEnricher.R_ret rng) _ _ xs body s) g.
Proof.
  intros Hbody. induction xs as [|x xs IH]; intros k s g Hs.
  - cbn [for_each length]. rewrite Nat.add_0_r. unfold mret. now apply returns_ret.
  - cbn [for_each length]. unfold mbind at 1.
    eapply (returns_bind (I (Datatypes.S k))); [apply Hbody, Hs|].
    intros s' g' Hs'. replace (k + Datatypes.S (length xs))%nat
      with (Datatypes.S k + length xs)%nat by lia.
    now apply IH.
Qed.

Section Works.
Variable str_isdigit : pystr -> bool.
Variable int_of_str : pystr -> result Z.
Variable period : pystr.
Hypothesis first_year :
  str_in (u "-") period = true -> str_isdigit (split_first 45 period) = true ->
  exists n, int_of_str (split_first 45 period) = Ok n /\ n <= 2024.

Lemma format_work_template template adjective noun verb key number place color emotion :
  In template
    [ u "{adjective} {noun}"; u "The {adjective} {noun}"; u "{noun} in {key}";
      u "{verb}ing {noun}"; u "{noun} No. {number}"; u "{place} {noun}";
      u "{color} {noun}"; u "{emotion} {noun}" ] ->
  exists work,
    format template
      [ (u "adjective", adjective); (u "noun", noun); (u "verb", verb);
        (u "key", key); (u "number", number); (u "place", place);
        (u "color", color); (u "emotion", emotion) ] = Ok work.
Proof.
  intros Hin. repeat destruct Hin as [<-|Hin]; try contradiction;
    vm_compute; eexists; reflexivity.
Qed.

Lemma generate_work_returns works i g :
  returns (fun works' => exists work, works' = works ++ [work] /\ is_dated_title work)
    (MetadataEnricher.generate_work rng randbelow str_isdigit int_of_str period works i) g.
Proof using randbelow_lt first_year.
  unfold MetadataEnricher.generate_work. cbv zeta. unfold mbind, mret.
  eapply returns_bind; [apply returns_choice; discriminate|].
  intros template g1 Htemplate.
  eapply (returns_bind (fun year => year <= 2024)).
  { destruct (str_in (u "-") period) eqn:Hdash.
    - destruct (str_isdigit _) eqn:Hdigit.
      + destruct (first_year eq_refl eq_refl) as (n & Hn & Hle).
        eapply returns_bind; [now apply (returns_lift (fun m => m = n) _ n)|].
        intros start g2 ->.
        eapply returns_weaken; [now apply returns_randint|]. cbn beta. lia.
      + eapply returns_weaken; [apply returns_randint; lia|]. cbn beta. lia.
    - eapply returns_weaken; [apply returns_randint; lia|]. cbn beta. lia. }
  intros year g2 Hyear.
  eapply returns_bind; [apply returns_choice; discriminate|]. intros adjective g3 _.
  eapply returns_bind; [apply returns_choice; discriminate|]. intros noun g4 _.
  eapply returns_bind; [apply returns_choice; discriminate|]. intros verb g5 _.
  eapply returns_bind; [apply returns_choice; discriminate|]. intros key g6 _.
  eapply returns_bind; [apply returns_randint; lia|]. intros number g7 _.
  eapply returns_bind; [apply returns_choice; discriminate|]. intros place g8 _.
  eapply returns_bind; [apply returns_choice; discriminate|]. intros color g9 _.
  eapply returns_bind; [apply returns_choice; discriminate|]. intros emotion g10 _.
  destruct (format_work_template template adjective noun verb key (str_of_int number)
              place color emotion Htemplate) as [work Hwork].
  eapply returns_bind; [now apply (returns_lift (fun w => w = work) _ work)|].
  intros work' g11 ->.
  apply returns_ret. exists (work ++ u " (" ++ str_of_int year ++ u ")").
  split; [reflexivity|]. now exists work, year.
Qed.

Lemma generate_works_returns genre_name artists g :
  returns (fun text => exists works,
             text = join (u "/") works /\ length works = 10%nat
             /\ Forall is_dated_title works)
    (MetadataEnricher._generate_works rng randbelow str_isdigit int_of_str
       genre_name artists period) g.
Proof using randbelow_lt first_year.
  unfold MetadataEnricher._generate_works. unfold mbind, mret.
  eapply returns_bind.
  - apply (returns_for_each
             (fun k works => length works = k /\ Forall is_dated_title works)
             (MetadataEnricher.generate_work rng randbelow str_isdigit int_of_str period)
             (range 10)).
    + intros k s x g0 [Hk Hs].
      eapply returns_weaken; [apply generate_work_returns|].
      cbn beta. intros works' (work & -> & Hwork). split.
      * rewrite length_app. cbn [length]. lia.
      * apply Forall_app. split; [assumption|]. now constructor.
    + split; [reflexivity|constructor].
  - intros works g' [Hlen Hworks]. apply returns_ret. exists works.
    change (length [] + length (range 10))%nat with 10%nat in Hlen.
    split; [|split; assumption].
    f_equal. apply slice_to_short. unfold len. rewrite Hlen. lia.
Qed.
End Works.
End Draws.

Section ArtistDatabase.
Variable lower : pystr -> pystr.
Variable rng : Type.
Variable randbelow : nat -> rng -> nat * rng.
Variable random_sample : list pystr -> Z -> rng -> result (list pystr) * rng.
Hypothesis randbelow_lt : forall n g, (0 < n)%nat -> (fst (randbelow n g) < n)%nat.
Hypothesis sample_returns : forall population k g,
  0 <= k <= len population ->
  exists chosen g', random_sample population k g = (Ok chosen, g') /\ len chosen = k.

Lemma generate_artist_returns genre_type artists i g :
  returns (fun artists' => length artists' = Datatypes.S (length artists))
    (MetadataEnricher.generate_artist rng randbelow genre_type artists i) g.
Proof using randbelow_lt.
  unfold MetadataEnricher.generate_artist. cbv zeta. unfold mbind, mret.
  eapply returns_bind; [apply returns_choice; [assumption|discriminate]|].
  intros first g1 _.
  eapply returns_bind; [apply returns_choice; [assumption|discriminate]|].
  intros last g2 _.
  eapply (returns_bind rng (fun _ : Z * Z => True)).
  { destruct (bool_decide _); [|destruct (list_in _ _)].
    - eapply returns_bind; [apply returns_randint; [assumption|lia]|]. intros birth g3 _.
      eapply returns_bind; [apply returns_randint; [assumption|lia]|]. intros years g4 _.
      now apply returns_ret.
    - eapply returns_bind; [apply returns_randint; [assumption|lia]|]. intros birth g3 _.
      eapply returns_bind; [apply returns_randint; [assumption|lia]|]. intros years g4 _.
      now apply returns_ret.
    - eapply returns_bind; [apply returns_randint; [assumption|lia]|]. intros birth g3 _.
      destruct (birth >? 1960); [now apply returns_ret|].
      eapply returns_bind; [apply returns_randint; [assumption|lia]|]. intros years g4 _.
      now apply returns_ret. }
  intros [birth death] g3 _. apply returns_ret.
  rewrite length_app. cbn [length]. lia.
Qed.

Lemma fifty_artists_return genre_type g :
  returns (fun artists => length artists = 50%nat)
    (@for_each _ (MetadataEnricher.R_bind rng) (MetadataEnricher.R_ret rng) _ _
       (range 50) (MetadataEnricher.generate_artist rng randbelow genre_type) []) g.
Proof using randbelow_lt.
  apply (returns_for_each rng (fun k artists => length artists = k)
           (MetadataEnricher.generate_artist rng randbelow genre_type) (range 50)
           ltac:(intros k s x g0 <-; apply generate_artist_returns)
           0%nat [] g eq_refl).
Qed.

Lemma artist_entry_returns db genre_type g :
  returns (fun db' => exists artists,
             db' = dict_set db genre_type artists /\ length artists = 50%nat)
    (MetadataEnricher.R_bind rng _ _
       (fun artists => MetadataEnricher.R_ret rng _ (dict_set db genre_type artists))
       (@for_each _ (MetadataEnricher.R_bind rng) (MetadataEnricher.R_ret rng) _ _
          (range 50) (MetadataEnricher.generate_artist rng randbelow genre_type) []))
    g.
Proof using randbelow_lt.
  eapply returns_bind; [apply fifty_artists_return|].
  intros artists g' Hfifty. apply returns_ret. now exists artists.
Qed.

(** The database [__init__] builds: the six genres in their order, fifty
    artists each. *)
Lemma generate_artist_database_returns g :
  returns (fun db => List.map fst db
                     = [u "Blues"; u "Jazz"; u "Rock"; u "Electronic"; u "Classical";
                        u "Folk"]
                     /\ Forall (fun kv => length (snd kv) = 50%nat) db)
    (MetadataEnricher._generate_artist_database rng randbelow) g.
Proof using randbelow_lt.
  unfold MetadataEnricher._generate_artist_database. cbn [for_each].
  unfold mbind, mret.
  eapply returns_bind; [apply artist_entry_returns|]. intros ? g1 (a1 & -> & H1).
  eapply returns_bind; [apply artist_entry_returns|]. intros ? g2 (a2 & -> & H2).
  eapply returns_bind; [apply artist_entry_returns|]. intros ? g3 (a3 & -> & H3).
  eapply returns_bind; [apply artist_entry_returns|]. intros ? g4 (a4 & -> & H4).
  eapply returns_bind; [apply artist_entry_returns|]. intros ? g5 (a5 & -> & H5).
  eapply returns_bind; [apply artist_entry_returns|]. intros ? g6 (a6 & -> & H6).
  apply returns_ret. split; [vm_compute; reflexivity|].
  vm_compute dict_set. repeat constructor; assumption.
Qed.

(** On such a database every lookup of [_generate_artists] succeeds. *)
Lemma generate_artists_returns db genre_name period g :
  List.map fst db
  = [u "Blues"; u "Jazz"; u "Rock"; u "Electronic"; u "Classical"; u "Folk"] ->
  Forall (fun kv => length (snd kv) = 50%nat) db ->
  returns (fun pa => exists pioneers artists,
             pa = (join (u "/") pioneers, join (u "/") artists)
             /\ len pioneers = 5 /\ len artists = 10)
    (MetadataEnricher._generate_artists lower rng random_sample db genre_name period) g.
Proof using sample_returns.
  intros Hkeys Hfifty.
  destruct db as [|[k1 a1] [|[k2 a2] [|[k3 a3] [|[k4 a4] [|[k5 a5] [|[k6 a6] [|]]]]]]];
    try discriminate Hkeys.
  cbn [List.map fst] in Hkeys. injection Hkeys as -> -> -> -> -> ->.
  repeat match goal with
         | H : Forall _ (_ :: _) |- _ => apply Forall_cons_1 in H as [? H]
         end.
  cbn [snd] in *.
  unfold MetadataEnricher._generate_artists. cbv zeta. unfold mbind, mret.
  eapply returns_bind;
    [apply (returns_lift rng (fun rock => rock = a3) _ a3); [vm_compute|]; reflexivity|].
  intros rock g1 ->.
  set (available := default a3 _).
  assert (Havailable : len available = 50).
  { subst available. unfold len. cbn [List.map fst List.find].
    repeat match goal with
           | |- context [if ?c then _ else _] => destruct c
           end;
      vm_compute default; lia. }
  destruct (sample_returns available (Z.min 5 (len available)) g1 ltac:(lia))
    as (pioneers & g2 & Hpioneers & Hfive).
  eapply (returns_bind rng (fun chosen => chosen = pioneers));
    [now exists pioneers, g2|].
  intros ? g2' ->.
  destruct (sample_returns available (Z.min 10 (len available)) g2' ltac:(lia))
    as (artists & g3 & Hartists & Hten).
  eapply (returns_bind rng (fun chosen => chosen = artists));
    [now exists artists, g3|].
  intros ? g3' ->.
  apply returns_ret. exists pioneers, artists. split; [reflexivity|]. lia.
Qed.
End ArtistDatabase.

(** A first year after 2024 leaves [random.randint] an empty range. *)
Lemma generate_work_late_period (rng : Type) (randbelow : nat -> rng -> nat * rng)
    (str_isdigit : pystr -> bool) (int_of_str : pystr -> result Z)
    (period : pystr) (works : list pystr) (i : nat) (g : rng) (n : Z) :
  (forall n g, (0 < n)%nat -> (fst (randbelow n g) < n)%nat) ->
  str_in (u "-") period = true ->
  str_isdigit (split_first 45 period) = true ->
  int_of_str (split_first 45 period) = Ok n ->
  2024 < n ->
  exists g',
    MetadataEnricher.generate_work rng randbelow str_isdigit int_of_str period
      works i g = (Raise ValueError, g').
Proof.
  intros Hlt Hdash Hdigit Hint Hlate.
  unfold MetadataEnricher.generate_work. cbv zeta.
  rewrite Hdash, Hdigit, Hint.
  destruct (returns_choice rng randbelow Hlt
              [ u "{adjective} {noun}"; u "The {adjective} {noun}";
                u "{noun} in {key}"; u "{verb}ing {noun}"; u "{noun} No. {number}";
                u "{place} {noun}"; u "{color} {noun}"; u "{emotion} {noun}" ]
              g ltac:(discriminate))
    as (template & g1 & Htemplate & _).
  exists g1. unfold mbind, MetadataEnricher.R_bind. rewrite Htemplate.
  unfold MetadataEnricher.lift, MetadataEnricher.randint.
  destruct (Z.leb_spec n 2024); [lia|]. reflexivity.
Qed.

Lemma generate_works_late_period (rng : Type) (randbelow : nat -> rng -> nat * rng)
    (str_isdigit : pystr -> bool) (int_of_str : pystr -> result Z)
    (genre_name artists period : pystr) (g : rng) (n : Z) :
  (forall n g, (0 < n)%nat -> (fst (randbelow n g) < n)%nat) ->
  str_in (u "-") period = true ->
  str_isdigit (split_first 45 period) = true ->
  int_of_str (split_first 45 period) = Ok n ->
  2024 < n ->
  exists g',
    MetadataEnricher._generate_works rng randbelow str_isdigit int_of_str
      genre_name artists period g = (Raise ValueError, g').
Proof.
  intros Hlt Hdash Hdigit Hint Hlate.
  destruct (generate_work_late_period rng randbelow str_isdigit int_of_str period
              [] 0%nat g n Hlt Hdash Hdigit Hint Hlate) as [g' Hwork].
  exists g'. unfold MetadataEnricher._generate_works.
  change (range 10) with (0%nat :: seq 1 9). cbn [for_each].
  unfold mbind at 1. unfold MetadataEnricher.R_bind at 1.
  unfold mbind at 1. unfold MetadataEnricher.R_bind at 1.
  now rewrite Hwork.
Qed.

(** X24. With a [_randbelow] that stays in range, the works generation
    returns ten titles joined by slashes, each followed by a year up to
    2024 in brackets, whenever the period has no hyphen, its text before the
    first hyphen is not a number, or that number is at most 2024: every
    template names only fields that are supplied.  When the number is above
    2024, the range of years is empty and the call raises ValueError. *)
Theorem generate_works_returns_ten_titles (rng : Type)
    (randbelow : nat -> rng -> nat * rng) (str_isdigit : pystr -> bool)
    (int_of_str : pystr -> result Z) (genre_name artists period : pystr) (g : rng) :
  (forall n g, (0 < n)%nat -> (fst (randbelow n g) < n)%nat) ->
  let call :=
    MetadataEnricher._generate_works rng randbelow str_isdigit int_of_str
      genre_name artists period g in
  let first_year := split_first 45 period in
  ((str_in (u "-") period = true -> str_isdigit first_year = true ->
    exists n, int_of_str first_year = Ok n /\ n <= 2024) ->
   exists works g',
     call = (Ok (join (u "/") works), g')
     /\ length works = 10%nat
     /\ Forall is_dated_title works)
  /\ (forall n,
        str_in (u "-") period = true -> str_isdigit first_year = true ->
        int_of_str first_year = Ok n -> 2024 < n ->
        exists g', call = (Raise ValueError, g')).
Proof.
  intros Hlt. cbn zeta. split.
  - intros Hyear.
    destruct (generate_works_returns rng randbelow Hlt str_isdigit int_of_str period
                Hyear genre_name artists g)
      as (text & g' & Hrun & works & -> & Hlen & Hworks).
    now exists works, g'.
  - intros n Hdash Hdigit Hint Hlate.
    now apply (generate_works_late_period rng randbelow str_isdigit int_of_str
                 genre_name artists period g n).
Qed.

Lemma generate_works_returns_ten_titles_witness :
  (exists works g',
     MetadataEnricher._generate_works unit draw_first ascii_isdigit ascii_int
       (u "Baroque Jazz") [] (u "1600-1750") tt = (Ok (join (u "/") works), g')
     /\ length works = 10%nat
     /\ Forall is_dated_title works)
  /\ exists g',
       MetadataEnricher._generate_works unit draw_first ascii_isdigit ascii_int
         (u "Future Jazz") [] (u "2100-now") tt = (Raise ValueError, g').
Proof.
  split.
  - apply (proj1 (generate_works_returns_ten_titles unit draw_first ascii_isdigit
                    ascii_int (u "Baroque Jazz") [] (u "1600-1750") tt
                    ltac:(intros n g Hn; exact Hn))).
    intros _ _. exists 1600. split; [reflexivity|lia].
  - apply (proj2 (generate_works_returns_ten_titles unit draw_first ascii_isdigit
                    ascii_int (u "Future Jazz") [] (u "2100-now") tt
                    ltac:(intros n g Hn; exact Hn)) 2100);
      [reflexivity|reflexivity|reflexivity|lia].
Defined.

(** X25. With a [_randbelow] that stays in range, the artist database that
    [__init__] builds holds the six genres Blues, Jazz, Rock, Electronic,
    Classical and Folk, in this order, with fifty artists each.  On this
    database, and with a [random.sample] that returns [k] of at least [k]
    artists, the artist generation returns for every genre name: the Rock
    entry that [get] takes as default is there, and five pioneers and ten
    artists are drawn. *)
Theorem generate_artists_from_built_database (lower : pystr -> pystr) (rng : Type)
    (randbelow : nat -> rng -> nat * rng)
    (random_sample : list pystr -> Z -> rng -> result (list pystr) * rng)
    (g0 : rng) :
  (forall n g, (0 < n)%nat -> (fst (randbelow n g) < n)%nat) ->
  (forall population k g,
     0 <= k <= len population ->
     exists chosen g', random_sample population k g = (Ok chosen, g') /\ len chosen = k) ->
  exists artist_database g1,
    MetadataEnricher._generate_artist_database rng randbelow g0
    = (Ok artist_database, g1)
    /\ List.map fst artist_database
       = [u "Blues"; u "Jazz"; u "Rock"; u "Electronic"; u "Classical"; u "Folk"]
    /\ Forall (fun entry => length (snd entry) = 50%nat) artist_database
    /\ forall genre_name period g,
         exists pioneers artists g',
           MetadataEnricher._generate_artists lower rng random_sample artist_database
             genre_name period g
           = (Ok (join (u "/") pioneers, join (u "/") artists), g')
           /\ len pioneers = 5 /\ len artists = 10.
Proof.
  intros Hlt Hsample.
  destruct (generate_artist_database_returns rng randbelow Hlt g0)
    as (db & g1 & Hrun & Hkeys & Hfifty).
  exists db, g1. split; [exact Hrun|]. split; [exact Hkeys|]. split; [exact Hfifty|].
  intros genre_name period g.
  destruct (generate_artists_returns lower rng random_sample Hsample db genre_name
              period g Hkeys Hfifty)
    as (pa & g' & Hartists & pioneers & artists & -> & Hfive & Hten).
  now exists pioneers, artists, g'.
Qed.

Lemma generate_artists_from_built_database_witness :
  exists artist_database g1,
    MetadataEnricher._generate_artist_database unit draw_first tt
    = (Ok artist_database, g1)
    /\ List.map fst artist_database
       = [u "Blues"; u "Jazz"; u "Rock"; u "Electronic"; u "Classical"; u "Folk"]
    /\ Forall (fun entry => length (snd entry) = 50%nat) artist_database
    /\ forall genre_name period g,
         exists pioneers artists g',
           MetadataEnricher._generate_artists lower_latin1 unit sample_prefix
             artist_database genre_name period g
           = (Ok (join (u "/") pioneers, join (u "/") artists), g')
           /\ len pioneers = 5 /\ len artists = 10.
Proof.
  apply (generate_artists_from_built_database lower_latin1 unit draw_first
           sample_prefix tt).
  - intros n g Hn. exact Hn.
  - intros population k g Hk. exists (take (Z.to_nat k) population), g.
    split; [reflexivity|]. unfold len in *. rewrite length_take. lia.
Defined.

(** ** The exception a run ends with *)

Section AttributeError.
Variable rng : Type.
Variable random_random : rng -> Z * rng.
Variable randbelow : nat -> rng -> nat * rng.
Variable random_sample : list pystr -> Z -> rng -> result (list pystr) * rng.
Variable lower capitalize : pystr -> pystr.
Variable str_isdigit : pystr -> bool.
Variable int_of_str : pystr -> result Z.
Variable config : DynamicGenreGenerator.data_sources.
Variable artist_database : list (pystr * list pystr).
Variable generate_source : pystr -> pystr.
Variable determine_parent : Combo -> gmap pystr Z -> list Genre -> option Z.
Variable re_match : pystr -> pystr -> bool.
Variable rules : QualityAssurance.validation_rules.
Variable jellyfish : option (pystr -> pystr -> Q).
Variable similarity_threshold : Q.

Hypothesis randbelow_lt : forall n g, (0 < n)%nat -> (fst (randbelow n g) < n)%nat.
Hypothesis sample_returns : forall population k g,
  0 <= k <= len population ->
  exists chosen g', random_sample population k g = (Ok chosen, g') /\ len chosen = k.
Hypothesis isdigit_ascii : forall s, is_ascii s = true -> str_isdigit s = ascii_isdigit s.
Hypothesis int_ascii : forall s, ascii_isdigit s = true -> int_of_str s = ascii_int s.
Hypothesis database_keys :
  List.map fst artist_database
  = [u "Blues"; u "Jazz"; u "Rock"; u "Electronic"; u "Classical"; u "Folk"].
Hypothesis database_fifty :
  Forall (fun entry => length (snd entry) = 50%nat) artist_database.

(** The first year of an inferred period is no number or at most 2000. *)
Lemma inferred_period_first_year genre_name :
  let period := MetadataEnricher._infer_period lower genre_name in
  str_in (u "-") period = true -> str_isdigit (split_first 45 period) = true ->
  exists n, int_of_str (split_first 45 period) = Ok n /\ n <= 2024.
Proof using isdigit_ascii int_ascii.
  cbn zeta.
  assert (Hall : forallb (fun p : pystr =>
                   let first_year := split_first 45 p in
                   is_ascii first_year
                   && (if ascii_isdigit first_year
                       then match ascii_int first_year with
                            | Ok n => n <=? 2024
                            | Raise _ => false
                            end
                       else true))
                   (List.map snd MetadataEnricher.period_rules
                    ++ [u "1980-now"; u "1800-now"; u "1600-1900"; u "1950-now"])
                 = true) by (vm_compute; reflexivity).
  rewrite forallb_forall in Hall.
  assert (Hp := Hall _ (infer_period_values lower genre_name)). cbn zeta in Hp.
  apply andb_true_iff in Hp as [Hascii Hyear].
  intros _ Hdigit. rewrite (isdigit_ascii _ Hascii) in Hdigit.
  rewrite Hdigit in Hyear. rewrite (int_ascii _ Hdigit).
  destruct (ascii_int _) as [n|e]; [|discriminate].
  exists n. split; [reflexivity|]. now apply Z.leb_le.
Qed.

Lemma metadata_attribute_error genre_name genre_type g :
  exists g',
    MetadataEnricher.generate_realistic_metadata lower capitalize rng randbelow
      random_sample str_isdigit int_of_str artist_database generate_source
      genre_name genre_type g
    = (Raise (AttributeError "_generate_source"), g').
Proof using randbelow_lt sample_returns isdigit_ascii int_ascii database_keys
  database_fifty.
  destruct (infer_time_signature_named lower rng randbelow randbelow_lt genre_name g)
    as (ts & g1 & Hts & _).
  destruct (generate_artists_returns lower rng random_sample sample_returns
              artist_database genre_name
              (MetadataEnricher._infer_period lower genre_name) g1
              database_keys database_fifty)
    as (pa & g2 & Hartists & pioneers & artists & -> & _).
  destruct (generate_works_returns rng randbelow randbelow_lt str_isdigit int_of_str
              (MetadataEnricher._infer_period lower genre_name)
              (inferred_period_first_year genre_name) genre_name
              (join (u "/") artists) g2)
    as (works & g3 & Hworks & _).
  exists g3. unfold MetadataEnricher.generate_realistic_metadata.
  unfold mbind at 1. unfold MetadataEnricher.R_bind at 1. rewrite Hts.
  unfold mbind at 1. unfold MetadataEnricher.R_bind at 1. rewrite Hartists.
  unfold mbind at 1. unfold MetadataEnricher.R_bind at 1. rewrite Hworks.
  reflexivity.
Qed.

Hypothesis regions_nonempty : DynamicGenreGenerator.regions config <> [].
Hypothesis base_genres_nonempty : DynamicGenreGenerator.base_genres config <> [].

Lemma generate_database_attribute_error target_count (w : world rng) :
  1 <= BatchProcessor.batch_size (batch_processor w) ->
  1 <= target_count ->
  exists w',
    MusicGenreAgentV4.generate_database rng random_random randbelow random_sample
      lower capitalize str_isdigit int_of_str config artist_database generate_source
      determine_parent re_match rules jellyfish similarity_threshold target_count w
    = (Raise (AttributeError "_generate_source"), w')
    /\ untouched w w'.
Proof using randbelow_lt sample_returns isdigit_ascii int_ascii database_keys
  database_fifty regions_nonempty base_genres_nonempty.
  intros Hbatch Htarget. unfold MusicGenreAgentV4.generate_database,
    MusicGenreAgentV4.process_in_batches.
  destruct (range_step_first _ _ Htarget Hbatch) as [rest ->].
  cbn [MusicGenreAgentV4.process_batches].
  unfold MusicGenreAgentV4.process_batch at 1. cbn zeta.
  set (limit := Z.min (0 + BatchProcessor.batch_size (batch_processor w)) target_count - 0).
  destruct (generate_combinations_count rng random_random randbelow config limit
              (random_state w) randbelow_lt regions_nonempty base_genres_nonempty)
    as (generated & g' & Hrun & _); [subst limit; lia|].
  rewrite Hrun.
  destruct (metadata_attribute_error (u "Blues") (u "main") g') as [g'' Hraise].
  unfold MusicGenreAgentV4.enricher.
  rewrite (build_hierarchy_enricher_raises rng determine_parent _ generated
             g' (builder w) _ g'' Hraise).
  eexists. split; [reflexivity|]. now repeat split.
Qed.
End AttributeError.

(** X26. Where the library behaves as it does on the program's own data
    (a [_randbelow] in range, a [random.sample] that returns [k] of at least
    [k] items, [str.isdigit] and [int] as on ASCII digits) and the artist
    database is as [__init__] builds it, metadata generation ends, for
    every genre name and type, in the AttributeError of [_generate_source]:
    no earlier step raises. *)
Theorem generate_realistic_metadata_attribute_error
    (lower capitalize : pystr -> pystr) (rng : Type)
    (randbelow : nat -> rng -> nat * rng)
    (random_sample : list pystr -> Z -> rng -> result (list pystr) * rng)
    (str_isdigit : pystr -> bool) (int_of_str : pystr -> result Z)
    (artist_database : list (pystr * list pystr))
    (generate_source : pystr -> pystr) (genre_name genre_type : pystr) (g : rng) :
  (forall n g, (0 < n)%nat -> (fst (randbelow n g) < n)%nat) ->
  (forall population k g,
     0 <= k <= len population ->
     exists chosen g', random_sample population k g = (Ok chosen, g') /\ len chosen = k) ->
  (forall s, is_ascii s = true -> str_isdigit s = ascii_isdigit s) ->
  (forall s, ascii_isdigit s = true -> int_of_str s = ascii_int s) ->
  List.map fst artist_database
  = [u "Blues"; u "Jazz"; u "Rock"; u "Electronic"; u "Classical"; u "Folk"] ->
  Forall (fun entry => length (snd entry) = 50%nat) artist_database ->
  exists g',
    MetadataEnricher.generate_realistic_metadata lower capitalize rng randbelow
      random_sample str_isdigit int_of_str artist_database generate_source
      genre_name genre_type g
    = (Raise (AttributeError "_generate_source"), g').
Proof.
  intros Hlt Hsample Hdigit Hint Hkeys Hfifty.
  now apply metadata_attribute_error.
Qed.

Lemma generate_realistic_metadata_attribute_error_witness :
  exists g',
    MetadataEnricher.generate_realistic_metadata lower_latin1 (fun s => s) unit
      draw_first sample_prefix ascii_isdigit ascii_int fifty_artists_each
      (fun s => s) (u "Baroque Jazz") (u "era_variant") tt
    = (Raise (AttributeError "_generate_source"), g').
Proof.
  apply (generate_realistic_metadata_attribute_error lower_latin1 (fun s => s) unit
           draw_first sample_prefix ascii_isdigit ascii_int fifty_artists_each
           (fun s => s) (u "Baroque Jazz") (u "era_variant") tt).
  - intros n g Hn. exact Hn.
  - intros population k g Hk. exists (take (Z.to_nat k) population), g.
    split; [reflexivity|]. unfold len in *. rewrite length_take. lia.
  - intros s _. reflexivity.
  - intros s _. reflexivity.
  - reflexivity.
  - repeat constructor.
Defined.

(** X27. Under the same conditions on the library and the artist
    database, with non-empty region and base-genre lists and a batch size of
    at least 1, database generation for a target count of at least 1 ends
    in the AttributeError of [_generate_source]: the generator returns its
    candidates, and the metadata call for the first main genre raises.  The
    builder has taken no id, and the batch processor and the counters are
    as before. *)
Theorem generate_database_ends_in_attribute_error (rng : Type)
    (random_random : rng -> Z * rng) (randbelow : nat -> rng -> nat * rng)
    (random_sample : list pystr -> Z -> rng -> result (list pystr) * rng)
    (lower capitalize : pystr -> pystr) (str_isdigit : pystr -> bool)
    (int_of_str : pystr -> result Z)
    (config : DynamicGenreGenerator.data_sources)
    (artist_database : list (pystr * list pystr))
    (generate_source : pystr -> pystr)
    (determine_parent : Combo -> gmap pystr Z -> list Genre -> option Z)
    (re_match : pystr -> pystr -> bool) (rules : QualityAssurance.validation_rules)
    (jellyfish : option (pystr -> pystr -> Q)) (similarity_threshold : Q)
    (target_count : Z) (w : world rng) :
  (forall n g, (0 < n)%nat -> (fst (randbelow n g) < n)%nat) ->
  (forall population k g,
     0 <= k <= len population ->
     exists chosen g', random_sample population k g = (Ok chosen, g') /\ len chosen = k) ->
  (forall s, is_ascii s = true -> str_isdigit s = ascii_isdigit s) ->
  (forall s, ascii_isdigit s = true -> int_of_str s = ascii_int s) ->
  List.map fst artist_database
  = [u "Blues"; u "Jazz"; u "Rock"; u "Electronic"; u "Classical"; u "Folk"] ->
  Forall (fun entry => length (snd entry) = 50%nat) artist_database ->
  DynamicGenreGenerator.regions config <> [] ->
  DynamicGenreGenerator.base_genres config <> [] ->
  1 <= BatchProcessor.batch_size (batch_processor w) ->
  1 <= target_count ->
  exists w',
    MusicGenreAgentV4.generate_database rng random_random randbelow random_sample
      lower capitalize str_isdigit int_of_str config artist_database generate_source
      determine_parent re_match rules jellyfish similarity_threshold target_count w
    = (Raise (AttributeError "_generate_source"), w')
    /\ untouched w w'.
Proof.
  intros Hlt Hsample Hdigit Hint Hkeys Hfifty Hregions Hbase Hbatch Htarget.
  now apply generate_database_attribute_error.
Qed.

Lemma generate_database_ends_in_attribute_error_witness :
  exists w',
    MusicGenreAgentV4.generate_database unit (fun g => (0, g)) draw_first
      sample_prefix lower_latin1 (fun s => s) ascii_isdigit ascii_int
      DynamicGenreGenerator.default_data_sources fifty_artists_each (fun s => s)
      (fun _ _ _ => None) QualityAssurance.re_match_default
      QualityAssurance.default_rules None (85 # 100) 15000 fresh_world
    = (Raise (AttributeError "_generate_source"), w')
    /\ untouched fresh_world w'.
Proof.
  apply (generate_database_ends_in_attribute_error unit (fun g => (0, g)) draw_first
           sample_prefix lower_latin1 (fun s => s) ascii_isdigit ascii_int
           DynamicGenreGenerator.default_data_sources fifty_artists_each (fun s => s)
           (fun _ _ _ => None) QualityAssurance.re_match_default
           QualityAssurance.default_rules None (85 # 100) 15000 fresh_world).
  - intros n g Hn. exact Hn.
  - intros population k g Hk. exists (take (Z.to_nat k) population), g.
    split; [reflexivity|]. unfold len in *. rewrite length_take. lia.
  - intros s _. reflexivity.
  - intros s _. reflexivity.
  - reflexivity.
  - repeat constructor.
  - discriminate.
  - discriminate.
  - cbn. lia.
  - lia.
Defined.
